(** * TaskFlow API: role-based authorization and session tokens

    A shallow embedding of the authorization core of the TaskFlow backend
    (Go): the permission table, the JWT issuers and verifier, the
    password-reset registry, the password life cycle, and the handler-level
    access rules for role updates and tasks; further, registration and
    login, the profile and task services with their handlers, the listing
    of tasks, and the seeding of the default roles.

    Conventions.
    - A Go [string] and a Go [[]byte] are both byte sequences: [string].
    - A Go [error] is [option string] ([None] is [nil], [Some msg] is an
      error whose [Error()] text is [msg]); a Go [(T, error)] is [result T].
    - A MongoDB collection is the list of its documents in natural order.
    - The wall clock, the entropy source and freshly drawn object ids are
      arguments of the operations that read them.
    - Third-party libraries are interfaces: SHA-2, bcrypt, base64url and
      encoding/json are the methods of the class [Platform], the struct
      validator those of the classes [Validator] and [ProfileValidator],
      [strings.ToLower] and the server's regular expressions those of the
      class [Server]. *)

From Stdlib Require Import ZArith NArith Ascii String.
From stdpp Require Import base option list gmap strings sorting.

Local Open Scope Z_scope.

(** ** Results and errors *)

Definition error := option string.

Inductive result (A : Type) : Type :=
| Ok (a : A)
| Err (msg : string).
Arguments Ok {A} a.
Arguments Err {A} msg.

Definition Time := Z.                       (* nanoseconds since the Unix epoch *)

Module time.
Definition Second : Z := 1000000000.
Definition Hour : Z := 3600 * Second.
Definition Add (t d : Time) : Time := t + d.
Definition Unix (t : Time) : Z := t / Second.
Definition FromUnix (sec : Z) : Time := sec * Second.
Definition Before (t u : Time) : bool := bool_decide (t < u).
End time.

(** ** Byte strings *)

Module bytes.
Fixpoint map (f : ascii -> ascii) (s : string) : string :=
  match s with
  | EmptyString => EmptyString
  | String c t => String (f c) (map f t)
  end.

Fixpoint repeat (c : ascii) (n : nat) : string :=
  match n with
  | O => EmptyString
  | S k => String c (repeat c k)
  end.

Definition xor (a b : ascii) : ascii :=
  ascii_of_N (N.lxor (N_of_ascii a) (N_of_ascii b)).

Fixpoint contains (c : ascii) (s : string) : bool :=
  match s with
  | EmptyString => false
  | String d t => if decide (c = d) then true else contains c t
  end.

(** [strings.Split(s, sep)] for a one-byte separator. *)
Fixpoint Split (sep : ascii) (s : string) : list string :=
  match s with
  | EmptyString => [EmptyString]
  | String c t =>
      if decide (c = sep) then EmptyString :: Split sep t
      else match Split sep t with
           | [] => [String c EmptyString]
           | h :: r => String c h :: r
           end
  end.

(** [strings.ToLower] on the ASCII letters; the program compares the result
    with ["bearer"] only, which no other letter lowers to. *)
Definition lower (c : ascii) : ascii :=
  let n := N_of_ascii c in
  if ((65 <=? n) && (n <=? 90))%N then ascii_of_N (n + 32) else c.

Definition ToLower (s : string) : string := map lower s.

(** Bytes below 0x80 only. *)
Fixpoint is_ascii (s : string) : bool :=
  match s with
  | EmptyString => true
  | String c t => (N_of_ascii c <? 128)%N && is_ascii t
  end.
End bytes.

(** ** encoding/hex *)

Module hex.
Definition hextable : string := "0123456789abcdef".

Definition digit (n : N) : ascii :=
  match String.get (N.to_nat n) hextable with
  | Some c => c
  | None => "0"%char
  end.

Fixpoint EncodeToString (src : string) : string :=
  match src with
  | EmptyString => EmptyString
  | String v t =>
      String (digit (N.shiftr (N_of_ascii v) 4))
        (String (digit (N.land (N_of_ascii v) 15)) (EncodeToString t))
  end.

Definition fromHexChar (c : ascii) : option N :=
  let n := N_of_ascii c in
  if ((48 <=? n) && (n <=? 57))%N then Some (n - 48)%N
  else if ((97 <=? n) && (n <=? 102))%N then Some (n - 97 + 10)%N
  else if ((65 <=? n) && (n <=? 70))%N then Some (n - 65 + 10)%N
  else None.

(** [hex.DecodeString]: an odd length or a byte outside [0-9a-fA-F] is an
    error. *)
Fixpoint DecodeString (s : string) : option string :=
  match s with
  | EmptyString => Some EmptyString
  | String _ EmptyString => None
  | String a (String b t) =>
      match fromHexChar a, fromHexChar b, DecodeString t with
      | Some hi, Some lo, Some r =>
          Some (String (ascii_of_N (N.lor (N.shiftl hi 4) lo)) r)
      | _, _, _ => None
      end
  end.
End hex.

(** ** bson/primitive: object ids *)

Module primitive.
(** [type ObjectID [12]byte]. *)
Inductive ObjectID : Type :=
| OID (b0 b1 b2 b3 b4 b5 b6 b7 b8 b9 b10 b11 : ascii).

Definition bytes_of (id : ObjectID) : string :=
  match id with
  | OID b0 b1 b2 b3 b4 b5 b6 b7 b8 b9 b10 b11 =>
      string_of_list_ascii [b0; b1; b2; b3; b4; b5; b6; b7; b8; b9; b10; b11]
  end.

Definition NilObjectID : ObjectID :=
  OID zero zero zero zero zero zero zero zero zero zero zero zero.

Definition Hex (id : ObjectID) : string := hex.EncodeToString (bytes_of id).

Definition ObjectIDFromHex (s : string) : result ObjectID :=
  if decide (String.length s = 24%nat) then
    match hex.DecodeString s with
    | Some bs =>
        match list_ascii_of_string bs with
        | [b0; b1; b2; b3; b4; b5; b6; b7; b8; b9; b10; b11] =>
            Ok (OID b0 b1 b2 b3 b4 b5 b6 b7 b8 b9 b10 b11)
        | _ => Err "the provided hex string is not a valid ObjectID"
        end
    | None => Err "the provided hex string is not a valid ObjectID"
    end
  else Err "the provided hex string is not a valid ObjectID".

#[global] Instance ObjectID_eq_dec : EqDecision ObjectID.
Proof. solve_decision. Defined.
End primitive.
Export primitive.

(** ** Third-party libraries

    What the program links against and this development does not unfold:
    the SHA-2 digests, bcrypt, unpadded base64url and encoding/json on
    [map[string]interface{}]. *)

Inductive HashAlg : Type := SHA256 | SHA384 | SHA512.

(** A decoded JSON value of a claim set: a string or a number. *)
Inductive Value : Type :=
| VString (s : string)
| VNumber (n : Z).

#[global] Instance Value_eq_dec : EqDecision Value.
Proof. solve_decision. Defined.

Class Platform : Type := {
  (** [crypto]: the digest of a message. *)
  hash_Sum : HashAlg -> string -> string;
  (** [bcrypt.GenerateFromPassword(password, DefaultCost)]: the first
      argument is the entropy the salt is drawn from. *)
  bcrypt_GenerateFromPassword : string -> string -> result string;
  (** [bcrypt.CompareHashAndPassword(hash, password) == nil]. *)
  bcrypt_CompareHashAndPassword : string -> string -> bool;
  (** [base64.RawURLEncoding]. *)
  base64_EncodeToString : string -> string;
  base64_DecodeString : string -> option string;
  (** [json.Marshal] and [json.Unmarshal] on a string-keyed map. *)
  json_Marshal : gmap string Value -> string;
  json_Unmarshal : string -> option (gmap string Value)
}.

(** ** crypto/hmac (RFC 2104) *)

Module hmac.
Definition BlockSize (h : HashAlg) : nat :=
  match h with
  | SHA256 => 64%nat
  | SHA384 | SHA512 => 128%nat
  end.

(** The key as the construction uses it: a key longer than the block is
    replaced by its digest, and the result is padded with zero bytes to the
    block size. *)
Definition key_block `{Platform} (h : HashAlg) (key : string) : string :=
  let k := if decide (BlockSize h < String.length key)%nat
           then hash_Sum h key else key in
  k +:+ bytes.repeat zero (BlockSize h - String.length k).

Definition ipad : ascii := ascii_of_N 54.    (* 0x36 *)
Definition opad : ascii := ascii_of_N 92.    (* 0x5c *)

Definition Sum `{Platform} (h : HashAlg) (key msg : string) : string :=
  let k := key_block h key in
  hash_Sum h (bytes.map (bytes.xor opad) k
              +:+ hash_Sum h (bytes.map (bytes.xor ipad) k +:+ msg)).
End hmac.

(** ** github.com/golang-jwt/jwt/v5, as the program uses it *)

Module jwt.
Inductive SigningMethod : Type :=
| SigningMethodHMAC (h : HashAlg)
| SigningMethodOther (alg : string).   (* RSA, RSA-PSS, ECDSA, EdDSA, none *)

Definition SigningMethodHS256 : SigningMethod := SigningMethodHMAC SHA256.

Definition Alg (m : SigningMethod) : string :=
  match m with
  | SigningMethodHMAC SHA256 => "HS256"
  | SigningMethodHMAC SHA384 => "HS384"
  | SigningMethodHMAC SHA512 => "HS512"
  | SigningMethodOther alg => alg
  end.

Definition other_algs : list string :=
  ["RS256"; "RS384"; "RS512"; "PS256"; "PS384"; "PS512";
   "ES256"; "ES384"; "ES512"; "EdDSA"; "none"].

Definition GetSigningMethod (alg : string) : option SigningMethod :=
  if decide (alg = "HS256") then Some (SigningMethodHMAC SHA256)
  else if decide (alg = "HS384") then Some (SigningMethodHMAC SHA384)
  else if decide (alg = "HS512") then Some (SigningMethodHMAC SHA512)
  else if decide (alg ∈ other_algs) then Some (SigningMethodOther alg)
  else None.

Record Token : Type := mkToken {
  Raw : string;
  Method : SigningMethod;
  Header : gmap string Value;
  Claims : gmap string Value;          (* jwt.MapClaims *)
  Signature : string;
  Valid : bool
}.

Definition NewWithClaims (m : SigningMethod) (claims : gmap string Value) : Token :=
  {| Raw := EmptyString;
     Method := m;
     Header := <["typ" := VString "JWT"]> (<["alg" := VString (Alg m)]> ∅);
     Claims := claims;
     Signature := EmptyString;
     Valid := false |}.

Definition EncodeSegment `{Platform} (seg : string) : string :=
  base64_EncodeToString seg.

Definition DecodeSegment `{Platform} (seg : string) : option string :=
  base64_DecodeString seg.

Definition SigningString `{Platform} (t : Token) : string :=
  EncodeSegment (json_Marshal (Header t)) +:+ "." +:+
  EncodeSegment (json_Marshal (Claims t)).

(** [Sign] and [Verify] with a [[]byte] key, the only key type the program
    passes: the HMAC methods accept it, every other method rejects it. *)
Definition Sign `{Platform} (m : SigningMethod) (signingString key : string)
  : result string :=
  match m with
  | SigningMethodHMAC h => Ok (hmac.Sum h key signingString)
  | SigningMethodOther _ => Err "key is of invalid type"
  end.

Definition Verify `{Platform} (m : SigningMethod) (signingString sig key : string)
  : error :=
  match m with
  | SigningMethodHMAC h =>
      if decide (sig = hmac.Sum h key signingString) then None
      else Some "signature is invalid"
  | SigningMethodOther _ => Some "key is of invalid type"
  end.

Definition SignedString `{Platform} (t : Token) (key : string) : result string :=
  let sstr := SigningString t in
  match Sign (Method t) sstr key with
  | Err e => Err e
  | Ok sig => Ok (sstr +:+ "." +:+ EncodeSegment sig)
  end.

(** A numeric date claim: absent, or zero, is no date; a string is an
    error. *)
Definition parseNumericDate (claims : gmap string Value) (key : string)
  : result (option Time) :=
  match claims !! key with
  | None => Ok None
  | Some (VNumber n) =>
      if decide (n = 0) then Ok None else Ok (Some (time.FromUnix n))
  | Some (VString _) => Err "invalid type for claim"
  end.

(** The default validator: [exp] and [nbf] are checked when present;
    issuer, audience and subject are not, since no expectation is set. *)
Definition Validate (claims : gmap string Value) (now : Time) : error :=
  match parseNumericDate claims "exp" with
  | Err e => Some ("token has invalid claims: " +:+ e)
  | Ok exp =>
      if match exp with
         | Some t => negb (time.Before now t)
         | None => false
         end
      then Some "token has invalid claims: token is expired"
      else
        match parseNumericDate claims "nbf" with
        | Err e => Some ("token has invalid claims: " +:+ e)
        | Ok (Some t) =>
            if time.Before now t
            then Some "token has invalid claims: token is not valid yet"
            else None
        | Ok None => None
        end
  end.

Definition decodeMap `{Platform} (seg : string) : option (gmap string Value) :=
  match DecodeSegment seg with
  | Some raw => json_Unmarshal raw
  | None => None
  end.

Definition Parse `{Platform} (tokenString : string)
    (keyFunc : Token -> result string) (now : Time) : result Token :=
  match bytes.Split "."%char tokenString with
  | [h; c; s] =>
      match decodeMap h, decodeMap c with
      | Some header, Some claims =>
          match header !! "alg" with
          | Some (VString alg) =>
              match GetSigningMethod alg with
              | Some method =>
                  match DecodeSegment s with
                  | Some sig =>
                      let token := mkToken tokenString method header claims sig false in
                      match keyFunc token with
                      | Err e =>
                          Err ("token is unverifiable: error while executing keyfunc: " +:+ e)
                      | Ok key =>
                          match Verify method (h +:+ "." +:+ c) sig key with
                          | Some e => Err ("token signature is invalid: " +:+ e)
                          | None =>
                              match Validate claims now with
                              | Some e => Err e
                              | None =>
                                  Ok (mkToken tokenString method header claims sig true)
                              end
                          end
                      end
                  | None => Err "token is malformed: could not base64 decode signature"
                  end
              | None => Err "token is unverifiable: signing method (alg) is unavailable"
              end
          | _ => Err "token is unverifiable: signing method (alg) is unspecified"
          end
      | _, _ => Err "token is malformed: could not decode segment"
      end
  | _ => Err "token is malformed: token contains an invalid number of segments"
  end.
End jwt.

(** ** internal/models *)

Module models.
(** [Permission]: one allowed action, for example ["task:read_all"]. *)
Record Permission : Type := mkPermission { Action : string }.

Record Role : Type := mkRole {
  Role_ID : ObjectID;
  Role_Name : string;
  Role_Permissions : list Permission
}.

(** The roles seeded at start-up.  The literals carry no [ID]: the zero
    object id. *)
Definition DefaultRoles : list Role :=
  [ mkRole NilObjectID "Admin"
      [ mkPermission "task:create"; mkPermission "task:read_all";
        mkPermission "task:update_all"; mkPermission "task:delete_all";
        mkPermission "user:read_all"; mkPermission "user:update_role";
        mkPermission "user:update_profile"; mkPermission "user:verify_email";
        mkPermission "user:create_admin";
        mkPermission "dashboard:read_metrics" ];
    mkRole NilObjectID "Manager"
      [ mkPermission "task:create"; mkPermission "task:read_all";
        mkPermission "task:update_all"; mkPermission "task:delete_all";
        mkPermission "user:update_profile" ];
    mkRole NilObjectID "User"
      [ mkPermission "task:create"; mkPermission "task:read_own";
        mkPermission "task:update_own"; mkPermission "task:delete_own";
        mkPermission "user:update_profile" ] ].

Definition StatusTodo : string := "todo".
Definition StatusInProgress : string := "in_progress".
Definition StatusDone : string := "done".

Record Task : Type := mkTask {
  Task_ID : ObjectID;
  Title : string;
  Description : string;
  Status : string;                      (* TaskStatus *)
  Task_UserID : ObjectID;               (* owner of the task *)
  Task_CreatedAt : Z;                   (* BSON date: milliseconds *)
  Task_UpdatedAt : Z
}.

Record CreateTaskRequest : Type := mkCreateTaskRequest {
  Create_Title : string;
  Create_Description : string;
  Create_Status : string
}.

(** Pointer fields: [None] is [nil]. *)
Record UpdateTaskRequest : Type := mkUpdateTaskRequest {
  Update_Title : option string;
  Update_Description : option string;
  Update_Status : option string
}.

Record User : Type := mkUser {
  User_ID : ObjectID;
  FirstName : string;
  LastName : string;
  Email : string;
  Password : string;                    (* bcrypt hash *)
  RoleID : ObjectID;
  ProfilePictureURL : string;
  IsEmailVerified : bool;
  NeedsPasswordChange : bool;
  User_CreatedAt : Z;
  User_UpdatedAt : Z
}.

Record UserResponse : Type := mkUserResponse {
  Resp_ID : string;
  Resp_FirstName : string;
  Resp_LastName : string;
  Resp_Email : string;
  Resp_RoleName : string;
  Resp_ProfilePictureURL : string;
  Resp_IsEmailVerified : bool;
  Resp_NeedsPasswordChange : bool;
  Resp_CreatedAt : Z;
  Resp_UpdatedAt : Z
}.

Record UpdateUserRoleRequest : Type := mkUpdateUserRoleRequest {
  Req_RoleName : string
}.

Record UpdateUserProfileRequest : Type := mkUpdateUserProfileRequest {
  Profile_FirstName : option string;
  Profile_LastName : option string;
  Profile_PictureURL : option string
}.

Record ForgotPasswordRequest : Type := mkForgotPasswordRequest {
  Forgot_Email : string
}.

Record AuthContext : Type := mkAuthContext {
  UserID : ObjectID;
  Ctx_RoleID : ObjectID;
  RoleName : string;
  Permissions : list Permission;
  Ctx_IsEmailVerified : bool;
  Ctx_NeedsPasswordChange : bool
}.

(** [func (ac *AuthContext) HasPermission(permission string) bool]. *)
Fixpoint hasAction (ps : list Permission) (permission : string) : bool :=
  match ps with
  | [] => false
  | p :: rest =>
      if decide (Action p = permission) then true
      else hasAction rest permission
  end.

Definition HasPermission (ac : AuthContext) (permission : string) : bool :=
  hasAction (Permissions ac) permission.

#[global] Instance Permission_eq_dec : EqDecision Permission.
Proof. solve_decision. Defined.
#[global] Instance Role_eq_dec : EqDecision Role.
Proof. solve_decision. Defined.
#[global] Instance Task_eq_dec : EqDecision Task.
Proof. solve_decision. Defined.
#[global] Instance User_eq_dec : EqDecision User.
Proof. solve_decision. Defined.
End models.
Export models.

(** ** The document store

    The three collections of the database and the part of the MongoDB
    driver the services call.  [_id] is unique in a collection: an insert
    with a taken [_id] is a write error.  An update reports
    [ModifiedCount = 0] when no document has the id or when the document
    is equal before and after. *)

Module mongo.
Definition ErrNoDocuments : string := "mongo: no documents in result".
Definition ErrDuplicateKey : string := "E11000 duplicate key error".

(** A BSON date keeps milliseconds. *)
Definition DateTime (t : Time) : Z := t / 1000000.

Record Database : Type := mkDatabase {
  users : list User;
  roles : list Role;
  tasks : list Task
}.

Definition FindOne {D : Type} (filter : D -> bool) (coll : list D) : result D :=
  match List.find filter coll with
  | Some d => Ok d
  | None => Err ErrNoDocuments
  end.

Definition InsertOne {D : Type} (id_of : D -> ObjectID) (doc : D) (coll : list D)
  : error * list D :=
  match List.find (fun d => bool_decide (id_of d = id_of doc)) coll with
  | Some _ => (Some ErrDuplicateKey, coll)
  | None => (None, coll ++ [doc])
  end.

Record UpdateResult : Type := mkUpdateResult {
  MatchedCount : Z;
  ModifiedCount : Z
}.

(** [UpdateByID(id, {"$set": ...})]: the first document with the id is
    replaced by [set] of it. *)
Fixpoint UpdateByID {D : Type} `{EqDecision D} (id_of : D -> ObjectID)
    (id : ObjectID) (set : D -> D) (coll : list D) : UpdateResult * list D :=
  match coll with
  | [] => (mkUpdateResult 0 0, [])
  | d :: rest =>
      if decide (id_of d = id) then
        (mkUpdateResult 1 (if decide (set d = d) then 0 else 1), set d :: rest)
      else
        let '(r, rest') := UpdateByID id_of id set rest in (r, d :: rest')
  end.

(** [UpdateOne(filter, {"$set": ...})]: the first matching document is
    replaced by [set] of it. *)
Fixpoint UpdateOne {D : Type} `{EqDecision D} (filter : D -> bool)
    (set : D -> D) (coll : list D) : UpdateResult * list D :=
  match coll with
  | [] => (mkUpdateResult 0 0, [])
  | d :: rest =>
      if filter d then
        (mkUpdateResult 1 (if decide (set d = d) then 0 else 1), set d :: rest)
      else
        let '(r, rest') := UpdateOne filter set rest in (r, d :: rest')
  end.

(** [DeleteOne(filter)]: the first matching document is removed; the
    number returned is [DeletedCount]. *)
Fixpoint DeleteOne {D : Type} (filter : D -> bool) (coll : list D) : Z * list D :=
  match coll with
  | [] => (0, [])
  | d :: rest =>
      if filter d then (1, rest)
      else let '(n, rest') := DeleteOne filter rest in (n, d :: rest')
  end.

Definition CountDocuments {D : Type} (filter : D -> bool) (coll : list D) : Z :=
  Z.of_nat (length (List.filter filter coll)).

(** Sorting on a key, descending.  Documents with equal keys keep their
    natural order (the server leaves their order open). *)
Fixpoint insert_desc {D : Type} (key : D -> Z) (d : D) (sorted : list D) : list D :=
  match sorted with
  | [] => [d]
  | x :: rest =>
      if decide (key d < key x) then x :: insert_desc key d rest
      else d :: x :: rest
  end.

Definition sort_desc {D : Type} (key : D -> Z) (coll : list D) : list D :=
  foldr (insert_desc key) [] coll.

(** [Find(filter)] with [SetSort({key: -1})], [SetSkip(skip)] and
    [SetLimit(limit)], read to the end.  A limit of zero is no limit and a
    negative limit counts as its absolute value.  [skip] is not negative
    where the program calls. *)
Definition Find {D : Type} (filter : D -> bool) (key : D -> Z) (skip limit : Z)
    (coll : list D) : list D :=
  let skipped := drop (Z.to_nat skip) (sort_desc key (List.filter filter coll)) in
  if decide (limit = 0) then skipped
  else take (Z.to_nat (Z.abs limit)) skipped.

Definition with_roles (db : Database) (rs : list Role) : Database :=
  mkDatabase (users db) rs (tasks db).

Definition with_users (db : Database) (us : list User) : Database :=
  mkDatabase us (roles db) (tasks db).

Definition with_tasks (db : Database) (ts : list Task) : Database :=
  mkDatabase (users db) (roles db) ts.
End mongo.
Export mongo.

(** ** More of the environment

    [strings.ToLower] on arbitrary text and the regular expressions of the
    database server are not unfolded either. *)

Class Server : Type := {
  (** [strings.ToLower]. *)
  strings_ToLower : string -> string;
  (** A [$regex] with option [i]: the matcher of a pattern, or [None] when
      the server rejects the pattern. *)
  regex_compile : string -> option (string -> bool)
}.

(** A 64-bit signed integer after an arithmetic operation: the result
    wraps around. *)
Definition int64 (z : Z) : Z := (z + 2 ^ 63) mod 2 ^ 64 - 2 ^ 63.

Module strconv.
Fixpoint digits (s : string) (acc : Z) : option Z :=
  match s with
  | EmptyString => Some acc
  | String c t =>
      let n := Z.of_N (N_of_ascii c) in
      if (48 <=? n) && (n <=? 57) then digits t (acc * 10 + (n - 48))
      else None
  end.

(** [strconv.ParseInt(s, 10, 64)]: an optional sign and at least one decimal
    digit; a value outside the 64-bit range is an error. *)
Definition ParseInt (s : string) : result Z :=
  let '(neg, body) :=
    match s with
    | String c t =>
        if decide (c = "+"%char) then (false, t)
        else if decide (c = "-"%char) then (true, t)
        else (false, s)
    | EmptyString => (false, s)
    end in
  if decide (body = EmptyString) then Err "invalid syntax"
  else
    match digits body 0 with
    | None => Err "invalid syntax"
    | Some n =>
        let v := if neg then - n else n in
        if decide (- 2 ^ 63 <= v <= 2 ^ 63 - 1) then Ok v
        else Err "value out of range"
    end.
End strconv.

(** ** internal/utils *)

Module utils.
(** The body of a JSON response. *)
Inductive Payload : Type :=
| ErrorPayload (message : string)       (* {"error": true, "message": ...} *)
| MessagePayload (message : string)     (* {"message": ...} *)
| UserPayload (u : UserResponse)
| TaskPayload (t : Task).

Record Response : Type := mkResponse {
  StatusCode : Z;
  ContentType : string;
  Body : Payload
}.

Definition StatusOK : Z := 200.
Definition StatusCreated : Z := 201.
Definition StatusBadRequest : Z := 400.
Definition StatusUnauthorized : Z := 401.
Definition StatusForbidden : Z := 403.
Definition StatusNotFound : Z := 404.
Definition StatusInternalServerError : Z := 500.

(** [RespondWithJSON] sets the content type and writes the body; it never
    calls [WriteHeader], so [code] is not sent and the first [Write] implies
    [200 OK]. *)
Definition RespondWithJSON (code : Z) (payload : Payload) : Response :=
  mkResponse StatusOK "application/json" payload.

Definition RespondWithError (code : Z) (message : string) : Response :=
  RespondWithJSON code (ErrorPayload message).

Definition HashPassword `{Platform} (entropy password : string) : result string :=
  bcrypt_GenerateFromPassword entropy password.

Definition CheckPasswordHash `{Platform} (password hash : string) : bool :=
  bcrypt_CompareHashAndPassword hash password.

(** The claim sets of the three issuers. *)
Definition sessionClaims (userID : ObjectID) (email : string)
    (roleID : ObjectID) (now : Time) : gmap string Value :=
  <["user_id" := VString (Hex userID)]> (
  <["email" := VString email]> (
  <["role_id" := VString (Hex roleID)]> (
  <["exp" := VNumber (time.Unix (time.Add now (time.Hour * 24)))]> (
  <["iss" := VString "taskflow-api"]> (
  <["aud" := VString "taskflow-clients"]> ∅))))).

Definition resetClaims (userID : ObjectID) (now : Time) : gmap string Value :=
  <["user_id" := VString (Hex userID)]> (
  <["exp" := VNumber (time.Unix (time.Add now time.Hour))]> (
  <["iss" := VString "taskflow-api-reset"]> ∅)).

Definition verificationClaims (userID : string) (now : Time) : gmap string Value :=
  <["user_id" := VString userID]> (
  <["exp" := VNumber (time.Unix (time.Add now (time.Hour * 24)))]> (
  <["iss" := VString "taskflow-api-verify"]> ∅)).

Definition GenerateToken `{Platform} (userID : ObjectID) (email : string)
    (roleID : ObjectID) (secretKey : string) (now : Time) : result string :=
  let claims := sessionClaims userID email roleID now in
  let token := jwt.NewWithClaims jwt.SigningMethodHS256 claims in
  jwt.SignedString token secretKey.

Definition GeneratePasswordResetToken `{Platform} (userID : ObjectID)
    (secretKey : string) (now : Time) : result string :=
  let claims := resetClaims userID now in
  let token := jwt.NewWithClaims jwt.SigningMethodHS256 claims in
  jwt.SignedString token secretKey.

(** The key function of every [jwt.Parse] call of the program: only the
    HMAC family is accepted. *)
Definition hmacKeyfunc (secretKey : string) (token : jwt.Token) : result string :=
  match jwt.Method token with
  | jwt.SigningMethodHMAC _ => Ok secretKey
  | jwt.SigningMethodOther alg => Err ("unexpected signing method: " +:+ alg)
  end.

Definition ValidatePasswordResetToken `{Platform} (tokenString secretKey : string)
    (now : Time) : result ObjectID :=
  match jwt.Parse tokenString (hmacKeyfunc secretKey) now with
  | Err e => Err e
  | Ok token =>
      if negb (jwt.Valid token) then Err "invalid password reset token"
      else
        match jwt.Claims token !! "user_id" with
        | Some (VString userIDHex) =>
            match ObjectIDFromHex userIDHex with
            | Err _ => Err "invalid user ID format in reset token"
            | Ok userID => Ok userID
            end
        | _ => Err "user ID claim missing from reset token"
        end
  end.

Definition GenerateVerificationToken `{Platform} (userID : string)
    (secretKey : string) (now : Time) : result string :=
  let claims := verificationClaims userID now in
  let token := jwt.NewWithClaims jwt.SigningMethodHS256 claims in
  jwt.SignedString token secretKey.

Definition charset : string :=
  "abcdefghijklmnopqrstuvwxyzABCDEFGHIJKLMNOPQRSTUVWXYZ0123456789".

(** [GenerateRandomString(length)]: [intn i] is what the [i]-th call of
    [seededRand.Intn(len(charset))] returns.  Indexing outside the charset
    is a run-time panic: [None]. *)
Fixpoint randomBytes (intn : nat -> nat) (i length : nat) : option string :=
  match length with
  | O => Some EmptyString
  | S k =>
      match String.get (intn i) charset, randomBytes intn (S i) k with
      | Some c, Some t => Some (String c t)
      | _, _ => None
      end
  end.

Definition GenerateRandomString (intn : nat -> nat) (length : nat) : option string :=
  randomBytes intn 0 length.
End utils.
Export utils.

(** ** internal/services: UserService *)

Module UserService.
Definition GetUserByID (db : Database) (id : string) : result User :=
  match ObjectIDFromHex id with
  | Err _ => Err "invalid user ID format"
  | Ok objID =>
      match FindOne (fun u => bool_decide (User_ID u = objID)) (users db) with
      | Err e =>
          if decide (e = ErrNoDocuments) then Err "user not found" else Err e
      | Ok user => Ok user
      end
  end.

Definition GetUserByEmail (db : Database) (email : string) : result User :=
  match FindOne (fun u => bool_decide (Email u = email)) (users db) with
  | Err e =>
      if decide (e = ErrNoDocuments) then Err "user not found" else Err e
  | Ok user => Ok user
  end.

Definition GetRoleByName (db : Database) (name : string) : result Role :=
  match FindOne (fun r => bool_decide (Role_Name r = name)) (roles db) with
  | Err e =>
      if decide (e = ErrNoDocuments) then Err "role not found" else Err e
  | Ok role => Ok role
  end.

Definition GetRoleByID (db : Database) (id : string) : result Role :=
  match ObjectIDFromHex id with
  | Err _ => Err "invalid role ID format"
  | Ok objID =>
      match FindOne (fun r => bool_decide (Role_ID r = objID)) (roles db) with
      | Err e =>
          if decide (e = ErrNoDocuments) then Err "role not found" else Err e
      | Ok role => Ok role
      end
  end.

Definition set_password (hashedPassword : string) (updatedAt : Z) (u : User) : User :=
  mkUser (User_ID u) (FirstName u) (LastName u) (Email u) hashedPassword
    (RoleID u) (ProfilePictureURL u) (IsEmailVerified u)
    (NeedsPasswordChange u) (User_CreatedAt u) updatedAt.

Definition set_password_and_needs_change (hashedPassword : string)
    (needsChange : bool) (updatedAt : Z) (u : User) : User :=
  mkUser (User_ID u) (FirstName u) (LastName u) (Email u) hashedPassword
    (RoleID u) (ProfilePictureURL u) (IsEmailVerified u)
    needsChange (User_CreatedAt u) updatedAt.

Definition set_role_id (roleID : ObjectID) (updatedAt : Z) (u : User) : User :=
  mkUser (User_ID u) (FirstName u) (LastName u) (Email u) (Password u)
    roleID (ProfilePictureURL u) (IsEmailVerified u)
    (NeedsPasswordChange u) (User_CreatedAt u) updatedAt.

Definition UpdateUserPassword (userID : ObjectID) (hashedPassword : string)
    (now : Time) (db : Database) : error * Database :=
  let '(res, us) :=
    UpdateByID User_ID userID (set_password hashedPassword (DateTime now))
      (users db) in
  if decide (ModifiedCount res = 0)
  then (Some "user not found or password not changed", with_users db us)
  else (None, with_users db us).

Definition UpdateUserPasswordAndNeedsChange (userID : ObjectID)
    (hashedPassword : string) (needsChange : bool) (now : Time) (db : Database)
  : error * Database :=
  let '(res, us) :=
    UpdateByID User_ID userID
      (set_password_and_needs_change hashedPassword needsChange (DateTime now))
      (users db) in
  if decide (ModifiedCount res = 0)
  then (Some "user not found or password/needs_password_change not updated",
        with_users db us)
  else (None, with_users db us).

Definition GetUserResponseByID (db : Database) (id : string) : result UserResponse :=
  match GetUserByID db id with
  | Err e => Err e
  | Ok user =>
      let roleName :=
        match GetRoleByID db (Hex (RoleID user)) with
        | Err _ => "Unknown"
        | Ok role => Role_Name role
        end in
      Ok (mkUserResponse (Hex (User_ID user)) (FirstName user) (LastName user)
            (Email user) roleName (ProfilePictureURL user)
            (IsEmailVerified user) (NeedsPasswordChange user)
            (User_CreatedAt user) (User_UpdatedAt user))
  end.

Definition UpdateUserRole (userID newRoleName : string) (now : Time)
    (db : Database) : result UserResponse * Database :=
  match ObjectIDFromHex userID with
  | Err _ => (Err "invalid user ID format", db)
  | Ok objID =>
      match GetRoleByName db newRoleName with
      | Err _ => (Err "new role not found", db)
      | Ok newRole =>
          let '(res, us) :=
            UpdateByID User_ID objID
              (set_role_id (Role_ID newRole) (DateTime now)) (users db) in
          let db' := with_users db us in
          if decide (ModifiedCount res = 0)
          then (Err "user not found or role not changed", db')
          else
            match GetUserByID db' userID with
            | Err e => (Err e, db')
            | Ok updatedUser =>
                (GetUserResponseByID db' (Hex (User_ID updatedUser)), db')
            end
      end
  end.

Definition apply_profile (req : UpdateUserProfileRequest) (updatedAt : Z)
    (u : User) : User :=
  mkUser (User_ID u)
    (match Profile_FirstName req with Some v => v | None => FirstName u end)
    (match Profile_LastName req with Some v => v | None => LastName u end)
    (Email u) (Password u) (RoleID u)
    (match Profile_PictureURL req with
     | Some v => v
     | None => ProfilePictureURL u
     end)
    (IsEmailVerified u) (NeedsPasswordChange u) (User_CreatedAt u) updatedAt.

Definition UpdateUserProfile (userID : string) (req : UpdateUserProfileRequest)
    (now : Time) (db : Database) : result UserResponse * Database :=
  match ObjectIDFromHex userID with
  | Err _ => (Err "invalid user ID format", db)
  | Ok objID =>
      let '(res, us) :=
        UpdateByID User_ID objID (apply_profile req (DateTime now)) (users db) in
      let db' := with_users db us in
      if decide (ModifiedCount res = 0)
      then (Err "user not found or no changes made to profile", db')
      else (GetUserResponseByID db' userID, db')
  end.

Definition set_email_verified (updatedAt : Z) (u : User) : User :=
  mkUser (User_ID u) (FirstName u) (LastName u) (Email u) (Password u)
    (RoleID u) (ProfilePictureURL u) true
    (NeedsPasswordChange u) (User_CreatedAt u) updatedAt.

Definition VerifyUserEmail (userID : ObjectID) (now : Time) (db : Database)
  : error * Database :=
  let '(res, us) :=
    UpdateByID User_ID userID (set_email_verified (DateTime now)) (users db) in
  if decide (ModifiedCount res = 0)
  then (Some "user not found or email already verified", with_users db us)
  else (None, with_users db us).

(** [CreateUser]: [newID] is the value of [primitive.NewObjectID()]. *)
Definition CreateUser (user : User) (newID : ObjectID) (now : Time)
    (db : Database) : result UserResponse * Database :=
  let user' :=
    mkUser newID
      (if decide (FirstName user = EmptyString) then "New" else FirstName user)
      (if decide (LastName user = EmptyString) then "User" else LastName user)
      (Email user) (Password user) (RoleID user)
      (if decide (ProfilePictureURL user = EmptyString)
       then "https://placehold.co/150x150/cccccc/ffffff?text=Avatar"
       else ProfilePictureURL user)
      (IsEmailVerified user) (NeedsPasswordChange user)
      (DateTime now) (DateTime now) in
  match InsertOne User_ID user' (users db) with
  | (Some e, us) => (Err e, with_users db us)
  | (None, us) =>
      let db' := with_users db us in
      match GetRoleByID db' (Hex (RoleID user')) with
      | Err _ => (Err "failed to retrieve role for new user", db')
      | Ok role =>
          (Ok (mkUserResponse (Hex (User_ID user')) (FirstName user')
                 (LastName user') (Email user') (Role_Name role)
                 (ProfilePictureURL user') (IsEmailVerified user')
                 (NeedsPasswordChange user') (User_CreatedAt user')
                 (User_UpdatedAt user')),
           db')
      end
  end.

(** [UserService.GetAuthContext]: the role is the one the user document
    refers to; [roleID] is not read. *)
Definition GetAuthContext (db : Database) (userID roleID : ObjectID)
  : result AuthContext :=
  match GetUserByID db (Hex userID) with
  | Err e => Err e
  | Ok user =>
      match GetRoleByID db (Hex (RoleID user)) with
      | Err e => Err e
      | Ok role =>
          Ok (mkAuthContext (User_ID user) (Role_ID role) (Role_Name role)
                (Role_Permissions role) (IsEmailVerified user)
                (NeedsPasswordChange user))
      end
  end.
End UserService.

(** ** internal/services: TaskService *)

Module TaskService.
(** [CreateTask]: [newID] is the value of [primitive.NewObjectID()]. *)
Definition CreateTask (task : Task) (newID : ObjectID) (now : Time)
    (db : Database) : result Task * Database :=
  let task' :=
    mkTask newID (Title task) (Description task) (Status task)
      (Task_UserID task) (DateTime now) (DateTime now) in
  match InsertOne Task_ID task' (tasks db) with
  | (Some e, ts) => (Err e, with_tasks db ts)
  | (None, ts) => (Ok task', with_tasks db ts)
  end.

Definition GetTaskByID (db : Database) (id : string) : result Task :=
  match ObjectIDFromHex id with
  | Err _ => Err "invalid task ID format"
  | Ok objID =>
      match FindOne (fun t => bool_decide (Task_ID t = objID)) (tasks db) with
      | Err e =>
          if decide (e = ErrNoDocuments) then Err "task not found" else Err e
      | Ok task => Ok task
      end
  end.

Definition apply_update (update : UpdateTaskRequest) (updatedAt : Z) (t : Task)
  : Task :=
  mkTask (Task_ID t)
    (match Update_Title update with Some v => v | None => Title t end)
    (match Update_Description update with Some v => v | None => Description t end)
    (match Update_Status update with Some v => v | None => Status t end)
    (Task_UserID t) (Task_CreatedAt t) updatedAt.

Definition UpdateTask (id : string) (update : UpdateTaskRequest) (now : Time)
    (db : Database) : result Task * Database :=
  match ObjectIDFromHex id with
  | Err _ => (Err "invalid task ID format", db)
  | Ok objID =>
      let '(res, ts) :=
        UpdateByID Task_ID objID (apply_update update (DateTime now)) (tasks db) in
      let db' := with_tasks db ts in
      if decide (ModifiedCount res = 0)
      then (Err "task not found or no changes made", db')
      else (GetTaskByID db' id, db')
  end.

Definition DeleteTask (id : string) (db : Database) : error * Database :=
  match ObjectIDFromHex id with
  | Err _ => (Some "invalid task ID format", db)
  | Ok objID =>
      let '(deleted, ts) :=
        DeleteOne (fun t => bool_decide (Task_ID t = objID)) (tasks db) in
      if decide (deleted = 0)
      then (Some "task not found", with_tasks db ts)
      else (None, with_tasks db ts)
  end.

(** The filter document a handler builds: the keys [user_id] and [status],
    each present or not. *)
Record TaskFilter : Type := mkTaskFilter {
  filter_user_id : option ObjectID;
  filter_status : option string
}.

Definition matches (f : TaskFilter) (t : Task) : bool :=
  match filter_user_id f with
  | Some u => bool_decide (Task_UserID t = u)
  | None => true
  end
  && match filter_status f with
     | Some st => bool_decide (Status t = st)
     | None => true
     end.

Record TaskListResponse : Type := mkTaskListResponse {
  Tasks : list Task;
  TotalCount : Z;
  Page : Z;
  Limit : Z
}.

Definition ListTasks `{Server} (filter : TaskFilter) (searchQuery : string)
    (page limit : Z) (db : Database) : result TaskListResponse :=
  let search : result (Task -> bool) :=
    if decide (searchQuery = EmptyString) then Ok (fun _ => true)
    else
      match regex_compile searchQuery with
      | Some re => Ok (fun t => re (Title t) || re (Description t))
      | None => Err "Regular expression is invalid"
      end in
  let skip := int64 ((page - 1) * limit) in
  let skip := if decide (skip < 0) then 0 else skip in
  match search with
  | Err e => Err e
  | Ok found =>
      let query := fun t => matches filter t && found t in
      Ok (mkTaskListResponse
            (Find query Task_CreatedAt skip limit (tasks db))
            (CountDocuments query (tasks db)) page limit)
  end.
End TaskService.

(** ** internal/services: AuthService *)

Module AuthService.
Record AuthService : Type := mkAuthService {
  jwtSecret : string;
  passwordResetSecret : string
}.

(** The state the service works on: the database, the process-wide
    registry [passwordResetTokens] (token to user id), and the removals
    that [ForgotPassword] has scheduled (due time and token), one per
    goroutine sleeping for an hour. *)
Record State : Type := mkState {
  db : Database;
  passwordResetTokens : gmap string ObjectID;
  sweeps : list (Time * string)
}.

Definition with_db (st : State) (d : Database) : State :=
  mkState d (passwordResetTokens st) (sweeps st).

Record UserLoginRequest : Type := mkUserLoginRequest {
  Login_Email : string;
  Login_Password : string
}.

Record LoginResponse : Type := mkLoginResponse {
  Login_Message : string;
  Login_Token : string;
  Login_UserID : string;
  Login_RoleName : string;
  Login_NeedsPasswordChange : bool
}.

Definition LoginUser `{Platform} (s : AuthService) (req : UserLoginRequest)
    (now : Time) (d : Database) : result LoginResponse :=
  match UserService.GetUserByEmail d (Login_Email req) with
  | Err _ => Err "invalid credentials"
  | Ok user =>
      if negb (CheckPasswordHash (Login_Password req) (Password user))
      then Err "invalid credentials"
      else
        match UserService.GetRoleByID d (Hex (RoleID user)) with
        | Err _ => Err "user role not found"
        | Ok role =>
            match GenerateToken (User_ID user) (Email user) (RoleID user)
                    (jwtSecret s) now with
            | Err _ => Err "failed to generate token"
            | Ok tokenString =>
                Ok (mkLoginResponse "Login successful" tokenString
                      (Hex (User_ID user)) (Role_Name role)
                      (NeedsPasswordChange user))
            end
        end
  end.

Definition ValidateToken `{Platform} (s : AuthService) (tokenString : string)
    (now : Time) : result (gmap string Value) :=
  match jwt.Parse tokenString (hmacKeyfunc (jwtSecret s)) now with
  | Err e => Err e
  | Ok token =>
      if jwt.Valid token then Ok (jwt.Claims token)
      else Err "invalid token"
  end.

(** [ForgotPassword]: the log line and the e-mail leave the state alone;
    the goroutine that removes the token after an hour is recorded in
    [sweeps]. *)
Definition ForgotPassword `{Platform} (s : AuthService) (email : string)
    (now : Time) (st : State) : error * State :=
  match UserService.GetUserByEmail (db st) email with
  | Err _ => (None, st)
  | Ok user =>
      match GeneratePasswordResetToken (User_ID user) (passwordResetSecret s)
              now with
      | Err _ => (Some "failed to generate reset token", st)
      | Ok resetToken =>
          (None,
           mkState (db st)
             (<[resetToken := User_ID user]> (passwordResetTokens st))
             (sweeps st ++ [(time.Add now time.Hour, resetToken)]))
      end
  end.

(** The body of the goroutine started by [ForgotPassword], once its hour
    has passed. *)
Definition sweep (token : string) (st : State) : State :=
  mkState (db st) (delete token (passwordResetTokens st)) (sweeps st).

Definition ResetPassword `{Platform} (s : AuthService)
    (tokenString newPassword entropy : string) (now : Time) (st : State)
  : error * State :=
  match passwordResetTokens st !! tokenString with
  | None => (Some "invalid or expired password reset token", st)
  | Some userID =>
      let st1 :=
        mkState (db st) (delete tokenString (passwordResetTokens st))
          (sweeps st) in
      match HashPassword entropy newPassword with
      | Err _ => (Some "failed to hash new password", st1)
      | Ok hashedPassword =>
          match UserService.UpdateUserPassword userID hashedPassword now
                  (db st1) with
          | (Some _, d) =>
              (Some "failed to update password in database", with_db st1 d)
          | (None, d) => (None, with_db st1 d)
          end
      end
  end.

Definition ChangeTemporaryPassword `{Platform} (s : AuthService)
    (userID : ObjectID) (oldPassword newPassword entropy : string)
    (now : Time) (d : Database) : error * Database :=
  match UserService.GetUserByID d (Hex userID) with
  | Err _ => (Some "user not found", d)
  | Ok user =>
      if negb (NeedsPasswordChange user)
      then (Some "password change not required for this account", d)
      else if negb (CheckPasswordHash oldPassword (Password user))
      then (Some "invalid old password", d)
      else
        match HashPassword entropy newPassword with
        | Err _ => (Some "failed to hash new password", d)
        | Ok hashedNewPassword =>
            match UserService.UpdateUserPasswordAndNeedsChange userID
                    hashedNewPassword false now d with
            | (Some _, d') => (Some "failed to update password", d')
            | (None, d') => (None, d')
            end
        end
  end.

Definition AuthenticatedUserContext (s : AuthService) (userID roleID : ObjectID)
    (d : Database) : result AuthContext :=
  match UserService.GetUserByID d (Hex userID) with
  | Err e => Err ("user not found: " +:+ e)
  | Ok user =>
      match UserService.GetRoleByID d (Hex roleID) with
      | Err e => Err ("user role not found: " +:+ e)
      | Ok role =>
          Ok (mkAuthContext (User_ID user) (Role_ID role) (Role_Name role)
                (Role_Permissions role) (IsEmailVerified user)
                (NeedsPasswordChange user))
      end
  end.

Record UserRegisterRequest : Type := mkUserRegisterRequest {
  Register_Email : string;
  Register_Password : string
}.

(** [RegisterUser]: the e-mails it sends (the temporary password, or the
    verification link) leave the state alone. *)
Definition RegisterUser `{Platform} (s : AuthService) (req : UserRegisterRequest)
    (isAdminCreation : bool) (tempPassword entropy : string) (newID : ObjectID)
    (now : Time) (d : Database) : result UserResponse * Database :=
  match UserService.GetUserByEmail d (Register_Email req) with
  | Ok _ => (Err "email already registered", d)
  | Err _ =>
      let prepared : result (string * bool * Role) :=
        if isAdminCreation then
          match HashPassword entropy tempPassword with
          | Err _ => Err "failed to hash temporary password"
          | Ok hashedPassword =>
              match UserService.GetRoleByName d "Admin" with
              | Err _ => Err "admin role not found"
              | Ok role => Ok (hashedPassword, true, role)
              end
          end
        else
          match HashPassword entropy (Register_Password req) with
          | Err _ => Err "failed to hash password"
          | Ok hashedPassword =>
              match UserService.GetRoleByName d "User" with
              | Err _ => Err "default user role not found"
              | Ok role => Ok (hashedPassword, false, role)
              end
          end in
      match prepared with
      | Err e => (Err e, d)
      | Ok (hashedPassword, needsPasswordChange, role) =>
          let newUser :=
            mkUser NilObjectID "New" "User" (Register_Email req) hashedPassword
              (Role_ID role)
              "https://placehold.co/150x150/cccccc/ffffff?text=Avatar"
              false needsPasswordChange (DateTime now) (DateTime now) in
          UserService.CreateUser newUser newID now d
      end
  end.
End AuthService.
Export AuthService.

(** ** Sequential executions over the reset registry

    The operations that read or write the registry, one at a time: the two
    service calls, the scheduled removal of a token, and any other request,
    which may change the database but not the registry. *)

Inductive Op : Type :=
| OpForgotPassword (email : string) (now : Time)
| OpResetPassword (tokenString newPassword entropy : string) (now : Time)
| OpSweep (token : string)
| OpStore (f : Database -> Database).

Definition step `{Platform} (s : AuthService) (o : Op) (st : State) : error * State :=
  match o with
  | OpForgotPassword email now => ForgotPassword s email now st
  | OpResetPassword tokenString newPassword entropy now =>
      ResetPassword s tokenString newPassword entropy now st
  | OpSweep token => (None, sweep token st)
  | OpStore f => (None, with_db st (f (db st)))
  end.

(** One entry of a run: the operation, the state it started in, what it
    returned, and the state it left. *)
Record Event : Type := mkEvent {
  ev_op : Op;
  ev_before : State;
  ev_result : error;
  ev_after : State
}.

Fixpoint run `{Platform} (s : AuthService) (ops : list Op) (st : State) : list Event :=
  match ops with
  | [] => []
  | o :: rest =>
      let out := step s o st in
      mkEvent o st (fst out) (snd out) :: run s rest (snd out)
  end.

(** The event is a [ForgotPassword] call that places [token]. *)
Definition places `{Platform} (s : AuthService) (token : string) (ev : Event) : Prop :=
  match ev_op ev with
  | OpForgotPassword email now =>
      exists user,
        UserService.GetUserByEmail (db (ev_before ev)) email = Ok user /\
        GeneratePasswordResetToken (User_ID user) (passwordResetSecret s) now
          = Ok token
  | _ => False
  end.

(** The event is a [ResetPassword] call with [token]. *)
Definition redeems (token : string) (ev : Event) : Prop :=
  match ev_op ev with
  | OpResetPassword tokenString _ _ _ => tokenString = token
  | _ => False
  end.

(** ** internal/handlers *)

(** [validator.Validate.Struct] on the request types, driven by their
    [validate] tags. *)
Class Validator : Type := {
  Struct_UpdateUserRoleRequest : UpdateUserRoleRequest -> error;
  Struct_CreateTaskRequest : CreateTaskRequest -> error;
  Struct_UpdateTaskRequest : UpdateTaskRequest -> error;
  Struct_ForgotPasswordRequest : ForgotPasswordRequest -> error
}.

(** An inbound request as a handler reads it: the route variable [id], the
    body decoded into the request struct ([None] when decoding fails), and
    the [AuthContext] the middleware stored in the request context. *)
Record Request (B : Type) : Type := mkRequest {
  Vars_id : string;
  Decoded : option B;
  ContextValue : option AuthContext
}.
Arguments mkRequest {B} _ _ _.
Arguments Vars_id {B} _.
Arguments Decoded {B} _.
Arguments ContextValue {B} _.

Module middleware.
Record AuthMiddleware : Type := mkAuthMiddleware {
  mw_jwtSecret : string;
  authService : AuthService
}.

(** [JWTAuth(next, requiredPermission)] up to the call of [next]: the
    response that ends the request, or the [AuthContext] that [next]
    receives in the request context.  [authHeader] is the value of the
    [Authorization] header. *)
Definition JWTAuth `{Platform} (m : AuthMiddleware) (requiredPermission : string)
    (authHeader : string) (now : Time) (d : Database) : Response + AuthContext :=
  if decide (authHeader = EmptyString)
  then inl (RespondWithError StatusUnauthorized "Missing authorization header")
  else
  match bytes.Split " "%char authHeader with
  | [scheme; tokenString] =>
  if negb (bool_decide (bytes.ToLower scheme = "bearer"))
  then inl (RespondWithError StatusUnauthorized "Invalid authorization header format")
  else
  match jwt.Parse tokenString (hmacKeyfunc (mw_jwtSecret m)) now with
  | Err e =>
      inl (RespondWithError StatusUnauthorized ("Invalid or expired token: " +:+ e))
  | Ok token =>
  if negb (jwt.Valid token)
  then inl (RespondWithError StatusUnauthorized "Invalid token")
  else
  match jwt.Claims token !! "user_id" with
  | Some (VString userIDHex) =>
  match jwt.Claims token !! "role_id" with
  | Some (VString roleIDHex) =>
  match ObjectIDFromHex userIDHex with
  | Err _ =>
      inl (RespondWithError StatusInternalServerError "Invalid user ID format in token")
  | Ok userID =>
  match ObjectIDFromHex roleIDHex with
  | Err _ =>
      inl (RespondWithError StatusInternalServerError "Invalid role ID format in token")
  | Ok roleID =>
  match AuthenticatedUserContext (authService m) userID roleID d with
  | Err e =>
      inl (RespondWithError StatusInternalServerError
             ("Failed to retrieve user authentication context: " +:+ e))
  | Ok authContext =>
      if negb (bool_decide (requiredPermission = EmptyString))
         && negb (HasPermission authContext requiredPermission)
      then inl (RespondWithError StatusForbidden
                  "You do not have sufficient permissions to access this resource")
      else inr authContext
  end end end
  | _ => inl (RespondWithError StatusUnauthorized "Role ID claim missing or invalid")
  end
  | _ => inl (RespondWithError StatusUnauthorized "User ID claim missing or invalid")
  end end
  | _ => inl (RespondWithError StatusUnauthorized "Invalid authorization header format")
  end.

Definition GetAuthContext {B : Type} (r : Request B) : result AuthContext :=
  match ContextValue r with
  | Some authContext => Ok authContext
  | None => Err "authentication context not found or invalid in request"
  end.
End middleware.

(** A request whose handler reads the route variable, the URL query and the
    request context, and decodes no body.  [Query k] is
    [r.URL.Query().Get(k)]: the empty string when the key is absent. *)
Module query.
Record Request : Type := mkRequest {
  Vars_id : string;
  Query : string -> string;
  ContextValue : option AuthContext
}.

Definition GetAuthContext (r : Request) : result AuthContext :=
  match ContextValue r with
  | Some authContext => Ok authContext
  | None => Err "authentication context not found or invalid in request"
  end.
End query.

(** What a handler has written when it returns: a JSON response of
    [RespondWithJSON] with one of the payloads above or with a task list,
    or a bare status line. *)
Inductive Outcome : Type :=
| Wrote (r : Response)
| WroteTaskList (l : TaskService.TaskListResponse)
| WroteHeader (code : Z).

Definition StatusNoContent : Z := 204.

(** [validator.Validate.Struct] on the profile request. *)
Class ProfileValidator : Type := {
  Struct_UpdateUserProfileRequest : UpdateUserProfileRequest -> error
}.

Module UserHandler.
Definition UpdateUserRole `{Validator} (r : Request UpdateUserRoleRequest)
    (now : Time) (d : Database) : Response * Database :=
  let targetUserID := Vars_id r in
  match Decoded r with
  | None => (RespondWithError StatusBadRequest "Invalid request payload", d)
  | Some req =>
  match Struct_UpdateUserRoleRequest req with
  | Some e => (RespondWithError StatusBadRequest e, d)
  | None =>
  match middleware.GetAuthContext r with
  | Err e => (RespondWithError StatusUnauthorized e, d)
  | Ok authContext =>
  match UserService.GetUserByID d targetUserID with
  | Err _ => (RespondWithError StatusNotFound "Target user not found", d)
  | Ok targetUser =>
  match UserService.GetRoleByID d (Hex (RoleID targetUser)) with
  | Err _ =>
      (RespondWithError StatusInternalServerError
         "Could not determine target user's current role", d)
  | Ok targetRole =>
      if bool_decide (Role_Name targetRole = "Admin")
         && bool_decide (RoleName authContext = "Admin")
         && bool_decide (targetUserID <> Hex (UserID authContext))
      then (RespondWithError StatusForbidden
              "You cannot change the role of another Admin.", d)
      else if bool_decide (Req_RoleName req = "Admin")
              && bool_decide (RoleName authContext = "Admin")
              && bool_decide (targetUserID = Hex (UserID authContext))
      then (RespondWithError StatusForbidden
              "You cannot change your own role from Admin.", d)
      else
        match UserService.UpdateUserRole targetUserID (Req_RoleName req) now d with
        | (Err e, d') =>
            if bool_decide (e = "user not found or role not changed")
               || bool_decide (e = "new role not found")
               || bool_decide (e = "invalid user ID format")
            then (RespondWithError StatusBadRequest e, d')
            else (RespondWithError StatusInternalServerError
                    "Failed to update user role", d')
        | (Ok userResponse, d') =>
            (RespondWithJSON StatusOK (UserPayload userResponse), d')
        end
  end end end end end.

Definition GetUserByID (r : query.Request) (d : Database) : Response :=
  let targetUserID := query.Vars_id r in
  match query.GetAuthContext r with
  | Err e => RespondWithError StatusUnauthorized e
  | Ok authContext =>
      if bool_decide (Hex (UserID authContext) = targetUserID) then
        match UserService.GetUserResponseByID d targetUserID with
        | Err e => RespondWithError StatusNotFound e
        | Ok userResponse => RespondWithJSON StatusOK (UserPayload userResponse)
        end
      else if negb (HasPermission authContext "user:read_all") then
        RespondWithError StatusForbidden
          "You do not have permission to view this user's profile"
      else
        match UserService.GetUserResponseByID d targetUserID with
        | Err e => RespondWithError StatusNotFound e
        | Ok userResponse => RespondWithJSON StatusOK (UserPayload userResponse)
        end
  end.

Definition UpdateUserProfile `{ProfileValidator}
    (r : Request UpdateUserProfileRequest) (now : Time) (d : Database)
  : Response * Database :=
  let targetUserID := Vars_id r in
  match Decoded r with
  | None => (RespondWithError StatusBadRequest "Invalid request payload", d)
  | Some req =>
  match Struct_UpdateUserProfileRequest req with
  | Some e => (RespondWithError StatusBadRequest e, d)
  | None =>
  match middleware.GetAuthContext r with
  | Err e => (RespondWithError StatusUnauthorized e, d)
  | Ok authContext =>
      if bool_decide (Hex (UserID authContext) <> targetUserID)
         && negb (HasPermission authContext "user:update_profile")
      then (RespondWithError StatusForbidden
              "You do not have permission to update this user's profile", d)
      else
        match UserService.UpdateUserProfile targetUserID req now d with
        | (Err e, d') =>
            if bool_decide (e = "user not found or no changes made to profile")
               || bool_decide (e = "invalid user ID format")
            then (RespondWithError StatusNotFound e, d')
            else (RespondWithError StatusInternalServerError
                    "Failed to update user profile", d')
        | (Ok userResponse, d') =>
            (RespondWithJSON StatusOK (UserPayload userResponse), d')
        end
  end end end.
End UserHandler.

Module TaskHandler.
Definition CreateTask `{Validator} (r : Request CreateTaskRequest)
    (newID : ObjectID) (now : Time) (d : Database) : Response * Database :=
  match Decoded r with
  | None => (RespondWithError StatusBadRequest "Invalid request payload", d)
  | Some req =>
  match Struct_CreateTaskRequest req with
  | Some e => (RespondWithError StatusBadRequest e, d)
  | None =>
  match middleware.GetAuthContext r with
  | Err e => (RespondWithError StatusUnauthorized e, d)
  | Ok authContext =>
      let status :=
        if decide (Create_Status req = EmptyString) then StatusTodo
        else Create_Status req in
      let task :=
        mkTask NilObjectID (Create_Title req) (Create_Description req) status
          (UserID authContext) 0 0 in
      match TaskService.CreateTask task newID now d with
      | (Err _, d') =>
          (RespondWithError StatusInternalServerError "Failed to create task", d')
      | (Ok createdTask, d') =>
          (RespondWithJSON StatusCreated (TaskPayload createdTask), d')
      end
  end end end.

Definition UpdateTask `{Validator} (r : Request UpdateTaskRequest)
    (now : Time) (d : Database) : Response * Database :=
  let taskID := Vars_id r in
  match Decoded r with
  | None => (RespondWithError StatusBadRequest "Invalid request payload", d)
  | Some req =>
  match Struct_UpdateTaskRequest req with
  | Some e => (RespondWithError StatusBadRequest e, d)
  | None =>
  match middleware.GetAuthContext r with
  | Err e => (RespondWithError StatusUnauthorized e, d)
  | Ok authContext =>
  match TaskService.GetTaskByID d taskID with
  | Err e =>
      if bool_decide (e = "task not found")
      then (RespondWithError StatusNotFound e, d)
      else (RespondWithError StatusInternalServerError
              "Failed to retrieve task for update", d)
  | Ok task =>
      if negb (HasPermission authContext "task:update_all")
         && bool_decide (Task_UserID task <> UserID authContext)
      then (RespondWithError StatusForbidden
              "You do not have permission to update this task", d)
      else
        match TaskService.UpdateTask taskID req now d with
        | (Err e, d') =>
            if bool_decide (e = "task not found or no changes made")
            then (RespondWithError StatusNotFound e, d')
            else (RespondWithError StatusInternalServerError
                    "Failed to update task", d')
        | (Ok updatedTask, d') =>
            (RespondWithJSON StatusOK (TaskPayload updatedTask), d')
        end
  end end end end.

Definition GetTasks `{Server} (r : query.Request) (d : Database) : Outcome :=
  match query.GetAuthContext r with
  | Err e => Wrote (RespondWithError StatusUnauthorized e)
  | Ok authContext =>
      let pageStr := query.Query r "page" in
      let limitStr := query.Query r "limit" in
      let page :=
        match strconv.ParseInt pageStr with
        | Ok page => if decide (page < 1) then 1 else page
        | Err _ => 1
        end in
      let limit :=
        match strconv.ParseInt limitStr with
        | Ok limit => if decide (limit < 1 \/ 100 < limit) then 10 else limit
        | Err _ => 10
        end in
      let statusFilter := query.Query r "status" in
      let targetUserIDParam := query.Query r "user_id" in
      let hasReadAllPermission := HasPermission authContext "task:read_all" in
      let byUser : result (option ObjectID) :=
        if negb hasReadAllPermission then Ok (Some (UserID authContext))
        else if decide (targetUserIDParam = EmptyString) then Ok None
        else
          match ObjectIDFromHex targetUserIDParam with
          | Err _ => Err "Invalid user_id filter format"
          | Ok objUserID => Ok (Some objUserID)
          end in
      match byUser with
      | Err e => Wrote (RespondWithError StatusBadRequest e)
      | Ok user_id =>
          let byStatus : result (option string) :=
            if decide (statusFilter = EmptyString) then Ok None
            else
              let lowered := strings_ToLower statusFilter in
              if bool_decide (lowered = "todo")
                 || bool_decide (lowered = "in_progress")
                 || bool_decide (lowered = "done")
              then Ok (Some lowered)
              else Err "Invalid status filter. Must be 'todo', 'in_progress', or 'done'." in
          match byStatus with
          | Err e => Wrote (RespondWithError StatusBadRequest e)
          | Ok status =>
              let filter := TaskService.mkTaskFilter user_id status in
              let searchQuery := query.Query r "search" in
              match TaskService.ListTasks filter searchQuery page limit d with
              | Err _ =>
                  Wrote (RespondWithError StatusInternalServerError
                           "Failed to retrieve tasks")
              | Ok tasksResponse => WroteTaskList tasksResponse
              end
          end
      end
  end.

Definition GetTaskByID (r : query.Request) (d : Database) : Response :=
  let taskID := query.Vars_id r in
  match query.GetAuthContext r with
  | Err e => RespondWithError StatusUnauthorized e
  | Ok authContext =>
      match TaskService.GetTaskByID d taskID with
      | Err e =>
          if bool_decide (e = "task not found")
          then RespondWithError StatusNotFound e
          else RespondWithError StatusInternalServerError "Failed to retrieve task"
      | Ok task =>
          if negb (HasPermission authContext "task:read_all")
             && bool_decide (Task_UserID task <> UserID authContext)
          then RespondWithError StatusForbidden
                 "You do not have permission to view this task"
          else RespondWithJSON StatusOK (TaskPayload task)
      end
  end.

Definition DeleteTask (r : query.Request) (d : Database) : Outcome * Database :=
  let taskID := query.Vars_id r in
  match query.GetAuthContext r with
  | Err e => (Wrote (RespondWithError StatusUnauthorized e), d)
  | Ok authContext =>
      match TaskService.GetTaskByID d taskID with
      | Err e =>
          if bool_decide (e = "task not found")
          then (Wrote (RespondWithError StatusNotFound e), d)
          else (Wrote (RespondWithError StatusInternalServerError
                         "Failed to retrieve task for deletion check"), d)
      | Ok task =>
          if negb (HasPermission authContext "task:delete_all")
             && bool_decide (Task_UserID task <> UserID authContext)
          then (Wrote (RespondWithError StatusForbidden
                         "You do not have permission to delete this task"), d)
          else
            match TaskService.DeleteTask taskID d with
            | (Some e, d') =>
                if bool_decide (e = "task not found")
                then (Wrote (RespondWithError StatusNotFound e), d')
                else (Wrote (RespondWithError StatusInternalServerError
                               "Failed to delete task"), d')
            | (None, d') => (WroteHeader StatusNoContent, d')
            end
      end
  end.
End TaskHandler.

Module AuthHandler.
Definition ForgotPassword `{Platform} `{Validator} (s : AuthService)
    (r : Request ForgotPasswordRequest) (now : Time) (st : State)
  : Response * State :=
  match Decoded r with
  | None => (RespondWithError StatusBadRequest "Invalid request payload", st)
  | Some req =>
  match Struct_ForgotPasswordRequest req with
  | Some e => (RespondWithError StatusBadRequest e, st)
  | None =>
      match AuthService.ForgotPassword s (Forgot_Email req) now st with
      | (Some _, st') =>
          (RespondWithError StatusInternalServerError
             "Failed to initiate password reset", st')
      | (None, st') =>
          (RespondWithJSON StatusOK
             (MessagePayload
                "If an account with that email exists, a password reset link has been sent."),
           st')
      end
  end end.

(** [VerifyEmail]: the token is read from the query and only tested for
    being present. *)
Definition VerifyEmail (r : query.Request) (now : Time) (d : Database)
  : Response * Database :=
  let tokenString := query.Query r "token" in
  if decide (tokenString = EmptyString)
  then (RespondWithError StatusBadRequest "Missing verification token", d)
  else
    match query.GetAuthContext r with
    | Err e => (RespondWithError StatusUnauthorized e, d)
    | Ok authContext =>
        if Ctx_IsEmailVerified authContext
        then (RespondWithError StatusBadRequest "Email already verified", d)
        else
          match UserService.VerifyUserEmail (UserID authContext) now d with
          | (Some e, d') => (RespondWithError StatusInternalServerError e, d')
          | (None, d') =>
              (RespondWithJSON StatusOK
                 (MessagePayload "Email verified successfully."), d')
          end
    end.
End AuthHandler.

(** ** internal/database: seeding the roles *)

Module database.
(** The loop of [SeedDefaultRoles] over the roles still to seed.  A default
    role carries no id; [newID name] is the id its document gets when it is
    inserted. *)
Fixpoint seed (newID : string -> ObjectID) (defaults : list Role)
    (rs : list Role) : error * list Role :=
  match defaults with
  | [] => (None, rs)
  | defaultRole :: rest =>
      let byName := fun r => bool_decide (Role_Name r = Role_Name defaultRole) in
      match FindOne byName rs with
      | Err e =>
          if decide (e = ErrNoDocuments) then
            let doc :=
              mkRole (newID (Role_Name defaultRole)) (Role_Name defaultRole)
                (Role_Permissions defaultRole) in
            match InsertOne Role_ID doc rs with
            | (Some e', rs') => (Some e', rs')
            | (None, rs') => seed newID rest rs'
            end
          else (Some e, rs)
      | Ok _ =>
          let '(_, rs') :=
            UpdateOne byName
              (fun r => mkRole (Role_ID r) (Role_Name r)
                          (Role_Permissions defaultRole)) rs in
          seed newID rest rs'
      end
  end.

Definition SeedDefaultRoles (newID : string -> ObjectID) (db : Database)
  : error * Database :=
  let '(e, rs) := seed newID DefaultRoles (roles db) in
  (e, with_roles db rs).
End database.

(** ** api/routes.go: the permission each protected route requires *)

Module api.
Definition CreateAdminUser_permission : string := "user:create_admin".
Definition GetUserByID_permission : string := "user:read_own".
Definition UpdateUserRole_permission : string := "user:update_role".
Definition UpdateUserProfile_permission : string := "user:update_profile".
Definition ListUsers_permission : string := "user:read_all".
Definition CreateTask_permission : string := "task:create".
Definition GetTasks_permission : string := "task:read_own".
Definition GetTaskByID_permission : string := "task:read_own".
Definition UpdateTask_permission : string := "task:update_own".
Definition DeleteTask_permission : string := "task:delete_own".
Definition GetDashboardMetrics_permission : string := "dashboard:read_metrics".
Definition UploadFile_permission : string := "user:update_profile".
End api.

(** ** The contract of the encoders

    What the proofs use of base64url and encoding/json.  Base64url decodes
    what it encoded and its alphabet has no dot.  A map that is marshalled
    and unmarshalled again keeps, under every ASCII key, a value of the
    same kind: an ASCII string exactly (other strings may be rewritten
    where they are not valid UTF-8), and a number exactly when its
    magnitude is at most 2^53 (numbers decode as float64). *)

Definition json_agree (v v' : Value) : Prop :=
  match v, v' with
  | VString s, VString s' => bytes.is_ascii s = true -> s' = s
  | VNumber n, VNumber n' => Z.abs n <= 2 ^ 53 -> n' = n
  | _, _ => False
  end.

Record CodecLaws (P : Platform) : Prop := mkCodecLaws {
  base64_round_trip :
    forall s, base64_DecodeString (base64_EncodeToString s) = Some s;
  base64_alphabet :
    forall s, bytes.contains "."%char (base64_EncodeToString s) = false;
  json_round_trip :
    forall m, exists m',
      json_Unmarshal (json_Marshal m) = Some m' /\
      forall k, bytes.is_ascii k = true ->
                option_Forall2 json_agree (m !! k) (m' !! k)
}.

(** The HMAC-SHA256 tag of a claim set under a key, as [SignedString]
    computes it. *)
Definition tag `{Platform} (key : string) (claims : gmap string Value) : string :=
  hmac.Sum SHA256 key
    (jwt.SigningString (jwt.NewWithClaims jwt.SigningMethodHS256 claims)).

(** ** The permission table of the specification (section 4.1) *)

Definition canonical_permissions (roleName : string) : gset string :=
  if decide (roleName = "Admin") then
    {[ "task:create"; "task:read_all"; "task:update_all"; "task:delete_all";
       "user:read_all"; "user:update_role"; "user:update_profile";
       "user:verify_email"; "user:create_admin"; "dashboard:read_metrics" ]}
  else if decide (roleName = "Manager") then
    {[ "task:create"; "task:read_all"; "task:update_all"; "task:delete_all";
       "user:update_profile" ]}
  else if decide (roleName = "User") then
    {[ "task:create"; "task:read_own"; "task:update_own"; "task:delete_own";
       "user:update_profile" ]}
  else ∅.

(** [DefaultRoles] read as a map from role names: the permissions of the
    first entry with the name, none when no entry has it. *)
Definition default_permissions (roleName : string) : list Permission :=
  match List.find (fun r => bool_decide (Role_Name r = roleName)) DefaultRoles with
  | Some r => Role_Permissions r
  | None => []
  end.

Definition actions (ps : list Permission) : gset string :=
  list_to_set (Action <$> ps).

(** ** A small platform to run the model on

    Stand-ins with the interface of the libraries: digests that return
    the message, bcrypt that refuses a password of more than 72 bytes (as
    the library does) and otherwise prefixes it, hexadecimal for base64url,
    and the binary digits of stdpp's encoding for JSON.  The validator
    reads the [validate] tags on ASCII input. *)

Module sim.
Definition Value_to_sum (v : Value) : string + Z :=
  match v with
  | VString s => inl s
  | VNumber n => inr n
  end.

Definition Value_of_sum (x : string + Z) : Value :=
  match x with
  | inl s => VString s
  | inr n => VNumber n
  end.

#[global] Instance Value_countable : Countable Value.
Proof.
  refine (inj_countable' Value_to_sum Value_of_sum _).
  intros []; reflexivity.
Defined.

Fixpoint bits_of_pos (p : positive) : string :=
  match p with
  | xH => EmptyString
  | xO q => String "0"%char (bits_of_pos q)
  | xI q => String "1"%char (bits_of_pos q)
  end.

Fixpoint pos_of_bits (s : string) : option positive :=
  match s with
  | EmptyString => Some xH
  | String c t =>
      match pos_of_bits t with
      | None => None
      | Some q =>
          if decide (c = "0"%char) then Some (xO q)
          else if decide (c = "1"%char) then Some (xI q)
          else None
      end
  end.

Definition Marshal (m : gmap string Value) : string := bits_of_pos (encode m).

Definition Unmarshal (s : string) : option (gmap string Value) :=
  match pos_of_bits s with
  | Some p => decode p
  | None => None
  end.

Definition GenerateFromPassword (entropy password : string) : result string :=
  if decide (72 < String.length password)%nat
  then Err "bcrypt: password length exceeds 72 bytes"
  else Ok ("$sim$" +:+ password).

Definition CompareHashAndPassword (hash password : string) : bool :=
  bool_decide (hash = "$sim$" +:+ password).

Definition platform : Platform := {|
  hash_Sum := fun _ msg => msg;
  bcrypt_GenerateFromPassword := GenerateFromPassword;
  bcrypt_CompareHashAndPassword := CompareHashAndPassword;
  base64_EncodeToString := hex.EncodeToString;
  base64_DecodeString := hex.DecodeString;
  json_Marshal := Marshal;
  json_Unmarshal := Unmarshal
|}.

Definition fieldError (struct field tag : string) : string :=
  "Key: '" +:+ struct +:+ "." +:+ field +:+ "' Error:Field validation for '"
  +:+ field +:+ "' failed on the '" +:+ tag +:+ "' tag".

Definition oneofStatus (s : string) : bool :=
  bool_decide (s ∈ ["todo"; "in_progress"; "done"]).

Definition validator : Validator := {|
  Struct_UpdateUserRoleRequest := fun req =>
    if decide (Req_RoleName req = EmptyString)
    then Some (fieldError "UpdateUserRoleRequest" "RoleName" "required")
    else None;
  Struct_CreateTaskRequest := fun req =>
    if decide (Create_Title req = EmptyString)
    then Some (fieldError "CreateTaskRequest" "Title" "required")
    else if decide (String.length (Create_Title req) < 5)%nat
    then Some (fieldError "CreateTaskRequest" "Title" "min")
    else if negb (bool_decide (Create_Status req = EmptyString))
            && negb (oneofStatus (Create_Status req))
    then Some (fieldError "CreateTaskRequest" "Status" "oneof")
    else None;
  Struct_UpdateTaskRequest := fun req =>
    if match Update_Title req with
       | Some t => bool_decide (String.length t < 5)%nat
       | None => false
       end
    then Some (fieldError "UpdateTaskRequest" "Title" "min")
    else if match Update_Status req with
            | Some st => negb (oneofStatus st)
            | None => false
            end
    then Some (fieldError "UpdateTaskRequest" "Status" "oneof")
    else None;
  Struct_ForgotPasswordRequest := fun req =>
    if decide (Forgot_Email req = EmptyString)
    then Some (fieldError "ForgotPasswordRequest" "Email" "required")
    else if negb (bytes.contains "@"%char (Forgot_Email req))
    then Some (fieldError "ForgotPasswordRequest" "Email" "email")
    else None
|}.
(** A small world: the three seeded roles, two Admins (Bob still on his
    temporary password), a plain User, and one task each for Ada and
    Carol. *)
Definition adminRoleID : ObjectID :=
  OID "r" "o" "l" "e" "-" "a" "d" "m" "i" "n" "0" "1".
Definition managerRoleID : ObjectID :=
  OID "r" "o" "l" "e" "-" "m" "a" "n" "a" "g" "e" "r".
Definition userRoleID : ObjectID :=
  OID "r" "o" "l" "e" "-" "u" "s" "e" "r" "0" "0" "1".
Definition adaID : ObjectID :=
  OID "u" "s" "e" "r" "-" "a" "d" "a" "0" "0" "0" "1".
Definition bobID : ObjectID :=
  OID "u" "s" "e" "r" "-" "b" "o" "b" "0" "0" "0" "2".
Definition carolID : ObjectID :=
  OID "u" "s" "e" "r" "-" "c" "a" "r" "o" "l" "0" "3".
Definition adaTaskID : ObjectID :=
  OID "t" "a" "s" "k" "-" "a" "d" "a" "0" "0" "0" "1".
Definition carolTaskID : ObjectID :=
  OID "t" "a" "s" "k" "-" "c" "a" "r" "o" "l" "0" "2".
Definition freshID : ObjectID :=
  OID "t" "a" "s" "k" "-" "f" "r" "e" "s" "h" "0" "3".

Definition seededRoles : list Role :=
  [ mkRole adminRoleID "Admin" (default_permissions "Admin");
    mkRole managerRoleID "Manager" (default_permissions "Manager");
    mkRole userRoleID "User" (default_permissions "User") ].

Definition avatar : string :=
  "https://placehold.co/150x150/cccccc/ffffff?text=Avatar".

Definition ada : User :=
  mkUser adaID "Ada" "Admin" "ada@example.com" "$sim$ada-password"
    adminRoleID avatar true false 0 0.
Definition bob : User :=
  mkUser bobID "New" "User" "bob@example.com" "$sim$temporary-1"
    adminRoleID avatar false true 0 0.
Definition carol : User :=
  mkUser carolID "Carol" "User" "carol@example.com" "$sim$carol-password"
    userRoleID avatar true false 0 0.

Definition adaTask : Task :=
  mkTask adaTaskID "Review roles" "Quarterly review" "todo" adaID 0 0.
Definition carolTask : Task :=
  mkTask carolTaskID "Write report" "Weekly report" "in_progress" carolID 0 0.

Definition database : Database :=
  mkDatabase [ada; bob; carol] seededRoles [adaTask; carolTask].

Definition adaContext : AuthContext :=
  mkAuthContext adaID adminRoleID "Admin" (default_permissions "Admin")
    true false.
Definition carolContext : AuthContext :=
  mkAuthContext carolID userRoleID "User" (default_permissions "User")
    true false.

Definition service : AuthService :=
  mkAuthService "session-secret" "reset-secret".

Definition state : State := mkState database ∅ [].

(** A password of 73 bytes. *)
Definition longPassword : string :=
  "0123456789012345678901234567890123456789012345678901234567890123456789012".

Definition server : Server := {|
  strings_ToLower := bytes.ToLower;
  regex_compile := fun pattern =>
    Some (fun text =>
            match String.index 0 (bytes.ToLower pattern) (bytes.ToLower text) with
            | Some _ => true
            | None => false
            end)
|}.

Definition profileValidator : ProfileValidator := {|
  Struct_UpdateUserProfileRequest := fun req =>
    if match Profile_FirstName req with
       | Some v => bool_decide (String.length v < 2 \/ 50 < String.length v)%nat
       | None => false
       end
    then Some (fieldError "UpdateUserProfileRequest" "FirstName" "min")
    else None
|}.

Definition authMiddleware : middleware.AuthMiddleware :=
  middleware.mkAuthMiddleware (jwtSecret service) service.

Definition noQuery : string -> string := fun _ => EmptyString.

Definition daveID : ObjectID :=
  OID "u" "s" "e" "r" "-" "d" "a" "v" "e" "0" "0" "4".

Definition bobContext : AuthContext :=
  mkAuthContext bobID adminRoleID "Admin" (default_permissions "Admin")
    false true.

(** What a call returned, for a call that succeeds. *)
Definition returned {A : Type} (default : A) (x : result A) : A :=
  match x with
  | Ok a => a
  | Err _ => default
  end.

(** Ada logs in at time 0. *)
Definition adaLogin : LoginResponse :=
  returned (mkLoginResponse EmptyString EmptyString EmptyString EmptyString false)
    (@LoginUser platform service
       (mkUserLoginRequest "ada@example.com" "ada-password") 0 database).

(** A reset token for Carol, signed with the session secret. *)
Definition carolResetToken : string :=
  returned EmptyString
    (@GeneratePasswordResetToken platform carolID (jwtSecret service) 0).

(** The ids drawn when the roles are seeded into an empty collection. *)
Definition seedID (name : string) : ObjectID :=
  if decide (name = "Admin") then adminRoleID
  else if decide (name = "Manager") then managerRoleID
  else userRoleID.

Definition emptyDatabase : Database := mkDatabase [] [] [].
End sim.

(** * Properties *)

(** ** Byte strings and hexadecimal *)

Lemma app_nil_l (b : string) : EmptyString +:+ b = b.
Proof. reflexivity. Qed.

Lemma app_cons (x : ascii) (a b : string) :
  String x a +:+ b = String x (a +:+ b).
Proof. reflexivity. Qed.

Lemma string_app_assoc (a b c : string) : (a +:+ b) +:+ c = a +:+ (b +:+ c).
Proof.
  induction a as [|x a IH]; [reflexivity |].
  rewrite !app_cons. by f_equal.
Qed.

Lemma string_app_length (a b : string) :
  String.length (a +:+ b) = (String.length a + String.length b)%nat.
Proof.
  induction a as [|x a IH]; [reflexivity |].
  rewrite app_cons. simpl. by rewrite IH.
Qed.

Lemma contains_app (c : ascii) (a b : string) :
  bytes.contains c (a +:+ b) = bytes.contains c a || bytes.contains c b.
Proof.
  induction a as [|x a IH]; [reflexivity |].
  rewrite app_cons. simpl.
  destruct (decide (c = x)); [reflexivity | exact IH].
Qed.

Lemma Split_no_sep (sep : ascii) (s : string) :
  bytes.contains sep s = false -> bytes.Split sep s = [s].
Proof.
  induction s as [|c s IH]; simpl; [reflexivity |].
  destruct (decide (sep = c)) as [->|Hne]; [discriminate |].
  intros Hs. rewrite decide_False by congruence. by rewrite IH.
Qed.

Lemma Split_app (sep : ascii) (a t : string) :
  bytes.contains sep a = false ->
  bytes.Split sep (a +:+ String sep t) = a :: bytes.Split sep t.
Proof.
  induction a as [|c a IH].
  - intros _. rewrite app_nil_l. simpl. by rewrite decide_True.
  - rewrite app_cons. simpl.
    destruct (decide (sep = c)) as [->|Hne]; [discriminate |].
    intros Ha. rewrite decide_False by congruence. by rewrite IH.
Qed.

Lemma hex_byte (v : ascii) :
  hex.fromHexChar (hex.digit (N.shiftr (N_of_ascii v) 4)) = Some (N.shiftr (N_of_ascii v) 4)
  /\ hex.fromHexChar (hex.digit (N.land (N_of_ascii v) 15)) = Some (N.land (N_of_ascii v) 15)
  /\ ascii_of_N (N.lor (N.shiftl (N.shiftr (N_of_ascii v) 4) 4) (N.land (N_of_ascii v) 15)) = v.
Proof. destruct v as [[] [] [] [] [] [] [] []]; vm_compute; done. Qed.

Lemma hex_digits_plain (v : ascii) :
  let hi := hex.digit (N.shiftr (N_of_ascii v) 4) in
  let lo := hex.digit (N.land (N_of_ascii v) 15) in
  (N_of_ascii hi <? 128)%N = true /\ (N_of_ascii lo <? 128)%N = true
  /\ hi <> "."%char /\ lo <> "."%char.
Proof. destruct v as [[] [] [] [] [] [] [] []]; vm_compute; done. Qed.

Lemma hex_round_trip (s : string) :
  hex.DecodeString (hex.EncodeToString s) = Some s.
Proof.
  induction s as [|v s IH]; [reflexivity |].
  destruct (hex_byte v) as (Hhi & Hlo & Hv).
  cbn [hex.EncodeToString hex.DecodeString].
  by rewrite Hhi, Hlo, IH, Hv.
Qed.

Lemma hex_length (s : string) :
  String.length (hex.EncodeToString s) = (2 * String.length s)%nat.
Proof. induction s as [|v s IH]; simpl; [reflexivity | rewrite IH; lia]. Qed.

Lemma hex_is_ascii (s : string) : bytes.is_ascii (hex.EncodeToString s) = true.
Proof.
  induction s as [|v s IH]; [reflexivity |].
  destruct (hex_digits_plain v) as (Hhi & Hlo & _).
  cbn [hex.EncodeToString bytes.is_ascii]. by rewrite Hhi, Hlo, IH.
Qed.

Lemma hex_no_dot (s : string) :
  bytes.contains "."%char (hex.EncodeToString s) = false.
Proof.
  induction s as [|v s IH]; [reflexivity |].
  destruct (hex_digits_plain v) as (_ & _ & Hhi & Hlo).
  cbn [hex.EncodeToString bytes.contains].
  rewrite !decide_False by congruence. exact IH.
Qed.

(** An object id is read back from its hexadecimal form. *)
Lemma ObjectIDFromHex_Hex (id : ObjectID) : ObjectIDFromHex (Hex id) = Ok id.
Proof.
  unfold ObjectIDFromHex, Hex.
  rewrite decide_True by (rewrite hex_length; by destruct id).
  rewrite hex_round_trip. by destruct id.
Qed.

Lemma Hex_is_ascii (id : ObjectID) : bytes.is_ascii (Hex id) = true.
Proof. apply hex_is_ascii. Qed.

(** ** The document store *)

Lemma FindOne_Ok {D : Type} (f : D -> bool) (coll : list D) (d : D) :
  FindOne f coll = Ok d -> f d = true /\ In d coll.
Proof.
  unfold FindOne. destruct (List.find f coll) as [x|] eqn:Hfind; [| done].
  intros [= <-]. apply List.find_some in Hfind. tauto.
Qed.

Lemma FindOne_Err {D : Type} (f : D -> bool) (coll : list D) (e : string) :
  FindOne f coll = Err e -> e = ErrNoDocuments.
Proof. unfold FindOne. destruct (List.find f coll); by intros [=]. Qed.

Lemma GetUserByID_Ok (d : Database) (id : string) (u : User) :
  UserService.GetUserByID d id = Ok u ->
  ObjectIDFromHex id = Ok (User_ID u) /\ In u (users d).
Proof.
  unfold UserService.GetUserByID.
  destruct (ObjectIDFromHex id) as [objID|]; [| done].
  destruct (FindOne _ (users d)) as [x|e] eqn:Hfind.
  - intros [= <-]. apply FindOne_Ok in Hfind as [Hid Hin].
    apply bool_decide_eq_true in Hid. by rewrite Hid.
  - by destruct (decide _).
Qed.

Lemma GetTaskByID_Ok (d : Database) (id : string) (t : Task) :
  TaskService.GetTaskByID d id = Ok t ->
  ObjectIDFromHex id = Ok (Task_ID t) /\ In t (tasks d).
Proof.
  unfold TaskService.GetTaskByID.
  destruct (ObjectIDFromHex id) as [objID|]; [| done].
  destruct (FindOne _ (tasks d)) as [x|e] eqn:Hfind.
  - intros [= <-]. apply FindOne_Ok in Hfind as [Hid Hin].
    apply bool_decide_eq_true in Hid. by rewrite Hid.
  - by destruct (decide _).
Qed.

(** Updates by id. *)

Section update_by_id.
Context {D : Type} `{EqDecision D} (id_of : D -> ObjectID) (id : ObjectID)
        (set : D -> D).

Lemma UpdateByID_unmodified (coll : list D) :
  ModifiedCount (fst (UpdateByID id_of id set coll)) = 0 ->
  snd (UpdateByID id_of id set coll) = coll.
Proof.
  induction coll as [|d rest IH]; cbn; [done |].
  destruct (decide (id_of d = id)); cbn.
  - destruct (decide (set d = d)) as [->|]; [done | discriminate].
  - destruct (UpdateByID id_of id set rest) as [res rest']. cbn in *.
    intros Hm. by rewrite IH.
Qed.

Lemma UpdateByID_missing (coll : list D) :
  List.find (fun d => bool_decide (id_of d = id)) coll = None ->
  UpdateByID id_of id set coll = (mkUpdateResult 0 0, coll).
Proof.
  induction coll as [|d rest IH]; cbn; [done |].
  destruct (decide (id_of d = id)).
  - by rewrite bool_decide_eq_true_2.
  - rewrite bool_decide_eq_false_2 by done. intros Hf. by rewrite IH.
Qed.

Lemma UpdateByID_found (coll : list D) (d0 : D) :
  List.find (fun d => bool_decide (id_of d = id)) coll = Some d0 ->
  fst (UpdateByID id_of id set coll)
    = mkUpdateResult 1 (if decide (set d0 = d0) then 0 else 1) /\
  (id_of (set d0) = id ->
   List.find (fun d => bool_decide (id_of d = id))
     (snd (UpdateByID id_of id set coll)) = Some (set d0)).
Proof.
  induction coll as [|d rest IH]; cbn; [done |].
  destruct (decide (id_of d = id)).
  - rewrite bool_decide_eq_true_2 by done. intros [= <-]. cbn.
    split; [done |]. intros Hid. by rewrite bool_decide_eq_true_2.
  - rewrite bool_decide_eq_false_2 by done. intros Hf.
    destruct (IH Hf) as [Hres Hfind].
    destruct (UpdateByID id_of id set rest) as [res rest']. cbn in *.
    split; [done |]. intros Hid. rewrite bool_decide_eq_false_2 by done. auto.
Qed.

(** Document by document, the collection after the update holds the old
    document or its image under [set]. *)
Lemma UpdateByID_pointwise (coll : list D) :
  Forall2 (fun d d' => d' = d \/ d' = set d) coll
    (snd (UpdateByID id_of id set coll)).
Proof.
  induction coll as [|d rest IH]; cbn; [constructor |].
  destruct (decide (id_of d = id)); cbn.
  - constructor; [by right |]. apply Forall2_same_length_lookup_2; [done |].
    intros i x y Hx Hy. left. congruence.
  - destruct (UpdateByID id_of id set rest) as [res rest']. cbn in *.
    constructor; [by left | done].
Qed.
End update_by_id.

Lemma GetUserByID_Hex (d : Database) (id : ObjectID) (u : User) :
  UserService.GetUserByID d (Hex id) = Ok u <->
  List.find (fun u => bool_decide (User_ID u = id)) (users d) = Some u.
Proof.
  unfold UserService.GetUserByID, FindOne. rewrite ObjectIDFromHex_Hex.
  destruct (List.find _ (users d)) as [x|]; [| by rewrite decide_True].
  split; congruence.
Qed.

(** ** Tokens: what the verifier makes of an issued token *)

Section jwt_facts.
Context `{P : Platform} (L : CodecLaws P).

Lemma decodeMap_encode (m : gmap string Value) :
  exists m', jwt.decodeMap (jwt.EncodeSegment (json_Marshal m)) = Some m' /\
    forall k, bytes.is_ascii k = true -> option_Forall2 json_agree (m !! k) (m' !! k).
Proof.
  destruct (json_round_trip P L m) as (m' & Hm' & Hagree).
  exists m'. split; [| exact Hagree].
  unfold jwt.decodeMap, jwt.DecodeSegment, jwt.EncodeSegment.
  by rewrite (base64_round_trip P L).
Qed.

Lemma agree_string (m m' : gmap string Value) (k s : string) :
  (forall k, bytes.is_ascii k = true -> option_Forall2 json_agree (m !! k) (m' !! k)) ->
  bytes.is_ascii k = true -> bytes.is_ascii s = true ->
  m !! k = Some (VString s) -> m' !! k = Some (VString s).
Proof.
  intros Hagree Hk Hs Hm. specialize (Hagree k Hk). rewrite Hm in Hagree.
  inversion Hagree as [x y Hxy Hx Hy|]; subst.
  destruct y as [s'|n']; simpl in Hxy; [by rewrite Hxy | done].
Qed.

Lemma agree_number (m m' : gmap string Value) (k : string) (n : Z) :
  (forall k, bytes.is_ascii k = true -> option_Forall2 json_agree (m !! k) (m' !! k)) ->
  bytes.is_ascii k = true -> Z.abs n <= 2 ^ 53 ->
  m !! k = Some (VNumber n) -> m' !! k = Some (VNumber n).
Proof.
  intros Hagree Hk Hn Hm. specialize (Hagree k Hk). rewrite Hm in Hagree.
  inversion Hagree as [x y Hxy Hx Hy|]; subst.
  destruct y as [s'|n']; simpl in Hxy; [done | by rewrite Hxy].
Qed.

Lemma agree_absent (m m' : gmap string Value) (k : string) :
  (forall k, bytes.is_ascii k = true -> option_Forall2 json_agree (m !! k) (m' !! k)) ->
  bytes.is_ascii k = true -> m !! k = None -> m' !! k = None.
Proof.
  intros Hagree Hk Hm. specialize (Hagree k Hk). rewrite Hm in Hagree.
  by inversion Hagree.
Qed.

Lemma token_segments (h c sg : string) :
  bytes.contains "."%char h = false ->
  bytes.contains "."%char c = false ->
  bytes.contains "."%char sg = false ->
  bytes.Split "."%char ((h +:+ "." +:+ c) +:+ "." +:+ sg) = [h; c; sg].
Proof.
  intros Hh Hc Hsg.
  replace ((h +:+ "." +:+ c) +:+ "." +:+ sg)
    with (h +:+ String "."%char (c +:+ String "."%char sg)).
  - rewrite (Split_app _ _ _ Hh), (Split_app _ _ _ Hc).
    by rewrite (Split_no_sep _ _ Hsg).
  - rewrite string_app_assoc. reflexivity.
Qed.

(** What [jwt.Parse] makes of a token signed by [SignedString]. *)
Lemma Parse_SignedString (claims : gmap string Value) (key1 key2 : string) (now : Time) :
  let t := jwt.NewWithClaims jwt.SigningMethodHS256 claims in
  exists tok header' claims',
    jwt.SignedString t key1 = Ok tok /\
    (forall k, bytes.is_ascii k = true ->
               option_Forall2 json_agree (claims !! k) (claims' !! k)) /\
    jwt.Parse tok (hmacKeyfunc key2) now =
      if decide (tag key1 claims = tag key2 claims) then
        match jwt.Validate claims' now with
        | Some e => Err e
        | None =>
            Ok (jwt.mkToken tok jwt.SigningMethodHS256 header' claims'
                  (tag key1 claims) true)
        end
      else Err "token signature is invalid: signature is invalid".
Proof.
  intros t.
  destruct (decodeMap_encode (jwt.Header t)) as (header' & Hh & Hah).
  destruct (decodeMap_encode claims) as (claims' & Hc & Hac).
  eexists _, header', claims'. split; [reflexivity |]. split; [exact Hac |].
  unfold jwt.Parse. cbn [jwt.Sign jwt.Method t jwt.NewWithClaims jwt.SigningMethodHS256].
  unfold jwt.SigningString.
  rewrite token_segments by apply (base64_alphabet P L).
  cbn [jwt.Header jwt.Claims t jwt.NewWithClaims] in *.
  rewrite Hh, Hc.
  rewrite (agree_string _ _ "alg" "HS256" Hah) by done.
  cbn [jwt.GetSigningMethod].
  change (jwt.GetSigningMethod "HS256") with (Some (jwt.SigningMethodHMAC SHA256)).
  unfold jwt.DecodeSegment at 1. unfold jwt.EncodeSegment at 3.
  rewrite (base64_round_trip P L).
  cbn [hmacKeyfunc jwt.Method jwt.Verify].
  unfold tag, jwt.SigningString.
  cbn [jwt.Header jwt.Claims jwt.NewWithClaims jwt.SigningMethodHS256 jwt.Alg].
  destruct (decide _) as [Heq|Hne]; reflexivity.
Qed.
End jwt_facts.

Section issued.
Context `{P : Platform} (L : CodecLaws P).

(** The default validator on the decoded claims of an issued token: the
    claim set has an [exp] and no [nbf]. *)
Lemma Validate_issued (claims claims' : gmap string Value) (n : Z) (now : Time) :
  (forall k, bytes.is_ascii k = true ->
             option_Forall2 json_agree (claims !! k) (claims' !! k)) ->
  claims !! "exp" = Some (VNumber n) ->
  claims !! "nbf" = None ->
  Z.abs n <= 2 ^ 53 ->
  jwt.Validate claims' now =
    if decide (n = 0) then None
    else if time.Before now (time.FromUnix n) then None
    else Some "token has invalid claims: token is expired".
Proof.
  intros Hagree Hexp Hnbf Hn.
  unfold jwt.Validate, jwt.parseNumericDate.
  rewrite (agree_number _ _ "exp" n Hagree) by done.
  rewrite (agree_absent _ _ "nbf" Hagree) by done.
  destruct (decide (n = 0)); [reflexivity |].
  by destruct (time.Before now (time.FromUnix n)).
Qed.

Lemma hmac_key_trailing_zero (h : HashAlg) (key msg : string) :
  (String.length key < hmac.BlockSize h)%nat ->
  hmac.Sum h (key +:+ String zero EmptyString) msg = hmac.Sum h key msg.
Proof.
  intros Hlen. unfold hmac.Sum.
  assert (hmac.key_block h (key +:+ String zero EmptyString) = hmac.key_block h key) as ->;
    [| reflexivity].
  unfold hmac.key_block.
  rewrite !decide_False by (rewrite ?string_app_length; simpl; lia).
  rewrite string_app_assoc, string_app_length. simpl. f_equal.
  rewrite app_cons, app_nil_l.
  replace (hmac.BlockSize h - String.length key)%nat
    with (S (hmac.BlockSize h - (String.length key + 1)))%nat by lia.
  reflexivity.
Qed.
End issued.

Section tokens.
Context `{P : Platform} (L : CodecLaws P).

(** Verification of an issued token under a second key: it is accepted
    exactly when the second key yields the same tag and the token has not
    expired. *)
Lemma ValidateToken_issued (claims : gmap string Value) (n : Z)
    (s : AuthService) (key1 : string) (now : Time) :
  claims !! "exp" = Some (VNumber n) ->
  claims !! "nbf" = None ->
  Z.abs n <= 2 ^ 53 ->
  exists tok claims',
    jwt.SignedString (jwt.NewWithClaims jwt.SigningMethodHS256 claims) key1 = Ok tok /\
    (forall k, bytes.is_ascii k = true ->
               option_Forall2 json_agree (claims !! k) (claims' !! k)) /\
    ValidateToken s tok now =
      if decide (tag key1 claims = tag (jwtSecret s) claims) then
        if decide (n = 0) then Ok claims'
        else if time.Before now (time.FromUnix n) then Ok claims'
        else Err "token has invalid claims: token is expired"
      else Err "token signature is invalid: signature is invalid".
Proof.
  intros Hexp Hnbf Hn.
  destruct (Parse_SignedString L claims key1 (jwtSecret s) now)
    as (tok & header' & claims' & Hsig & Hagree & Hparse).
  exists tok, claims'. split; [exact Hsig |]. split; [exact Hagree |].
  unfold ValidateToken. rewrite Hparse.
  rewrite (Validate_issued claims claims' n now Hagree Hexp Hnbf Hn).
  destruct (decide (tag key1 claims = _)); [| reflexivity].
  destruct (decide (n = 0)); [reflexivity |].
  by destruct (time.Before now (time.FromUnix n)).
Qed.

Lemma ValidatePasswordResetToken_other_tag (claims : gmap string Value)
    (key1 key2 : string) (now : Time) (tok : string) :
  tag key2 claims <> tag key1 claims ->
  jwt.SignedString (jwt.NewWithClaims jwt.SigningMethodHS256 claims) key1 = Ok tok ->
  ValidatePasswordResetToken tok key2 now =
    Err "token signature is invalid: signature is invalid".
Proof.
  intros Hne Hsig.
  destruct (Parse_SignedString L claims key1 key2 now)
    as (tok' & header' & claims' & Hsig' & _ & Hparse).
  rewrite Hsig in Hsig'. injection Hsig' as <-.
  unfold ValidatePasswordResetToken. rewrite Hparse.
  by rewrite decide_False by congruence.
Qed.

Lemma ValidateToken_other_tag (claims : gmap string Value)
    (key1 : string) (s : AuthService) (now : Time) (tok : string) :
  tag (jwtSecret s) claims <> tag key1 claims ->
  jwt.SignedString (jwt.NewWithClaims jwt.SigningMethodHS256 claims) key1 = Ok tok ->
  ValidateToken s tok now =
    Err "token signature is invalid: signature is invalid".
Proof.
  intros Hne Hsig.
  destruct (Parse_SignedString L claims key1 (jwtSecret s) now)
    as (tok' & header' & claims' & Hsig' & _ & Hparse).
  rewrite Hsig in Hsig'. injection Hsig' as <-.
  unfold ValidateToken. rewrite Hparse.
  by rewrite decide_False by congruence.
Qed.

(** C4. A session token is issued for an identity and secret, and validated
    against the same secret before it has expired (the clock being in the
    range in which JSON numbers are exact): the validation succeeds and the
    claims returned carry the hexadecimal user id under [user_id] and the
    hexadecimal role id under [role_id]. *)
Theorem session_token_round_trip (s : AuthService) (u : ObjectID) (e : string)
    (r : ObjectID) (now now' : Time) :
  Z.abs (time.Unix (time.Add now (time.Hour * 24))) <= 2 ^ 53 ->
  now' < time.FromUnix (time.Unix (time.Add now (time.Hour * 24))) ->
  exists tok claims,
    GenerateToken u e r (jwtSecret s) now = Ok tok /\
    ValidateToken s tok now' = Ok claims /\
    claims !! "user_id" = Some (VString (Hex u)) /\
    claims !! "role_id" = Some (VString (Hex r)).
Proof.
  intros Hclock Hlive.
  destruct (ValidateToken_issued (sessionClaims u e r now) _ s (jwtSecret s) now'
              eq_refl eq_refl Hclock)
    as (tok & claims' & Hsig & Hagree & Hval).
  exists tok, claims'. split; [exact Hsig |]. split.
  - rewrite Hval. clear Hval. rewrite decide_True by reflexivity.
    case_decide; [reflexivity |].
    unfold time.Before. by rewrite bool_decide_eq_true_2.
  - split.
    + apply (agree_string _ _ "user_id" _ Hagree); [done | apply Hex_is_ascii | done].
    + apply (agree_string _ _ "role_id" _ Hagree); [done | apply Hex_is_ascii | done].
Qed.

(** C5, as amended. A token of any of the three issuers, signed with secret
    S1, is rejected by both verifiers under a secret S2 whose HMAC-SHA256
    tag of the token's signing input differs from the tag under S1. *)
Theorem token_rejected_under_other_tag (S1 S2 other : string) (now' : Time) :
  (forall u e r now tok,
      tag S2 (sessionClaims u e r now) <> tag S1 (sessionClaims u e r now) ->
      GenerateToken u e r S1 now = Ok tok ->
      (exists msg, ValidateToken (mkAuthService S2 other) tok now' = Err msg) /\
      (exists msg, ValidatePasswordResetToken tok S2 now' = Err msg)) /\
  (forall u now tok,
      tag S2 (resetClaims u now) <> tag S1 (resetClaims u now) ->
      GeneratePasswordResetToken u S1 now = Ok tok ->
      (exists msg, ValidateToken (mkAuthService S2 other) tok now' = Err msg) /\
      (exists msg, ValidatePasswordResetToken tok S2 now' = Err msg)) /\
  (forall u now tok,
      tag S2 (verificationClaims u now) <> tag S1 (verificationClaims u now) ->
      GenerateVerificationToken u S1 now = Ok tok ->
      (exists msg, ValidateToken (mkAuthService S2 other) tok now' = Err msg) /\
      (exists msg, ValidatePasswordResetToken tok S2 now' = Err msg)).
Proof.
  repeat split; eexists.
  all: first [ eapply (ValidateToken_other_tag _ S1 (mkAuthService S2 other)); eassumption
             | eapply ValidatePasswordResetToken_other_tag; eassumption ].
Qed.
End tokens.

Section padded.
Context `{P : Platform} (L : CodecLaws P).

(** A secret shorter than the HMAC block and the same secret followed by a
    zero byte sign alike: the verifier configured with either accepts the
    session tokens issued under the other. *)
Lemma zero_padded_secret_accepted (S1 other : string) (u : ObjectID) (e : string)
    (r : ObjectID) (now now' : Time) :
  (String.length S1 < 64)%nat ->
  Z.abs (time.Unix (time.Add now (time.Hour * 24))) <= 2 ^ 53 ->
  now' < time.FromUnix (time.Unix (time.Add now (time.Hour * 24))) ->
  exists tok claims,
    GenerateToken u e r S1 now = Ok tok /\
    ValidateToken (mkAuthService (S1 +:+ String zero EmptyString) other) tok now'
      = Ok claims.
Proof.
  intros Hlen Hclock Hlive.
  destruct (ValidateToken_issued L (sessionClaims u e r now) _
              (mkAuthService (S1 +:+ String zero EmptyString) other) S1 now'
              eq_refl eq_refl Hclock)
    as (tok & claims' & Hsig & _ & Hval).
  exists tok, claims'. split; [exact Hsig |].
  rewrite Hval. clear Hval. rewrite decide_True.
  - case_decide; [reflexivity |].
    unfold time.Before. by rewrite bool_decide_eq_true_2.
  - unfold tag. cbn [jwtSecret]. by rewrite hmac_key_trailing_zero.
Qed.
End padded.


(** ** The permission table *)

(** C9. The default role table has exactly the entries Admin, Manager and
    User; read by role name it yields the canonical permission set of each
    (as sets), and for any other name it yields no permission, so that
    [HasPermission] fails for every action. *)
Theorem default_roles_canonical :
  Role_Name <$> DefaultRoles = ["Admin"; "Manager"; "User"] /\
  (forall name, actions (default_permissions name) = canonical_permissions name) /\
  (forall name, name ∉ ["Admin"; "Manager"; "User"] ->
     default_permissions name = [] /\
     forall (ac : AuthContext) (permission : string),
       Permissions ac = default_permissions name ->
       HasPermission ac permission = false).
Proof.
  assert (forall name, name <> "Admin" -> name <> "Manager" -> name <> "User" ->
                       default_permissions name = []) as Hnone.
  { intros name H1 H2 H3. unfold default_permissions, DefaultRoles. cbn.
    by rewrite !bool_decide_eq_false_2 by congruence. }
  split; [reflexivity |]. split.
  - intros name. unfold canonical_permissions.
    destruct (decide (name = "Admin")) as [->|H1];
      [apply (proj1 (bool_decide_eq_true _)); vm_compute; reflexivity |].
    destruct (decide (name = "Manager")) as [->|H2];
      [apply (proj1 (bool_decide_eq_true _)); vm_compute; reflexivity |].
    destruct (decide (name = "User")) as [->|H3];
      [apply (proj1 (bool_decide_eq_true _)); vm_compute; reflexivity |].
    by rewrite Hnone.
  - intros name Hname.
    assert (default_permissions name = []) as Hempty.
    { apply Hnone; intros ->; apply Hname; set_solver. }
    split; [exact Hempty |].
    intros ac permission Hperms. unfold HasPermission. by rewrite Hperms, Hempty.
Qed.

(** ** The permission check of the routes *)

(** A request passes [JWTAuth] only with the permission the route requires
    (unless it requires none), and the context handed on is the one built
    from the user and role documents at that moment. *)
Lemma JWTAuth_passes `{P : Platform} (m : middleware.AuthMiddleware)
    (requiredPermission authHeader : string) (now : Time) (d : Database)
    (authContext : AuthContext) :
  middleware.JWTAuth m requiredPermission authHeader now d = inr authContext ->
  (requiredPermission = EmptyString \/
   HasPermission authContext requiredPermission = true) /\
  exists userID roleID,
    AuthenticatedUserContext (middleware.authService m) userID roleID d
      = Ok authContext.
Proof.
  unfold middleware.JWTAuth.
  destruct (decide (authHeader = EmptyString)); [done |].
  destruct (bytes.Split _ authHeader) as [|scheme [|tokenString [|? ?]]]; try done.
  destruct (negb (bool_decide _)); [done |].
  destruct (jwt.Parse _ _ _) as [token|]; [| done].
  destruct (negb (jwt.Valid token)); [done |].
  destruct (jwt.Claims token !! "user_id") as [[userIDHex|]|]; try done.
  destruct (jwt.Claims token !! "role_id") as [[roleIDHex|]|]; try done.
  destruct (ObjectIDFromHex userIDHex) as [userID|]; [| done].
  destruct (ObjectIDFromHex roleIDHex) as [roleID|]; [| done].
  destruct (AuthenticatedUserContext _ userID roleID d) as [ctx|] eqn:Hctx; [| done].
  destruct (bool_decide (requiredPermission = EmptyString)) eqn:Hreq; cbn [negb andb].
  - intros [= <-]. apply bool_decide_eq_true in Hreq. split; [by left | by eauto].
  - destruct (HasPermission ctx requiredPermission) eqn:Hperm; cbn [negb]; [| done].
    intros [= <-]. split; [by right | by eauto].
Qed.

(** The task-update route requires [task:update_own], which the default
    Admin and Manager roles do not hold: a context with the default
    permissions of either role is refused by the middleware of that route, so the
    handler's [task:update_all] branch is reached only by roles that hold
    both permissions. *)
Lemma update_route_closed_to_default_managers `{P : Platform}
    (m : middleware.AuthMiddleware) (authHeader : string) (now : Time)
    (d : Database) (authContext : AuthContext) (roleName : string) :
  roleName = "Admin" \/ roleName = "Manager" ->
  Permissions authContext = default_permissions roleName ->
  middleware.JWTAuth m api.UpdateTask_permission authHeader now d
    <> inr authContext.
Proof.
  intros Hrole Hperms Hpass.
  apply JWTAuth_passes in Hpass as [[Hnone|Hhas] _]; [done |].
  unfold HasPermission in Hhas. rewrite Hperms in Hhas.
  by destruct Hrole as [-> | ->].
Qed.

(** ** Role updates *)

Section handlers.
Context `{V : Validator}.

(** C3. An Admin actor asks to change the role of a different user whose
    current role is Admin: the request is refused whatever permissions the
    actor's context holds, the database is left as it was, and a request with
    a well-formed body gets the peer-admin refusal. *)
Theorem peer_admin_immutable (r : Request UpdateUserRoleRequest) (now : Time)
    (d : Database) (actor : AuthContext) (targetUser : User) (targetRole : Role) :
  ContextValue r = Some actor ->
  RoleName actor = "Admin" ->
  UserService.GetUserByID d (Vars_id r) = Ok targetUser ->
  User_ID targetUser <> UserID actor ->
  UserService.GetRoleByID d (Hex (RoleID targetUser)) = Ok targetRole ->
  Role_Name targetRole = "Admin" ->
  snd (UserHandler.UpdateUserRole r now d) = d /\
  (exists msg, Body (fst (UserHandler.UpdateUserRole r now d)) = ErrorPayload msg) /\
  (forall req, Decoded r = Some req ->
               Struct_UpdateUserRoleRequest req = None ->
               fst (UserHandler.UpdateUserRole r now d) =
                 RespondWithError StatusForbidden
                   "You cannot change the role of another Admin.").
Proof.
  intros Hctx Hadmin Huser Hother Hrole Htarget.
  assert (Vars_id r <> Hex (UserID actor)) as Hne.
  { intros Heq. apply GetUserByID_Ok in Huser as [Hid _].
    rewrite Heq, ObjectIDFromHex_Hex in Hid. congruence. }
  unfold UserHandler.UpdateUserRole, middleware.GetAuthContext.
  destruct (Decoded r) as [req|];
    [| split; [done |]; split; [by eexists | done]].
  destruct (Struct_UpdateUserRoleRequest req) as [e|] eqn:Hvalid.
  { split; [done |]. split; [by eexists |]. intros ? [= <-] ?; congruence. }
  rewrite Hctx, Huser, Hrole.
  rewrite !bool_decide_eq_true_2 by done. cbn [andb].
  split; [done |]. split; [by eexists | done].
Qed.

End handlers.

(** The self-demotion rule compares the requested role with ["Admin"] for
    equality: a request of an Admin for any other role of their own passes
    both rules and reaches the update service. *)
Lemma self_demotion_reaches_service `{V : Validator}
    (r : Request UpdateUserRoleRequest) (now : Time) (d : Database)
    (req : UpdateUserRoleRequest) (actor : AuthContext) (target : User)
    (role : Role) :
  Decoded r = Some req ->
  Struct_UpdateUserRoleRequest req = None ->
  ContextValue r = Some actor ->
  Vars_id r = Hex (UserID actor) ->
  Req_RoleName req <> "Admin" ->
  UserService.GetUserByID d (Vars_id r) = Ok target ->
  UserService.GetRoleByID d (Hex (RoleID target)) = Ok role ->
  snd (UserHandler.UpdateUserRole r now d)
    = snd (UserService.UpdateUserRole (Vars_id r) (Req_RoleName req) now d) /\
  forall resp,
    fst (UserService.UpdateUserRole (Vars_id r) (Req_RoleName req) now d) = Ok resp ->
    fst (UserHandler.UpdateUserRole r now d) = RespondWithJSON StatusOK (UserPayload resp).
Proof.
  intros Hbody Hvalid Hctx Hself Hrole Htarget Htrole.
  unfold UserHandler.UpdateUserRole, middleware.GetAuthContext.
  rewrite Hbody, Hvalid, Hctx, Htarget, Htrole.
  rewrite (bool_decide_eq_false_2 (Vars_id r <> Hex (UserID actor))) by (intros Hc; by apply Hc).
  rewrite (bool_decide_eq_false_2 (Req_RoleName req = "Admin")) by done.
  rewrite !andb_false_r. cbn [andb].
  destruct (UserService.UpdateUserRole _ _ _ _) as [[resp|e] d']; cbn.
  - split; [done |]. by intros ? [= <-].
  - split; [| done]. by destruct (_ || _).
Qed.

(** C1, on the code. Ada is an Admin and asks for her own role to become
    User: the handler answers with her profile, now in role User, and the
    database holds the User role id for her. The request is not refused. *)
Theorem self_demotion_goes_through :
  let r := mkRequest (Hex sim.adaID) (Some (mkUpdateUserRoleRequest "User"))
             (Some sim.adaContext) in
  let out := @UserHandler.UpdateUserRole sim.validator r 5000000 sim.database in
  RoleName sim.adaContext = "Admin" /\
  Vars_id r = Hex (UserID sim.adaContext) /\
  (exists u, Body (fst out) = UserPayload u /\ Resp_RoleName u = "User") /\
  RoleID <$> List.find (fun u => bool_decide (User_ID u = sim.adaID)) (users (snd out))
    = Some sim.userRoleID /\
  RoleID <$> List.find (fun u => bool_decide (User_ID u = sim.adaID)) (users sim.database)
    = Some sim.adminRoleID.
Proof.
  cbv zeta. split; [reflexivity |]. split; [reflexivity |].
  split; [eexists; split; vm_compute; reflexivity |].
  split; vm_compute; reflexivity.
Qed.

(** ** Task handlers *)

Section task_handlers.
Context `{V : Validator}.

Lemma TaskService_UpdateTask_messages (id : string) (req : UpdateTaskRequest)
    (now : Time) (d : Database) (e : string) :
  fst (TaskService.UpdateTask id req now d) = Err e ->
  e <> "You do not have permission to update this task".
Proof.
  unfold TaskService.UpdateTask, TaskService.GetTaskByID.
  destruct (ObjectIDFromHex id) as [objID|]; cbn; [| by intros [= <-]].
  destruct (UpdateByID _ _ _ _) as [res ts]. cbn.
  destruct (decide (ModifiedCount res = 0)); cbn; [by intros [= <-] |].
  destruct (FindOne _ _) as [t|e'] eqn:Hfind; [done |].
  apply FindOne_Err in Hfind as ->.
  rewrite decide_True by done. by intros [= <-].
Qed.

(** C6. A well-formed task update by an authenticated actor on an existing
    task is refused exactly when the actor's context lacks
    [task:update_all] and the actor is not the owner; a refusal leaves the
    database as it was, and otherwise the update service runs on the task
    and its outcome is the handler's. *)
Theorem update_task_own_or_all (r : Request UpdateTaskRequest) (now : Time)
    (d : Database) (req : UpdateTaskRequest) (actor : AuthContext) (task : Task) :
  Decoded r = Some req ->
  Struct_UpdateTaskRequest req = None ->
  ContextValue r = Some actor ->
  TaskService.GetTaskByID d (Vars_id r) = Ok task ->
  let granted :=
    HasPermission actor "task:update_all" = true \/ UserID actor = Task_UserID task in
  let denial :=
    RespondWithError StatusForbidden "You do not have permission to update this task" in
  (fst (TaskHandler.UpdateTask r now d) <> denial <-> granted) /\
  (~ granted -> TaskHandler.UpdateTask r now d = (denial, d)) /\
  (granted ->
     snd (TaskHandler.UpdateTask r now d)
       = snd (TaskService.UpdateTask (Vars_id r) req now d) /\
     forall updated,
       fst (TaskService.UpdateTask (Vars_id r) req now d) = Ok updated ->
       fst (TaskHandler.UpdateTask r now d)
         = RespondWithJSON StatusOK (TaskPayload updated)).
Proof.
  intros Hbody Hvalid Hctx Htask granted denial.
  unfold TaskHandler.UpdateTask, middleware.GetAuthContext.
  rewrite Hbody, Hvalid, Hctx, Htask.
  destruct (HasPermission actor "task:update_all") eqn:Hperm; cbn [negb andb].
  - assert (granted) as Hg by (by left).
    destruct (TaskService.UpdateTask (Vars_id r) req now d) as [[updated|e] d'] eqn:Hupd.
    + cbn. split; [split; [done | by intros _ [=]] |]. split; [done |].
      intros _. split; [done |]. by intros ? [= <-].
    + pose proof (TaskService_UpdateTask_messages (Vars_id r) req now d e) as Hmsg.
      rewrite Hupd in Hmsg. specialize (Hmsg eq_refl). cbn.
      split; [split; [done | intros _] |].
      * destruct (bool_decide _); unfold denial, RespondWithError, RespondWithJSON;
          intros [=]; congruence.
      * split; [done |]. intros _. destruct (bool_decide _); by split.
  - destruct (decide (Task_UserID task = UserID actor)) as [Hown|Hnot].
    + assert (granted) as Hg by (by right).
      rewrite bool_decide_eq_false_2 by (intros Hc; by apply Hc).
      destruct (TaskService.UpdateTask (Vars_id r) req now d) as [[updated|e] d'] eqn:Hupd.
      * cbn. split; [split; [done | by intros _ [=]] |]. split; [done |].
        intros _. split; [done |]. by intros ? [= <-].
      * pose proof (TaskService_UpdateTask_messages (Vars_id r) req now d e) as Hmsg.
        rewrite Hupd in Hmsg. specialize (Hmsg eq_refl). cbn.
        split; [split; [done | intros _] |].
        -- destruct (bool_decide _); unfold denial, RespondWithError, RespondWithJSON;
             intros [=]; congruence.
        -- split; [done |]. intros _. destruct (bool_decide _); by split.
    + assert (~ granted) as Hg by (intros [?|?]; congruence).
      rewrite bool_decide_eq_true_2 by done. cbn.
      split; [split; [done | done] |]. split; [done | done].
Qed.

(** C10. Whatever the request, [CreateTask] either leaves the task
    collection as it was or appends exactly one task, and that task is
    owned by the authenticated requester of the request's context. *)
Theorem created_task_owned_by_requester (r : Request CreateTaskRequest)
    (newID : ObjectID) (now : Time) (d : Database) :
  tasks (snd (TaskHandler.CreateTask r newID now d)) = tasks d \/
  exists actor created,
    ContextValue r = Some actor /\
    tasks (snd (TaskHandler.CreateTask r newID now d)) = tasks d ++ [created] /\
    Task_UserID created = UserID actor /\
    fst (TaskHandler.CreateTask r newID now d)
      = RespondWithJSON StatusCreated (TaskPayload created).
Proof.
  unfold TaskHandler.CreateTask, middleware.GetAuthContext.
  destruct (Decoded r) as [req|]; [| by left].
  destruct (Struct_CreateTaskRequest req); [by left |].
  destruct (ContextValue r) as [actor|]; [| by left].
  unfold TaskService.CreateTask, InsertOne.
  destruct (List.find _ (tasks d)); cbn; [by left |].
  right. eexists actor, _. by repeat split.
Qed.

(** A well-formed request of an authenticated requester with a fresh object
    id does create the task. *)
Lemma CreateTask_creates (r : Request CreateTaskRequest) (newID : ObjectID)
    (now : Time) (d : Database) (req : CreateTaskRequest) (actor : AuthContext) :
  Decoded r = Some req ->
  Struct_CreateTaskRequest req = None ->
  ContextValue r = Some actor ->
  Forall (fun t => Task_ID t <> newID) (tasks d) ->
  exists created,
    tasks (snd (TaskHandler.CreateTask r newID now d)) = tasks d ++ [created] /\
    Task_ID created = newID /\
    Title created = Create_Title req /\
    Task_UserID created = UserID actor.
Proof.
  intros Hbody Hvalid Hctx Hfresh.
  unfold TaskHandler.CreateTask, middleware.GetAuthContext.
  rewrite Hbody, Hvalid, Hctx.
  unfold TaskService.CreateTask, InsertOne.
  destruct (List.find _ (tasks d)) as [t|] eqn:Hfind; cbn.
  - apply List.find_some in Hfind as [Hin Hid].
    apply bool_decide_eq_true in Hid. cbn in Hid.
    rewrite Forall_forall in Hfresh. apply list_elem_of_In in Hin.
    by destruct (Hfresh t Hin).
  - eexists. by repeat split.
Qed.
End task_handlers.

(** ** Forgotten passwords *)

Lemma GeneratePasswordResetToken_Ok `{P : Platform} (u : ObjectID) (key : string)
    (now : Time) :
  exists tok, GeneratePasswordResetToken u key now = Ok tok.
Proof. by eexists. Qed.

(** C7. [ForgotPassword] returns success for every e-mail address in every
    state, whether or not a user has the address, and the response of the
    handler to a request does not depend on the state it runs in. *)
Theorem forgot_password_reveals_nothing `{P : Platform} `{V : Validator}
    (s : AuthService) (email : string) (r : Request ForgotPasswordRequest)
    (now1 now2 : Time) (st1 st2 : State) :
  fst (AuthService.ForgotPassword s email now1 st1) = None /\
  fst (AuthService.ForgotPassword s email now2 st2) = None /\
  fst (AuthHandler.ForgotPassword s r now1 st1)
    = fst (AuthHandler.ForgotPassword s r now2 st2).
Proof.
  assert (forall e now st, fst (AuthService.ForgotPassword s e now st) = None) as Hnil.
  { intros e now st. unfold AuthService.ForgotPassword.
    by destruct (UserService.GetUserByEmail (db st) e). }
  split; [apply Hnil |]. split; [apply Hnil |].
  unfold AuthHandler.ForgotPassword.
  destruct (Decoded r) as [req|]; [| reflexivity].
  destruct (Struct_ForgotPasswordRequest req); [reflexivity |].
  pose proof (Hnil (Forgot_Email req) now1 st1) as H1.
  pose proof (Hnil (Forgot_Email req) now2 st2) as H2.
  destruct (AuthService.ForgotPassword s (Forgot_Email req) now1 st1) as [e1 st1'].
  destruct (AuthService.ForgotPassword s (Forgot_Email req) now2 st2) as [e2 st2'].
  cbn in H1, H2. by subst.
Qed.

(** ** The password life cycle *)

Section passwords.
Context `{P : Platform}.

Lemma Forall2_flag_refl (us : list User) :
  Forall2 (fun u u' => NeedsPasswordChange u' = NeedsPasswordChange u) us us.
Proof. by apply Forall2_same_length_lookup_2; [| intros; congruence]. Qed.

Lemma UpdateByID_keeps_flag (id : ObjectID) (set : User -> User) (us : list User) :
  (forall u, NeedsPasswordChange (set u) = NeedsPasswordChange u) ->
  Forall2 (fun u u' => NeedsPasswordChange u' = NeedsPasswordChange u) us
    (snd (UpdateByID User_ID id set us)).
Proof.
  intros Hset. eapply Forall2_impl; [apply UpdateByID_pointwise |].
  intros u u' [->| ->]; [done | apply Hset].
Qed.

(** Every writer of the user collection other than
    [UpdateUserPasswordAndNeedsChange] keeps the flag of every user. *)
Lemma other_writers_keep_flag (d : Database) (hashed roleName : string)
    (profile : UpdateUserProfileRequest) (id : string) (oid : ObjectID) (t : Time) :
  let keeps (d' : Database) :=
    Forall2 (fun u u' => NeedsPasswordChange u' = NeedsPasswordChange u)
      (users d) (users d') in
  keeps (snd (UserService.UpdateUserPassword oid hashed t d)) /\
  keeps (snd (UserService.UpdateUserRole id roleName t d)) /\
  keeps (snd (UserService.UpdateUserProfile id profile t d)) /\
  keeps (snd (UserService.VerifyUserEmail oid t d)).
Proof.
  cbv zeta. repeat split.
  - unfold UserService.UpdateUserPassword.
    pose proof (UpdateByID_keeps_flag oid
      (UserService.set_password hashed (DateTime t)) (users d)) as Hk.
    destruct (UpdateByID _ _ _ _) as [res us]. cbn in Hk.
    destruct (decide _); cbn; by apply Hk.
  - unfold UserService.UpdateUserRole.
    destruct (ObjectIDFromHex id) as [objID|]; [| apply Forall2_flag_refl].
    destruct (UserService.GetRoleByName d roleName) as [newRole|];
      [| apply Forall2_flag_refl].
    pose proof (UpdateByID_keeps_flag objID
      (UserService.set_role_id (Role_ID newRole) (DateTime t)) (users d)) as Hk.
    destruct (UpdateByID _ _ _ _) as [res us]. cbn in Hk.
    destruct (decide _); cbn; [by apply Hk |].
    destruct (UserService.GetUserByID _ id); cbn; by apply Hk.
  - unfold UserService.UpdateUserProfile.
    destruct (ObjectIDFromHex id) as [objID|]; [| apply Forall2_flag_refl].
    pose proof (UpdateByID_keeps_flag objID
      (UserService.apply_profile profile (DateTime t)) (users d)) as Hk.
    destruct (UpdateByID _ _ _ _) as [res us]. cbn in Hk.
    destruct (decide _); cbn; by apply Hk.
  - unfold UserService.VerifyUserEmail.
    pose proof (UpdateByID_keeps_flag oid
      (UserService.set_email_verified (DateTime t)) (users d)) as Hk.
    destruct (UpdateByID _ _ _ _) as [res us]. cbn in Hk.
    destruct (decide _); cbn; by apply Hk.
Qed.

Lemma ChangeTemporaryPassword_success (s : AuthService) (userID : ObjectID)
    (oldPassword newPassword entropy : string) (now : Time) (d : Database)
    (user : User) (hashed : string) :
  UserService.GetUserByID d (Hex userID) = Ok user ->
  NeedsPasswordChange user = true ->
  CheckPasswordHash oldPassword (Password user) = true ->
  HashPassword entropy newPassword = Ok hashed ->
  let out := ChangeTemporaryPassword s userID oldPassword newPassword entropy now d in
  fst out = None /\
  UserService.GetUserByID (snd out) (Hex userID)
    = Ok (UserService.set_password_and_needs_change hashed false (DateTime now) user).
Proof.
  intros Huser Hflag Hold Hhash. cbv zeta.
  unfold ChangeTemporaryPassword. rewrite Huser, Hflag, Hold, Hhash. cbn [negb].
  apply GetUserByID_Hex in Huser.
  unfold UserService.UpdateUserPasswordAndNeedsChange.
  pose proof (UpdateByID_found User_ID userID
    (UserService.set_password_and_needs_change hashed false (DateTime now))
    (users d) user Huser) as [Hres Hfind].
  destruct (UpdateByID _ _ _ _) as [res us]. cbn in Hres, Hfind. subst res.
  cbn [ModifiedCount].
  rewrite (decide_False (P := UserService.set_password_and_needs_change _ _ _ user = user)).
  2: { intros Heq. apply (f_equal NeedsPasswordChange) in Heq. cbn in Heq. congruence. }
  rewrite decide_False by done. cbn. split; [done |].
  apply GetUserByID_Hex. cbn. apply Hfind. cbn.
  by apply List.find_some in Huser as [_ ?%bool_decide_eq_true].
Qed.

Lemma ChangeTemporaryPassword_failure (s : AuthService) (userID : ObjectID)
    (oldPassword newPassword entropy : string) (now : Time) (d : Database) :
  let out := ChangeTemporaryPassword s userID oldPassword newPassword entropy now d in
  fst out <> None ->
  snd out = d /\
  ~ exists user hashed,
      UserService.GetUserByID d (Hex userID) = Ok user /\
      NeedsPasswordChange user = true /\
      CheckPasswordHash oldPassword (Password user) = true /\
      HashPassword entropy newPassword = Ok hashed.
Proof.
  cbv zeta. intros Hfail. split.
  - revert Hfail. unfold ChangeTemporaryPassword.
    destruct (UserService.GetUserByID d (Hex userID)) as [user|]; [| done].
    destruct (negb (NeedsPasswordChange user)); [done |].
    destruct (negb (CheckPasswordHash oldPassword (Password user))); [done |].
    destruct (HashPassword entropy newPassword) as [hashed|]; [| done].
    unfold UserService.UpdateUserPasswordAndNeedsChange.
    pose proof (UpdateByID_unmodified User_ID userID
      (UserService.set_password_and_needs_change hashed false (DateTime now))
      (users d)) as Hsame.
    destruct (UpdateByID _ _ _ _) as [res us]. cbn in Hsame.
    destruct (decide (ModifiedCount res = 0)) as [Hz|]; cbn; [| done].
    intros _. rewrite (Hsame Hz). by destruct d.
  - intros (user & hashed & Huser & Hflag & Hold & Hhash).
    by destruct (ChangeTemporaryPassword_success s userID oldPassword newPassword
                   entropy now d user hashed Huser Hflag Hold Hhash) as [? _].
Qed.

Lemma ChangeTemporaryPassword_nil (s : AuthService) (userID : ObjectID)
    (oldPassword newPassword entropy : string) (now : Time) (d : Database) :
  fst (ChangeTemporaryPassword s userID oldPassword newPassword entropy now d) = None ->
  exists user hashed,
    UserService.GetUserByID d (Hex userID) = Ok user /\
    NeedsPasswordChange user = true /\
    CheckPasswordHash oldPassword (Password user) = true /\
    HashPassword entropy newPassword = Ok hashed.
Proof.
  unfold ChangeTemporaryPassword.
  destruct (UserService.GetUserByID d (Hex userID)) as [user|]; [| done].
  destruct (NeedsPasswordChange user) eqn:Hflag; [| done].
  destruct (CheckPasswordHash oldPassword (Password user)) eqn:Hold; [| done].
  destruct (HashPassword entropy newPassword) as [hashed|] eqn:Hhash; [| done].
  intros _. by exists user, hashed.
Qed.

(** C8, as amended. [ChangeTemporaryPassword] succeeds exactly when the
    user exists, is flagged [needs_password_change], the old password
    matches the stored hash and hashing the new password succeeds; on
    success the stored user has the flag cleared and the new hash; on
    failure the database is as it was; and the other writers of the user
    collection keep the flag of every user. *)
Theorem change_temporary_password_spec (s : AuthService) (userID : ObjectID)
    (oldPassword newPassword entropy : string) (now : Time) (d : Database) :
  let out := ChangeTemporaryPassword s userID oldPassword newPassword entropy now d in
  (fst out = None <->
     exists user hashed,
       UserService.GetUserByID d (Hex userID) = Ok user /\
       NeedsPasswordChange user = true /\
       CheckPasswordHash oldPassword (Password user) = true /\
       HashPassword entropy newPassword = Ok hashed) /\
  (fst out = None ->
     exists user' hashed,
       HashPassword entropy newPassword = Ok hashed /\
       UserService.GetUserByID (snd out) (Hex userID) = Ok user' /\
       NeedsPasswordChange user' = false /\
       Password user' = hashed) /\
  (fst out <> None -> snd out = d) /\
  (forall hashed roleName profile (id : string) (oid : ObjectID) t,
     let keeps (d' : Database) :=
       Forall2 (fun u u' => NeedsPasswordChange u' = NeedsPasswordChange u)
         (users d) (users d') in
     keeps (snd (UserService.UpdateUserPassword oid hashed t d)) /\
     keeps (snd (UserService.UpdateUserRole id roleName t d)) /\
     keeps (snd (UserService.UpdateUserProfile id profile t d)) /\
     keeps (snd (UserService.VerifyUserEmail oid t d))).
Proof.
  cbv zeta.
  split; [| split; [| split; [| intros; apply other_writers_keep_flag]]].
  - split.
    + intros Hnil.
      destruct (ChangeTemporaryPassword_nil s userID oldPassword newPassword entropy now d Hnil)
        as (user & hashed & H1 & H2 & H3 & H4).
      by exists user, hashed.
    + intros (user & hashed & Huser & Hflag & Hold & Hhash).
      by destruct (ChangeTemporaryPassword_success s userID oldPassword newPassword
                     entropy now d user hashed Huser Hflag Hold Hhash) as [? _].
  - intros Hnil.
    destruct (ChangeTemporaryPassword_nil s userID oldPassword newPassword entropy now d Hnil)
      as (user & hashed & Huser & Hflag & Hold & Hhash).
    destruct (ChangeTemporaryPassword_success s userID oldPassword newPassword
                entropy now d user hashed Huser Hflag Hold Hhash) as [_ Hget].
    eexists _, hashed. split; [done |]. split; [exact Hget | done].
  - intros Hfail. by apply ChangeTemporaryPassword_failure in Hfail as [? _].
Qed.
End passwords.

(** ** The reset registry *)

Section registry.
Context `{P : Platform}.

Lemma ForgotPassword_places (s : AuthService) (email : string) (now : Time)
    (st : State) (user : User) :
  UserService.GetUserByEmail (db st) email = Ok user ->
  exists tok,
    GeneratePasswordResetToken (User_ID user) (passwordResetSecret s) now = Ok tok /\
    ForgotPassword s email now st =
      (None, mkState (db st) (<[tok := User_ID user]> (passwordResetTokens st))
               (sweeps st ++ [(time.Add now time.Hour, tok)])).
Proof.
  intros Huser. unfold ForgotPassword. rewrite Huser.
  destruct (GeneratePasswordResetToken_Ok (User_ID user) (passwordResetSecret s) now)
    as [tok Htok].
  exists tok. by rewrite Htok.
Qed.

Lemma ResetPassword_absent (s : AuthService) (tok newPassword entropy : string)
    (now : Time) (st : State) :
  passwordResetTokens st !! tok = None ->
  ResetPassword s tok newPassword entropy now st = (Some "invalid or expired password reset token", st).
Proof. intros Hnone. unfold ResetPassword. by rewrite Hnone. Qed.

(** Whatever it returns, a redemption leaves the token out of the registry
    and touches no other token. *)
Lemma ResetPassword_registry (s : AuthService) (tok newPassword entropy : string)
    (now : Time) (st : State) :
  passwordResetTokens (snd (ResetPassword s tok newPassword entropy now st))
    = delete tok (passwordResetTokens st).
Proof.
  unfold ResetPassword.
  destruct (passwordResetTokens st !! tok) as [uid|] eqn:Hlook.
  - destruct (HashPassword entropy newPassword) as [hashed|]; [| done].
    by destruct (UserService.UpdateUserPassword _ _ _ _) as [[e|] d'].
  - cbn. by rewrite delete_id.
Qed.

Lemma ResetPassword_present (s : AuthService) (tok newPassword entropy : string)
    (now : Time) (st : State) (uid : ObjectID) :
  passwordResetTokens st !! tok = Some uid ->
  let out := ResetPassword s tok newPassword entropy now st in
  (fst out = None <->
     exists hashed user,
       HashPassword entropy newPassword = Ok hashed /\
       UserService.GetUserByID (db st) (Hex uid) = Ok user /\
       UserService.set_password hashed (DateTime now) user <> user) /\
  (fst out = None ->
     exists hashed user',
       HashPassword entropy newPassword = Ok hashed /\
       UserService.GetUserByID (db (snd out)) (Hex uid) = Ok user' /\
       Password user' = hashed).
Proof.
  intros Hlook. cbv zeta. unfold ResetPassword. rewrite Hlook.
  destruct (HashPassword entropy newPassword) as [hashed|e] eqn:Hhash.
  2: { cbn. split; [split; [done | by intros (? & ? & [=] & _)] | done]. }
  unfold UserService.UpdateUserPassword. cbn [db].
  destruct (List.find (fun u => bool_decide (User_ID u = uid)) (users (db st)))
    as [user|] eqn:Hfind.
  - pose proof (UpdateByID_found User_ID uid
      (UserService.set_password hashed (DateTime now)) (users (db st)) user Hfind)
      as [Hres Hfind'].
    destruct (UpdateByID _ _ _ _) as [res us]. cbn in Hres, Hfind'. subst res.
    cbn [ModifiedCount].
    destruct (decide (UserService.set_password hashed (DateTime now) user = user))
      as [Heq|Hne].
    + rewrite decide_True by done. cbn. split; [| done]. split; [done |].
      intros (h & u & [= <-] & Hu & Hmod). apply GetUserByID_Hex in Hu. congruence.
    + rewrite decide_False by done. cbn. split.
      * split; [intros _ | done]. exists hashed, user.
        split; [done |]. split; [by apply GetUserByID_Hex | done].
      * intros _. exists hashed, (UserService.set_password hashed (DateTime now) user).
        split; [done |]. split; [| done].
        apply GetUserByID_Hex. cbn. apply Hfind'. cbn.
        by apply List.find_some in Hfind as [_ ?%bool_decide_eq_true].
  - rewrite (UpdateByID_missing User_ID uid _ _ Hfind). cbn.
    split; [| done]. split; [done |].
    intros (h & u & _ & Hu & _). apply GetUserByID_Hex in Hu. congruence.
Qed.

(** In a run that starts without the token and never places it again, every
    redemption of the token is refused and changes nothing. *)
Lemma later_redemptions_refused (s : AuthService) (tok : string) (ops : list Op)
    (st : State) :
  passwordResetTokens st !! tok = None ->
  Forall (fun ev => ~ places s tok ev) (run s ops st) ->
  Forall (fun ev => redeems tok ev ->
                    ev_result ev = Some "invalid or expired password reset token" /\
                    ev_after ev = ev_before ev)
    (run s ops st).
Proof.
  revert st. induction ops as [|o ops IH]; intros st Hnone Hplaces; [constructor |].
  cbn [run] in *. apply Forall_cons in Hplaces as [Hplace Hrest].
  constructor.
  - destruct o as [email now|t pw en now|t|f]; cbn; try done.
    intros ->. by rewrite ResetPassword_absent.
  - apply IH; [| exact Hrest].
    destruct o as [email now|t pw en now|t|f]; cbn.
    + unfold places in Hplace. cbn in Hplace.
      destruct (UserService.GetUserByEmail (db st) email) as [user|e] eqn:Huser.
      * destruct (ForgotPassword_places s email now st user Huser) as (tok' & Htok & ->).
        cbn. rewrite lookup_insert_ne; [done |].
        intros ->. apply Hplace. by exists user.
      * unfold ForgotPassword. by rewrite Huser.
    + rewrite ResetPassword_registry.
      destruct (decide (t = tok)) as [->|Hne];
        [apply lookup_delete_eq | by rewrite lookup_delete_ne].
    + destruct (decide (t = tok)) as [->|Hne];
        [apply lookup_delete_eq | by rewrite lookup_delete_ne].
    + done.
Qed.
(** C2, as amended. A token that [ForgotPassword] places is registered for
    the user with the address. The first [ResetPassword] call with a
    registered token takes it out of the registry whatever it returns; it
    succeeds exactly when hashing the new password succeeds and the update
    modifies the owner's document, and then the owner's stored password is
    the new hash. From then on, as long as [ForgotPassword] does not place
    the same token again, every [ResetPassword] call with it returns the
    invalid-or-expired error and leaves the state as it was. *)
Theorem reset_token_redeemed_at_most_once (s : AuthService) (tok : string) :
  (forall email now st user,
     UserService.GetUserByEmail (db st) email = Ok user ->
     GeneratePasswordResetToken (User_ID user) (passwordResetSecret s) now = Ok tok ->
     fst (ForgotPassword s email now st) = None /\
     passwordResetTokens (snd (ForgotPassword s email now st)) !! tok
       = Some (User_ID user) /\
     db (snd (ForgotPassword s email now st)) = db st) /\
  (forall st uid newPassword entropy now,
     passwordResetTokens st !! tok = Some uid ->
     let out := ResetPassword s tok newPassword entropy now st in
     passwordResetTokens (snd out) !! tok = None /\
     (fst out = None <->
        exists hashed user,
          HashPassword entropy newPassword = Ok hashed /\
          UserService.GetUserByID (db st) (Hex uid) = Ok user /\
          UserService.set_password hashed (DateTime now) user <> user) /\
     (fst out = None ->
        exists hashed user',
          HashPassword entropy newPassword = Ok hashed /\
          UserService.GetUserByID (db (snd out)) (Hex uid) = Ok user' /\
          Password user' = hashed)) /\
  (forall st ops,
     passwordResetTokens st !! tok = None ->
     Forall (fun ev => ~ places s tok ev) (run s ops st) ->
     Forall (fun ev => redeems tok ev ->
                       ev_result ev = Some "invalid or expired password reset token" /\
                       ev_after ev = ev_before ev)
       (run s ops st)).
Proof.
  split; [| split].
  - intros email now st user Huser Htok.
    destruct (ForgotPassword_places s email now st user Huser) as (tok' & Htok' & ->).
    rewrite Htok in Htok'. injection Htok' as <-. cbn.
    by rewrite lookup_insert_eq.
  - intros st uid newPassword entropy now Hlook. cbv zeta.
    split; [by rewrite ResetPassword_registry, lookup_delete_eq |].
    by apply ResetPassword_present.
  - intros st ops. apply later_redemptions_refused.
Qed.
End registry.

(** ** Session tokens at the middleware *)

Lemma hex_no_space (s : string) :
  bytes.contains " "%char (hex.EncodeToString s) = false.
Proof.
  induction s as [|v s IH]; [reflexivity |].
  cbn [hex.EncodeToString bytes.contains].
  assert (hex.digit (N.shiftr (N_of_ascii v) 4) <> " "%char /\
          hex.digit (N.land (N_of_ascii v) 15) <> " "%char) as [Hhi Hlo]
    by (destruct v as [[] [] [] [] [] [] [] []]; vm_compute; done).
  rewrite !decide_False by congruence. exact IH.
Qed.

Lemma expiry_after_epoch (now d : Z) :
  0 <= now -> 0 < d -> time.Unix (time.Add now (time.Hour * d)) <> 0.
Proof.
  intros Hnow Hd. unfold time.Unix, time.Add, time.Hour, time.Second.
  assert (1 <= (now + 3600 * 1000000000 * d) / 1000000000); [| lia].
  apply Z.div_le_lower_bound; lia.
Qed.

Lemma GetRoleByID_roles (d d' : Database) (id : string) :
  roles d' = roles d ->
  UserService.GetRoleByID d' id = UserService.GetRoleByID d id.
Proof. intros Hroles. unfold UserService.GetRoleByID. by rewrite Hroles. Qed.

Section bearer.
Context `{P : Platform} (L : CodecLaws P).
Hypothesis base64_no_space :
  forall s, bytes.contains " "%char (base64_EncodeToString s) = false.

Lemma signed_token_no_space (claims : gmap string Value) (key tok : string) :
  jwt.SignedString (jwt.NewWithClaims jwt.SigningMethodHS256 claims) key = Ok tok ->
  bytes.contains " "%char tok = false.
Proof.
  cbn. intros [= <-]. unfold jwt.SigningString, jwt.EncodeSegment.
  rewrite !contains_app, !base64_no_space. reflexivity.
Qed.

Lemma bearer_header (tok : string) :
  bytes.contains " "%char tok = false ->
  bytes.Split " "%char ("Bearer " +:+ tok) = ["Bearer"; tok].
Proof.
  intros Htok.
  change ("Bearer " +:+ tok) with ("Bearer" +:+ String " "%char tok).
  rewrite Split_app by reflexivity. by rewrite Split_no_sep.
Qed.

(** What [JWTAuth] does with a bearer token issued for a claim set that
    carries a user id, a role id and an expiry. *)
Lemma JWTAuth_issued (claims : gmap string Value) (u r : ObjectID) (n : Z)
    (key1 tok : string) (m : middleware.AuthMiddleware)
    (requiredPermission : string) (now : Time) (d : Database) :
  claims !! "user_id" = Some (VString (Hex u)) ->
  claims !! "role_id" = Some (VString (Hex r)) ->
  claims !! "exp" = Some (VNumber n) ->
  claims !! "nbf" = None ->
  Z.abs n <= 2 ^ 53 ->
  jwt.SignedString (jwt.NewWithClaims jwt.SigningMethodHS256 claims) key1 = Ok tok ->
  middleware.JWTAuth m requiredPermission ("Bearer " +:+ tok) now d =
    if decide (tag key1 claims = tag (middleware.mw_jwtSecret m) claims) then
      if decide (n = 0 \/ now < time.FromUnix n) then
        match AuthenticatedUserContext (middleware.authService m) u r d with
        | Err e =>
            inl (RespondWithError StatusInternalServerError
                   ("Failed to retrieve user authentication context: " +:+ e))
        | Ok authContext =>
            if negb (bool_decide (requiredPermission = EmptyString))
               && negb (HasPermission authContext requiredPermission)
            then inl (RespondWithError StatusForbidden
                        "You do not have sufficient permissions to access this resource")
            else inr authContext
        end
      else inl (RespondWithError StatusUnauthorized
                  "Invalid or expired token: token has invalid claims: token is expired")
    else inl (RespondWithError StatusUnauthorized
                "Invalid or expired token: token signature is invalid: signature is invalid").
Proof.
  intros Huid Hrid Hexp Hnbf Hn Hsig.
  destruct (Parse_SignedString L claims key1 (middleware.mw_jwtSecret m) now)
    as (tok' & header' & claims' & Hsig' & Hagree & Hparse).
  rewrite Hsig in Hsig'. injection Hsig' as <-.
  unfold middleware.JWTAuth.
  rewrite decide_False by done.
  rewrite bearer_header by (eapply signed_token_no_space; eassumption).
  change (bytes.ToLower "Bearer") with "bearer".
  rewrite bool_decide_eq_true_2 by done. cbn [negb].
  rewrite Hparse. clear Hparse.
  rewrite (Validate_issued claims claims' n now Hagree Hexp Hnbf Hn).
  destruct (decide (tag key1 claims = _)); [| reflexivity].
  assert (claims' !! "user_id" = Some (VString (Hex u))) as Hu'
    by (apply (agree_string _ _ "user_id" _ Hagree); [done | apply Hex_is_ascii | done]).
  assert (claims' !! "role_id" = Some (VString (Hex r))) as Hr'
    by (apply (agree_string _ _ "role_id" _ Hagree); [done | apply Hex_is_ascii | done]).
  destruct (decide (n = 0)) as [->|Hn0].
  - rewrite decide_True by (by left). cbn [jwt.Valid negb jwt.Claims].
    rewrite Hu', Hr', !ObjectIDFromHex_Hex. reflexivity.
  - unfold time.Before. destruct (decide (now < time.FromUnix n)) as [Hlt|Hge].
    + rewrite bool_decide_eq_true_2 by done. rewrite decide_True by (by right).
      cbn [jwt.Valid negb jwt.Claims].
      rewrite Hu', Hr', !ObjectIDFromHex_Hex. reflexivity.
    + rewrite bool_decide_eq_false_2 by done.
      rewrite decide_False by (intros [?|?]; done). reflexivity.
Qed.

(** A successful login: the user found by e-mail, the role of that user,
    and the session token issued for the two ids. *)
Lemma LoginUser_Ok (s : AuthService) (req : UserLoginRequest) (now : Time)
    (d : Database) (resp : LoginResponse) :
  LoginUser s req now d = Ok resp ->
  exists user role,
    In user (users d) /\
    UserService.GetRoleByID d (Hex (RoleID user)) = Ok role /\
    GenerateToken (User_ID user) (Email user) (RoleID user) (jwtSecret s) now
      = Ok (Login_Token resp) /\
    Login_UserID resp = Hex (User_ID user) /\
    Login_RoleName resp = Role_Name role.
Proof.
  unfold LoginUser, UserService.GetUserByEmail.
  destruct (FindOne _ (users d)) as [user|e] eqn:Hfind; [| by destruct (decide _)].
  apply FindOne_Ok in Hfind as [_ Hin].
  destruct (negb _); [done |].
  destruct (UserService.GetRoleByID d _) as [role|] eqn:Hrole; [| done].
  destruct (GenerateToken _ _ _ _ _) as [tokenString|] eqn:Htok; [| done].
  intros [= <-]. exists user, role. by repeat split.
Qed.

Lemma GetUserByID_member (d : Database) (user : User) :
  In user (users d) ->
  exists user', UserService.GetUserByID d (Hex (User_ID user)) = Ok user' /\
                User_ID user' = User_ID user.
Proof.
  intros Hin.
  destruct (List.find (fun u => bool_decide (User_ID u = User_ID user)) (users d))
    as [user'|] eqn:Hfind.
  - exists user'. split; [by apply GetUserByID_Hex |].
    apply List.find_some in Hfind as [_ Hid]. by apply bool_decide_eq_true in Hid.
  - eapply List.find_none in Hfind; [| exact Hin].
    by rewrite bool_decide_eq_true_2 in Hfind.
Qed.

(** X1. A session token presented at or after its expiry, to the verifier
    that holds the secret it was signed with, is refused as expired by
    [ValidateToken], and the middleware answers such a bearer token with
    its expiry refusal whatever the route and the database. *)
Theorem expired_session_token_rejected (s : AuthService)
    (m : middleware.AuthMiddleware) (requiredPermission : string)
    (u : ObjectID) (e : string) (r : ObjectID) (now now' : Time) (d : Database) :
  0 <= now ->
  Z.abs (time.Unix (time.Add now (time.Hour * 24))) <= 2 ^ 53 ->
  time.FromUnix (time.Unix (time.Add now (time.Hour * 24))) <= now' ->
  middleware.mw_jwtSecret m = jwtSecret s ->
  exists tok,
    GenerateToken u e r (jwtSecret s) now = Ok tok /\
    ValidateToken s tok now' = Err "token has invalid claims: token is expired" /\
    middleware.JWTAuth m requiredPermission ("Bearer " +:+ tok) now' d =
      inl (RespondWithError StatusUnauthorized
             "Invalid or expired token: token has invalid claims: token is expired").
Proof.
  intros Hnow Hclock Hlate Hkey.
  pose proof (expiry_after_epoch now 24 Hnow ltac:(lia)) as Hexp.
  destruct (ValidateToken_issued L (sessionClaims u e r now) _ s (jwtSecret s) now'
              eq_refl eq_refl Hclock)
    as (tok & claims' & Hsig & _ & Hval).
  exists tok. split; [exact Hsig |]. split.
  - rewrite Hval. clear Hval. rewrite decide_True by reflexivity.
    rewrite decide_False by done.
    unfold time.Before. by rewrite bool_decide_eq_false_2 by lia.
  - rewrite (JWTAuth_issued (sessionClaims u e r now) u r _ (jwtSecret s) tok m
               requiredPermission now' d eq_refl eq_refl eq_refl eq_refl Hclock Hsig).
    rewrite Hkey. rewrite decide_True by reflexivity.
    by rewrite decide_False by (intros [?|?]; [done | lia]).
Qed.

(** X2. A password-reset token validated under the secret it was signed
    with yields the user id it was issued for until its expiry, one hour
    after issue in whole seconds, and the expiry error from then on. *)
Theorem reset_token_round_trip (u : ObjectID) (key : string) (now now' : Time) :
  0 <= now ->
  Z.abs (time.Unix (time.Add now time.Hour)) <= 2 ^ 53 ->
  exists tok,
    GeneratePasswordResetToken u key now = Ok tok /\
    ValidatePasswordResetToken tok key now' =
      if decide (now' < time.FromUnix (time.Unix (time.Add now time.Hour)))
      then Ok u
      else Err "token has invalid claims: token is expired".
Proof.
  intros Hnow Hclock.
  pose proof (expiry_after_epoch now 1 Hnow ltac:(lia)) as Hexp.
  rewrite Z.mul_1_r in Hexp.
  destruct (Parse_SignedString L (resetClaims u now) key key now')
    as (tok & header' & claims' & Hsig & Hagree & Hparse).
  exists tok. split; [exact Hsig |].
  unfold ValidatePasswordResetToken. rewrite Hparse. clear Hparse.
  rewrite decide_True by reflexivity.
  rewrite (Validate_issued (resetClaims u now) claims' _ now' Hagree
             eq_refl eq_refl Hclock).
  rewrite decide_False by done. unfold time.Before.
  destruct (decide (now' < _)) as [Hlt|Hge].
  - rewrite bool_decide_eq_true_2 by done. cbn [jwt.Valid negb jwt.Claims].
    rewrite (agree_string _ _ "user_id" (Hex u) Hagree);
      [| done | apply Hex_is_ascii | done].
    by rewrite ObjectIDFromHex_Hex.
  - by rewrite bool_decide_eq_false_2 by done.
Qed.

(** X3. A bearer session token that has not expired, at the middleware
    that holds the signing secret: the request is answered from the user
    document of the token's user id and the role document of the token's
    role id as the database holds them at that moment; it passes with that
    context when the route requires no permission or the role document
    grants it, and is refused for lack of permission otherwise. *)
Theorem bearer_session_token_context (m : middleware.AuthMiddleware)
    (requiredPermission : string) (u : ObjectID) (e : string) (r : ObjectID)
    (now now' : Time) (d : Database) :
  Z.abs (time.Unix (time.Add now (time.Hour * 24))) <= 2 ^ 53 ->
  now' < time.FromUnix (time.Unix (time.Add now (time.Hour * 24))) ->
  exists tok,
    GenerateToken u e r (middleware.mw_jwtSecret m) now = Ok tok /\
    middleware.JWTAuth m requiredPermission ("Bearer " +:+ tok) now' d =
      match AuthenticatedUserContext (middleware.authService m) u r d with
      | Err msg =>
          inl (RespondWithError StatusInternalServerError
                 ("Failed to retrieve user authentication context: " +:+ msg))
      | Ok authContext =>
          if negb (bool_decide (requiredPermission = EmptyString))
             && negb (HasPermission authContext requiredPermission)
          then inl (RespondWithError StatusForbidden
                      "You do not have sufficient permissions to access this resource")
          else inr authContext
      end.
Proof.
  intros Hclock Hlive.
  destruct (Parse_SignedString L (sessionClaims u e r now)
              (middleware.mw_jwtSecret m) (middleware.mw_jwtSecret m) now')
    as (tok & _ & _ & Hsig & _).
  exists tok. split; [exact Hsig |].
  rewrite (JWTAuth_issued (sessionClaims u e r now) u r _ (middleware.mw_jwtSecret m) tok m
             requiredPermission now' d eq_refl eq_refl eq_refl eq_refl Hclock Hsig).
  rewrite decide_True by reflexivity. by rewrite decide_True by (by right).
Qed.

(** X4. The token of a successful login, sent as a bearer token before it
    expires to a route that requires no permission, passes the middleware
    of the same secret, and the context handed to the handler carries the
    user id and the role name of the login response. *)
Theorem login_token_opens_routes (m : middleware.AuthMiddleware)
    (req : UserLoginRequest) (now now' : Time) (d : Database)
    (resp : LoginResponse) :
  LoginUser (middleware.authService m) req now d = Ok resp ->
  middleware.mw_jwtSecret m = jwtSecret (middleware.authService m) ->
  Z.abs (time.Unix (time.Add now (time.Hour * 24))) <= 2 ^ 53 ->
  now' < time.FromUnix (time.Unix (time.Add now (time.Hour * 24))) ->
  exists authContext,
    middleware.JWTAuth m EmptyString ("Bearer " +:+ Login_Token resp) now' d
      = inr authContext /\
    Hex (UserID authContext) = Login_UserID resp /\
    RoleName authContext = Login_RoleName resp.
Proof.
  intros Hlogin Hkey Hclock Hlive.
  apply LoginUser_Ok in Hlogin as (user & role & Hin & Hrole & Htok & Hid & Hname).
  destruct (GetUserByID_member d user Hin) as (user' & Huser' & Hid').
  rewrite (JWTAuth_issued (sessionClaims (User_ID user) (Email user) (RoleID user) now)
             (User_ID user) (RoleID user) _ (jwtSecret (middleware.authService m))
             (Login_Token resp) m EmptyString now' d
             eq_refl eq_refl eq_refl eq_refl Hclock Htok).
  rewrite Hkey. rewrite decide_True by reflexivity.
  rewrite decide_True by (by right).
  unfold AuthenticatedUserContext. rewrite Huser', Hrole.
  rewrite bool_decide_eq_true_2 by done. cbn [negb andb].
  eexists. split; [reflexivity |]. cbn. by rewrite Hid', Hid, Hname.
Qed.

(** X5. A role change does not reach the tokens already issued.  After a
    login and a successful [UpdateUserRole] on the logged-in user, the
    login's token still passes the middleware with the role id, the role
    name and the permissions of the role held at login, while the user
    document now carries the id of the new role. *)
Theorem issued_token_keeps_role_after_role_change (m : middleware.AuthMiddleware)
    (req : UserLoginRequest) (newRoleName : string) (now now1 now2 : Time)
    (d d' : Database) (resp : LoginResponse) (updated : UserResponse) :
  LoginUser (middleware.authService m) req now d = Ok resp ->
  UserService.UpdateUserRole (Login_UserID resp) newRoleName now1 d = (Ok updated, d') ->
  middleware.mw_jwtSecret m = jwtSecret (middleware.authService m) ->
  Z.abs (time.Unix (time.Add now (time.Hour * 24))) <= 2 ^ 53 ->
  now2 < time.FromUnix (time.Unix (time.Add now (time.Hour * 24))) ->
  exists before after newRole user',
    middleware.JWTAuth m EmptyString ("Bearer " +:+ Login_Token resp) now2 d
      = inr before /\
    middleware.JWTAuth m EmptyString ("Bearer " +:+ Login_Token resp) now2 d'
      = inr after /\
    Ctx_RoleID after = Ctx_RoleID before /\
    RoleName after = Login_RoleName resp /\
    Permissions after = Permissions before /\
    UserService.GetRoleByName d newRoleName = Ok newRole /\
    UserService.GetUserByID d' (Login_UserID resp) = Ok user' /\
    RoleID user' = Role_ID newRole.
Proof.
  intros Hlogin Hupd Hkey Hclock Hlive.
  apply LoginUser_Ok in Hlogin as (user & role & Hin & Hrole & Htok & Hid & Hname).
  destruct (GetUserByID_member d user Hin) as (user0 & Huser0 & Hid0).
  (* the update *)
  unfold UserService.UpdateUserRole in Hupd.
  rewrite Hid, ObjectIDFromHex_Hex in Hupd.
  destruct (UserService.GetRoleByName d newRoleName) as [newRole|] eqn:Hnew;
    [| by inversion Hupd].
  apply GetUserByID_Hex in Huser0.
  pose proof (UpdateByID_found User_ID (User_ID user)
    (UserService.set_role_id (Role_ID newRole) (DateTime now1))
    (users d) user0 Huser0) as [_ Hfind].
  specialize (Hfind Hid0).
  destruct (UpdateByID _ _ _ _) as [res us]. cbn [snd] in Hfind.
  destruct (decide (ModifiedCount res = 0)); [by inversion Hupd |].
  assert (UserService.GetUserByID (with_users d us) (Hex (User_ID user))
            = Ok (UserService.set_role_id (Role_ID newRole) (DateTime now1) user0))
    as Huser' by (by apply GetUserByID_Hex).
  rewrite Huser' in Hupd.
  assert (d' = with_users d us) as -> by (by inversion Hupd).
  assert (forall d0 u0,
    UserService.GetUserByID d0 (Hex (User_ID user)) = Ok u0 ->
    UserService.GetRoleByID d0 (Hex (RoleID user)) = Ok role ->
    middleware.JWTAuth m EmptyString ("Bearer " +:+ Login_Token resp) now2 d0 =
      inr (mkAuthContext (User_ID u0) (Role_ID role) (Role_Name role)
             (Role_Permissions role) (IsEmailVerified u0) (NeedsPasswordChange u0)))
    as Hpass.
  { intros d0 u0 Hu0 Hr0.
    rewrite (JWTAuth_issued (sessionClaims (User_ID user) (Email user) (RoleID user) now)
               (User_ID user) (RoleID user) _ (jwtSecret (middleware.authService m))
               (Login_Token resp) m EmptyString now2 d0
               eq_refl eq_refl eq_refl eq_refl Hclock Htok).
    rewrite Hkey. rewrite decide_True by reflexivity.
    rewrite decide_True by (by right).
    unfold AuthenticatedUserContext. rewrite Hu0, Hr0.
    by rewrite bool_decide_eq_true_2 by done. }
  eexists _, _, newRole, _.
  split; [apply (Hpass d user0); [by apply GetUserByID_Hex | exact Hrole] |].
  split; [apply (Hpass (with_users d us) _ Huser');
          by rewrite (GetRoleByID_roles d) |].
  rewrite Hid. by repeat split.
Qed.
End bearer.

(** X6. Password-reset tokens and e-mail verification tokens are not
    session tokens: they carry no role id, and the middleware refuses a
    request whose authorization header carries one, under every secret, on
    every route and at every time. *)
Theorem reset_and_verification_tokens_refused `{P : Platform} (L : CodecLaws P)
    (m : middleware.AuthMiddleware) (requiredPermission authHeader scheme : string)
    (now' : Time) (d : Database) :
  (forall u key now tok,
      GeneratePasswordResetToken u key now = Ok tok ->
      bytes.Split " "%char authHeader = [scheme; tok] ->
      exists response,
        middleware.JWTAuth m requiredPermission authHeader now' d = inl response) /\
  (forall userID key now tok,
      GenerateVerificationToken userID key now = Ok tok ->
      bytes.Split " "%char authHeader = [scheme; tok] ->
      exists response,
        middleware.JWTAuth m requiredPermission authHeader now' d = inl response).
Proof.
  assert (forall claims key tok,
    claims !! "role_id" = None ->
    jwt.SignedString (jwt.NewWithClaims jwt.SigningMethodHS256 claims) key = Ok tok ->
    bytes.Split " "%char authHeader = [scheme; tok] ->
    exists response,
      middleware.JWTAuth m requiredPermission authHeader now' d = inl response)
    as Hrefused.
  { intros claims key tok Hnone Hsig Hsplit.
    destruct (Parse_SignedString L claims key (middleware.mw_jwtSecret m) now')
      as (tok' & header' & claims' & Hsig' & Hagree & Hparse).
    rewrite Hsig in Hsig'. injection Hsig' as <-.
    unfold middleware.JWTAuth.
    destruct (decide (authHeader = EmptyString)); [by eexists |].
    rewrite Hsplit. destruct (negb (bool_decide _)); [by eexists |].
    rewrite Hparse. clear Hparse.
    destruct (decide (tag key claims = _)); [| by eexists].
    destruct (jwt.Validate claims' now'); [by eexists |].
    cbn [jwt.Valid negb jwt.Claims].
    rewrite (agree_absent _ _ "role_id" Hagree) by done.
    destruct (claims' !! "user_id") as [[?|?]|]; by eexists. }
  split.
  - intros u key now tok Htok. by apply (Hrefused (resetClaims u now) key tok).
  - intros userID key now tok Htok.
    by apply (Hrefused (verificationClaims userID now) key tok).
Qed.

(** X7. The permission a route requires only filters: a request passes
    [JWTAuth] under a required permission exactly when it passes the same
    middleware under no requirement and the context built for it holds the
    permission; the context handed on is the same in both. *)
Theorem route_permission_only_filters `{P : Platform}
    (m : middleware.AuthMiddleware) (requiredPermission authHeader : string)
    (now : Time) (d : Database) (authContext : AuthContext) :
  middleware.JWTAuth m requiredPermission authHeader now d = inr authContext <->
  middleware.JWTAuth m EmptyString authHeader now d = inr authContext /\
  (requiredPermission = EmptyString \/
   HasPermission authContext requiredPermission = true).
Proof.
  unfold middleware.JWTAuth.
  destruct (decide (authHeader = EmptyString)); [by split; [| intros []] |].
  destruct (bytes.Split _ authHeader) as [|scheme [|tokenString [|? ?]]];
    try (by split; [| intros []]).
  destruct (negb (bool_decide (bytes.ToLower scheme = _))); [by split; [| intros []] |].
  destruct (jwt.Parse _ _ _) as [token|]; [| by split; [| intros []]].
  destruct (negb (jwt.Valid token)); [by split; [| intros []] |].
  destruct (jwt.Claims token !! "user_id") as [[userIDHex|]|];
    try (by split; [| intros []]).
  destruct (jwt.Claims token !! "role_id") as [[roleIDHex|]|];
    try (by split; [| intros []]).
  destruct (ObjectIDFromHex userIDHex) as [userID|]; [| by split; [| intros []]].
  destruct (ObjectIDFromHex roleIDHex) as [roleID|]; [| by split; [| intros []]].
  destruct (AuthenticatedUserContext _ userID roleID d) as [ctx|];
    [| by split; [| intros []]].
  rewrite (bool_decide_eq_true_2 (EmptyString = EmptyString)) by done. cbn [negb andb].
  destruct (bool_decide (requiredPermission = EmptyString)) eqn:Hreq; cbn [negb andb].
  - apply bool_decide_eq_true in Hreq. split; [intros [= <-]; by split; [| left] | by intros []].
  - apply bool_decide_eq_false in Hreq.
    destruct (HasPermission ctx requiredPermission) eqn:Hperm; cbn [negb].
    + split; [intros [= <-]; by split; [| right] | by intros []].
    + split; [done |]. intros [[= <-] [?|?]]; congruence.
Qed.

(** X8. Routes no default role can use.  The route of [GetUserByID]
    requires [user:read_own], which no entry of the default role table
    grants, and the routes that list, read, update and delete tasks require
    the [_own] permissions, which the default Admin and Manager roles do
    not hold: a context with such permissions never passes the middleware
    of these routes. *)
Theorem routes_closed_to_default_roles `{P : Platform}
    (m : middleware.AuthMiddleware) (authHeader : string) (now : Time)
    (d : Database) (authContext : AuthContext) (roleName : string) :
  Permissions authContext = default_permissions roleName ->
  middleware.JWTAuth m api.GetUserByID_permission authHeader now d
    <> inr authContext /\
  (roleName = "Admin" \/ roleName = "Manager" ->
   forall permission,
     permission ∈ [api.GetTasks_permission; api.GetTaskByID_permission;
                   api.UpdateTask_permission; api.DeleteTask_permission] ->
     middleware.JWTAuth m permission authHeader now d <> inr authContext).
Proof.
  intros Hperms. split.
  - intros Hpass. apply JWTAuth_passes in Hpass as [[Hnone|Hhas] _]; [done |].
    unfold HasPermission in Hhas. rewrite Hperms in Hhas.
    unfold default_permissions, DefaultRoles in Hhas. cbn in Hhas.
    repeat (case_bool_decide; cbn in Hhas; try done).
  - intros Hrole permission Hin Hpass.
    apply JWTAuth_passes in Hpass as [[Hnone|Hhas] _].
    + subst permission.
      repeat (apply elem_of_cons in Hin as [Hin|Hin]; [done |]).
      by apply elem_of_nil in Hin.
    + unfold HasPermission in Hhas. rewrite Hperms in Hhas.
      destruct Hrole as [-> | ->];
        repeat (apply elem_of_cons in Hin as [->|Hin]; [done |]);
        by apply elem_of_nil in Hin.
Qed.

(** X9. [HasPermission] is membership of the action in the set of actions
    of the context's permission list. *)
Theorem HasPermission_membership (ac : AuthContext) (permission : string) :
  HasPermission ac permission = true <-> permission ∈ actions (Permissions ac).
Proof.
  unfold HasPermission, actions.
  induction (Permissions ac) as [|p ps IH]; cbn.
  - split; [done | set_solver].
  - rewrite elem_of_union, elem_of_singleton, <- IH.
    destruct (decide (Action p = permission)) as [Heq|Hne].
    + split; [by left | done].
    + split; [by right | intros [?|?]; congruence].
Qed.

(** ** Tasks: the service *)

Section by_id.
Context {D : Type} (id_of : D -> ObjectID).

Lemma find_id_None (i : ObjectID) (coll : list D) :
  List.find (fun d => bool_decide (id_of d = i)) coll = None <->
  i ∉ id_of <$> coll.
Proof.
  induction coll as [|d rest IH]; cbn.
  - split; [intros _; apply not_elem_of_nil | done].
  - rewrite not_elem_of_cons, <- IH. case_bool_decide as Heq.
    + split; [done | intros [Hne _]; by destruct Hne].
    + split; [intros Hf; split; [congruence | done] | by intros [_ ?]].
Qed.

Lemma find_id_Some (i : ObjectID) (coll : list D) (d : D) :
  List.find (fun d => bool_decide (id_of d = i)) coll = Some d ->
  d ∈ coll /\ id_of d = i.
Proof.
  intros Hfind. apply List.find_some in Hfind as [Hin Hid].
  split; [by apply list_elem_of_In | by apply bool_decide_eq_true in Hid].
Qed.

Lemma find_id_snoc (i : ObjectID) (coll : list D) (d : D) :
  List.find (fun d => bool_decide (id_of d = i)) coll = None ->
  id_of d = i ->
  List.find (fun d => bool_decide (id_of d = i)) (coll ++ [d]) = Some d.
Proof.
  intros Hnone Hid. induction coll as [|x rest IH]; cbn in *.
  - by rewrite bool_decide_eq_true_2.
  - destruct (bool_decide (id_of x = i)); [done | by apply IH].
Qed.

(** In a collection with unique ids, the document found by an id is the
    only one with it. *)
Lemma find_id_unique (coll : list D) (d : D) :
  NoDup (id_of <$> coll) -> d ∈ coll ->
  List.find (fun x => bool_decide (id_of x = id_of d)) coll = Some d.
Proof.
  induction coll as [|x rest IH]; cbn; [by intros _ ?%elem_of_nil |].
  intros [Hx Hrest]%NoDup_cons [->|Hin]%elem_of_cons.
  - by rewrite bool_decide_eq_true_2.
  - rewrite bool_decide_eq_false_2; [by apply IH |].
    intros Heq. apply Hx. rewrite Heq. by apply list_elem_of_fmap_2.
Qed.

Lemma DeleteOne_none (f : D -> bool) (coll : list D) :
  List.find f coll = None -> DeleteOne f coll = (0, coll).
Proof.
  induction coll as [|d rest IH]; cbn; [done |].
  destruct (f d); [done |]. intros Hf. by rewrite IH.
Qed.

Lemma DeleteOne_some (f : D -> bool) (coll : list D) (x : D) :
  List.find f coll = Some x ->
  exists l1 l2, coll = l1 ++ x :: l2 /\ DeleteOne f coll = (1, l1 ++ l2).
Proof.
  induction coll as [|d rest IH]; cbn; [done |].
  destruct (f d) eqn:Hd.
  - intros [= <-]. by exists [], rest.
  - intros Hf. destruct (IH Hf) as (l1 & l2 & -> & Hdel).
    exists (d :: l1), l2. by rewrite Hdel.
Qed.

Lemma UpdateByID_ids `{EqDecision D} (i : ObjectID) (set : D -> D) (coll : list D) :
  (forall d, id_of (set d) = id_of d) ->
  id_of <$> snd (UpdateByID id_of i set coll) = id_of <$> coll.
Proof.
  intros Hset. induction coll as [|d rest IH]; cbn; [done |].
  destruct (decide (id_of d = i)); cbn; [by rewrite Hset |].
  destruct (UpdateByID id_of i set rest) as [res rest']. cbn in *. by rewrite IH.
Qed.

Lemma UpdateByID_modified `{EqDecision D} (i : ObjectID) (set : D -> D) (coll : list D) :
  ModifiedCount (fst (UpdateByID id_of i set coll)) <> 0 ->
  exists d0, List.find (fun d => bool_decide (id_of d = i)) coll = Some d0.
Proof.
  intros Hmod.
  destruct (List.find (fun d => bool_decide (id_of d = i)) coll) as [d0|] eqn:Hfind;
    [by eexists |].
  by rewrite (UpdateByID_missing id_of i set coll Hfind) in Hmod.
Qed.
End by_id.

Lemma with_tasks_same (db : Database) : with_tasks db (tasks db) = db.
Proof. by destruct db. Qed.

Lemma GetTaskByID_find (d : Database) (id : string) (objID : ObjectID) :
  ObjectIDFromHex id = Ok objID ->
  TaskService.GetTaskByID d id =
    match List.find (fun t => bool_decide (Task_ID t = objID)) (tasks d) with
    | Some t => Ok t
    | None => Err "task not found"
    end.
Proof.
  intros Hid. unfold TaskService.GetTaskByID, FindOne. rewrite Hid.
  destruct (List.find _ (tasks d)); [done | by rewrite decide_True].
Qed.

(** X10. [CreateTask] appends one task under the fresh id, and
    [GetTaskByID] on that id in hexadecimal reads it back with the title,
    description, status and owner that were passed in; when the id is taken
    the call fails with the duplicate-key error and the database is as
    before. *)
Theorem created_task_read_back (task : Task) (newID : ObjectID) (now : Time)
    (db : Database) :
  let out := TaskService.CreateTask task newID now db in
  if bool_decide (newID ∈ (Task_ID <$> tasks db))
  then out = (Err ErrDuplicateKey, db)
  else exists created stored,
         fst out = Ok created /\
         Task_ID created = newID /\
         TaskService.GetTaskByID (snd out) (Hex newID) = Ok stored /\
         tasks (snd out) = tasks db ++ [stored] /\
         Task_ID stored = newID /\
         Title stored = Title task /\
         Description stored = Description task /\
         Status stored = Status task /\
         Task_UserID stored = Task_UserID task.
Proof.
  cbv zeta. unfold TaskService.CreateTask, InsertOne. cbn [Task_ID].
  destruct (List.find _ (tasks db)) as [t|] eqn:Hfind.
  - apply find_id_Some in Hfind as [Hin Hid].
    rewrite bool_decide_eq_true_2 by (rewrite <- Hid; by apply list_elem_of_fmap_2).
    by rewrite with_tasks_same.
  - rewrite bool_decide_eq_false_2 by (by apply find_id_None).
    eexists _, _. split; [reflexivity |]. split; [reflexivity |]. cbn [snd].
    rewrite (GetTaskByID_find _ _ newID) by apply ObjectIDFromHex_Hex.
    cbn [tasks with_tasks]. rewrite (find_id_snoc Task_ID newID) by done.
    by repeat split.
Qed.

(** X11. [UpdateTask] never moves a task: position by position the
    collection keeps every task's id, owner and creation time, and users
    and roles are not written.  The task a successful call returns is the
    stored one with the requested id; it carries each field the request
    sets and the time of the call as its update time. *)
Theorem update_task_keeps_identity (id : string) (update : UpdateTaskRequest)
    (now : Time) (db : Database) :
  let out := TaskService.UpdateTask id update now db in
  Forall2 (fun t t' => Task_ID t' = Task_ID t /\
                       Task_UserID t' = Task_UserID t /\
                       Task_CreatedAt t' = Task_CreatedAt t)
    (tasks db) (tasks (snd out)) /\
  users (snd out) = users db /\
  roles (snd out) = roles db /\
  forall updated,
    fst out = Ok updated ->
    ObjectIDFromHex id = Ok (Task_ID updated) /\
    updated ∈ tasks (snd out) /\
    (forall v, Update_Title update = Some v -> Title updated = v) /\
    (forall v, Update_Description update = Some v -> Description updated = v) /\
    (forall v, Update_Status update = Some v -> Status updated = v) /\
    Task_UpdatedAt updated = DateTime now.
Proof.
  cbv zeta. unfold TaskService.UpdateTask.
  destruct (ObjectIDFromHex id) as [objID|] eqn:Hid; cbn [fst snd].
  2: { split; [| by repeat split].
       apply Forall2_same_length_lookup_2; [done |]. intros i x y Hx Hy.
       rewrite Hx in Hy. by injection Hy as <-. }
  pose proof (UpdateByID_pointwise Task_ID objID
    (TaskService.apply_update update (DateTime now)) (tasks db)) as Hpoint.
  pose proof (UpdateByID_modified Task_ID objID
    (TaskService.apply_update update (DateTime now)) (tasks db)) as Hmod.
  pose proof (UpdateByID_found Task_ID objID
    (TaskService.apply_update update (DateTime now)) (tasks db)) as Hfound.
  destruct (UpdateByID _ _ _ _) as [res ts]. cbn [fst snd] in *.
  assert (Forall2 (fun t t' => Task_ID t' = Task_ID t /\
                               Task_UserID t' = Task_UserID t /\
                               Task_CreatedAt t' = Task_CreatedAt t)
            (tasks db) ts) as Hkeep.
  { eapply Forall2_impl; [exact Hpoint |]. by intros t t' [->| ->]. }
  destruct (decide (ModifiedCount res = 0)) as [Hzero|Hnz]; cbn [fst snd tasks with_tasks].
  { by repeat split. }
  split; [exact Hkeep |]. split; [reflexivity |]. split; [reflexivity |].
  intros updated Hget.
  destruct (Hmod Hnz) as [t0 Ht0].
  destruct (Hfound t0 Ht0) as [_ Hfind].
  apply find_id_Some in Ht0 as [_ Hid0].
  specialize (Hfind Hid0).
  rewrite (GetTaskByID_find _ _ objID Hid) in Hget. cbn [tasks with_tasks] in Hget.
  rewrite Hfind in Hget. injection Hget as <-.
  apply find_id_Some in Hfind as [Hin _].
  split; [by rewrite <- Hid0 |]. split; [exact Hin |].
  cbn. repeat split; by intros v ->.
Qed.

(** X12. In a collection with unique ids, a successful [DeleteTask] removes
    the task for good: [GetTaskByID] on the id answers "task not found",
    the collection holds exactly the other tasks, and users and roles are
    not written. *)
Theorem deleted_task_is_gone (id : string) (db db' : Database) :
  NoDup (Task_ID <$> tasks db) ->
  TaskService.DeleteTask id db = (None, db') ->
  TaskService.GetTaskByID db' id = Err "task not found" /\
  (exists objID,
     ObjectIDFromHex id = Ok objID /\
     forall t, t ∈ tasks db' <-> t ∈ tasks db /\ Task_ID t <> objID) /\
  users db' = users db /\
  roles db' = roles db.
Proof.
  intros Hdup. unfold TaskService.DeleteTask.
  destruct (ObjectIDFromHex id) as [objID|] eqn:Hid; [| done].
  destruct (List.find (fun t => bool_decide (Task_ID t = objID)) (tasks db))
    as [x|] eqn:Hfind.
  2: { by rewrite (DeleteOne_none _ _ Hfind). }
  apply find_id_Some in Hfind as Hx. destruct Hx as [_ Hx].
  destruct (DeleteOne_some _ _ _ Hfind) as (l1 & l2 & Hsplit & ->).
  rewrite decide_False by done. intros [= <-].
  rewrite Hsplit, fmap_app, fmap_cons in Hdup.
  apply NoDup_app in Hdup as (Hl1 & Hdisj & [Hxl2 Hl2]%NoDup_cons).
  assert (forall t, t ∈ l1 ++ l2 -> Task_ID t <> objID) as Hother.
  { intros t [Hin|Hin]%elem_of_app Heq.
    - apply (Hdisj (Task_ID t)); [by apply list_elem_of_fmap_2 |].
      rewrite Heq, <- Hx. apply elem_of_cons. by left.
    - apply Hxl2. rewrite Hx, <- Heq. by apply list_elem_of_fmap_2. }
  split.
  - rewrite (GetTaskByID_find _ _ objID Hid). cbn [tasks with_tasks].
    destruct (List.find _ (l1 ++ l2)) as [t|] eqn:Hfind'; [| done].
    apply find_id_Some in Hfind' as [Hin Heq]. by destruct (Hother t Hin).
  - split; [| done]. exists objID. split; [done |].
    intros t. cbn [tasks with_tasks]. rewrite Hsplit. split.
    + intros Hin. split; [| by apply Hother].
      apply elem_of_app in Hin as [?|?]; apply elem_of_app;
        [by left | right; apply elem_of_cons; by right].
    + intros [[Hin|[->|Hin]%elem_of_cons]%elem_of_app Hne];
        [apply elem_of_app; by left | done | apply elem_of_app; by right].
Qed.

(** X13. The task service keeps the ids of the task collection unique:
    creating, updating and deleting a task each lead from a collection
    without duplicate ids to one without. *)
Theorem task_ids_stay_unique (db : Database) (task : Task) (newID : ObjectID)
    (id : string) (update : UpdateTaskRequest) (now : Time) :
  NoDup (Task_ID <$> tasks db) ->
  NoDup (Task_ID <$> tasks (snd (TaskService.CreateTask task newID now db))) /\
  NoDup (Task_ID <$> tasks (snd (TaskService.UpdateTask id update now db))) /\
  NoDup (Task_ID <$> tasks (snd (TaskService.DeleteTask id db))).
Proof.
  intros Hdup. repeat split.
  - unfold TaskService.CreateTask, InsertOne. cbn [Task_ID].
    destruct (List.find _ (tasks db)) as [t|] eqn:Hfind; cbn; [done |].
    apply find_id_None in Hfind.
    rewrite fmap_app. apply NoDup_app. split; [done |]. split.
    + intros i Hi [->|[]%elem_of_nil]%elem_of_cons. by apply Hfind.
    + apply NoDup_singleton.
  - unfold TaskService.UpdateTask.
    destruct (ObjectIDFromHex id) as [objID|]; [| done].
    pose proof (UpdateByID_ids Task_ID objID
      (TaskService.apply_update update (DateTime now)) (tasks db)
      (fun _ => eq_refl)) as Hids.
    destruct (UpdateByID _ _ _ _) as [res ts]. cbn [snd] in Hids.
    destruct (decide _); cbn; by rewrite Hids.
  - unfold TaskService.DeleteTask.
    destruct (ObjectIDFromHex id) as [objID|]; [| done].
    destruct (List.find (fun t => bool_decide (Task_ID t = objID)) (tasks db))
      as [x|] eqn:Hfind.
    + destruct (DeleteOne_some _ _ _ Hfind) as (l1 & l2 & Hsplit & ->).
      rewrite decide_False by done. cbn.
      rewrite Hsplit, fmap_app, fmap_cons in Hdup. rewrite fmap_app.
      apply NoDup_app in Hdup as (Hl1 & Hdisj & [Hxl2 Hl2]%NoDup_cons).
      apply NoDup_app. split; [done |]. split; [| done].
      intros i Hi Hi2. apply (Hdisj i Hi). apply elem_of_cons. by right.
    + by rewrite (DeleteOne_none _ _ Hfind).
Qed.

(** ** Tasks: the handlers *)

(** X14. [GetTaskByID] answers with a task exactly when the request is
    authenticated, the task with the requested id exists, and the requester
    holds [task:read_all] or owns the task; the task in the answer is the
    stored one. *)
Theorem read_task_own_or_all (r : query.Request) (d : Database) (t : Task) :
  TaskHandler.GetTaskByID r d = RespondWithJSON StatusOK (TaskPayload t) <->
  exists actor,
    query.ContextValue r = Some actor /\
    TaskService.GetTaskByID d (query.Vars_id r) = Ok t /\
    (HasPermission actor "task:read_all" = true \/ Task_UserID t = UserID actor).
Proof.
  unfold TaskHandler.GetTaskByID, query.GetAuthContext.
  destruct (query.ContextValue r) as [actor|]; [| split; [done | by intros (? & ? & _)]].
  destruct (TaskService.GetTaskByID d (query.Vars_id r)) as [task|e].
  2: { split; [by destruct (bool_decide _) | by intros (? & _ & ? & _)]. }
  destruct (HasPermission actor "task:read_all") eqn:Hperm; cbn [negb andb].
  - split.
    + intros [= <-]. exists actor. split; [done |]. split; [done |]. by left.
    + by intros (? & [= <-] & [= <-] & _).
  - destruct (decide (Task_UserID task = UserID actor)) as [Hown|Hnot].
    + rewrite bool_decide_eq_false_2 by (intros Hc; by apply Hc). split.
      * intros [= <-]. exists actor. split; [done |]. split; [done |]. by right.
      * by intros (? & [= <-] & [= <-] & _).
    + rewrite bool_decide_eq_true_2 by done. split; [done |].
      intros (? & [= <-] & [= <-] & [?|?]); congruence.
Qed.

Lemma DeleteTask_failure_keeps (id : string) (d d' : Database) (e : string) :
  TaskService.DeleteTask id d = (Some e, d') -> d' = d.
Proof.
  unfold TaskService.DeleteTask.
  destruct (ObjectIDFromHex id) as [objID|]; [| by intros [= _ <-]].
  destruct (List.find (fun t => bool_decide (Task_ID t = objID)) (tasks d))
    as [x|] eqn:Hfind.
  - destruct (DeleteOne_some _ _ _ Hfind) as (l1 & l2 & _ & ->).
    by rewrite decide_False by done.
  - rewrite (DeleteOne_none _ _ Hfind). rewrite decide_True by done.
    intros [= _ <-]. apply with_tasks_same.
Qed.

(** X15. [DeleteTask] answers 204 exactly when the request is
    authenticated, the task exists, the requester holds [task:delete_all]
    or owns the task, and the service deletes it; every other answer leaves
    the database as it was. *)
Theorem delete_task_own_or_all (r : query.Request) (d : Database) :
  (forall d',
     TaskHandler.DeleteTask r d = (WroteHeader StatusNoContent, d') <->
     exists actor task,
       query.ContextValue r = Some actor /\
       TaskService.GetTaskByID d (query.Vars_id r) = Ok task /\
       (HasPermission actor "task:delete_all" = true \/
        Task_UserID task = UserID actor) /\
       TaskService.DeleteTask (query.Vars_id r) d = (None, d')) /\
  (forall response,
     fst (TaskHandler.DeleteTask r d) = Wrote response ->
     snd (TaskHandler.DeleteTask r d) = d).
Proof.
  unfold TaskHandler.DeleteTask, query.GetAuthContext.
  destruct (query.ContextValue r) as [actor|];
    [| split; [split; [done | by intros (? & ? & ? & _)] | done]].
  destruct (TaskService.GetTaskByID d (query.Vars_id r)) as [task|e].
  2: { split; [| by destruct (bool_decide _)].
       split; [by destruct (bool_decide _) | by intros (? & ? & _ & ? & _)]. }
  assert (HasPermission actor "task:delete_all" = true \/
          Task_UserID task = UserID actor \/
          (HasPermission actor "task:delete_all" = false /\
           Task_UserID task <> UserID actor)) as [Hall|[Hown|[Hnone Hnot]]].
  { destruct (HasPermission actor "task:delete_all"); [by left | right].
    destruct (decide (Task_UserID task = UserID actor)); [by left | by right]. }
  3: { rewrite Hnone, bool_decide_eq_true_2 by done. cbn [negb andb].
       split; [| done]. intros d'. split; [done |].
       intros (? & ? & [= <-] & [= <-] & [?|?] & _); congruence. }
  all: assert (negb (HasPermission actor "task:delete_all")
               && bool_decide (Task_UserID task <> UserID actor) = false) as ->
         by (first [ by rewrite Hall
                   | rewrite (bool_decide_eq_false_2 (Task_UserID task <> UserID actor))
                       by (intros Hc; by apply Hc);
                     apply andb_false_r ]).
  all: destruct (TaskService.DeleteTask (query.Vars_id r) d) as [[e|] d0] eqn:Hdel.
  all: try (apply DeleteTask_failure_keeps in Hdel as ->;
            split; [| intros response _; by destruct (bool_decide _)];
            intros d'; split; [by destruct (bool_decide _) |];
            by intros (? & ? & _ & _ & _ & ?)).
  all: split; [| done]; intros d'; split;
         [ intros [= <-]; exists actor, task;
           split; [done |]; split; [done |]; split; [tauto | done]
         | by intros (? & ? & _ & _ & _ & [= <-]) ].
Qed.

(** ** Users: registration, profiles and verification *)

Lemma find_snoc {D : Type} (f : D -> bool) (coll : list D) (d : D) :
  List.find f coll = None -> f d = true -> List.find f (coll ++ [d]) = Some d.
Proof.
  intros Hnone Hd. induction coll as [|x rest IH]; cbn in *.
  - by rewrite Hd.
  - destruct (f x); [done | by apply IH].
Qed.

Lemma GetRoleByName_Ok (d : Database) (name : string) (role : Role) :
  UserService.GetRoleByName d name = Ok role ->
  role ∈ roles d /\ Role_Name role = name.
Proof.
  unfold UserService.GetRoleByName.
  destruct (FindOne _ (roles d)) as [x|e] eqn:Hfind; [| by destruct (decide _)].
  intros [= <-]. apply FindOne_Ok in Hfind as [Hname Hin].
  split; [by apply list_elem_of_In | by apply bool_decide_eq_true in Hname].
Qed.

Lemma GetRoleByID_unique (d : Database) (role : Role) :
  NoDup (Role_ID <$> roles d) -> role ∈ roles d ->
  UserService.GetRoleByID d (Hex (Role_ID role)) = Ok role.
Proof.
  intros Hdup Hin. unfold UserService.GetRoleByID, FindOne.
  rewrite ObjectIDFromHex_Hex. by rewrite (find_id_unique Role_ID).
Qed.

Lemma GetUserByEmail_Err (d : Database) (email e : string) :
  UserService.GetUserByEmail d email = Err e ->
  List.find (fun u => bool_decide (Email u = email)) (users d) = None.
Proof.
  unfold UserService.GetUserByEmail, FindOne.
  by destruct (List.find _ (users d)).
Qed.

(** What a successful registration has done. *)
Lemma RegisterUser_Ok `{P : Platform} (s : AuthService) (req : UserRegisterRequest)
    (isAdminCreation : bool) (tempPassword entropy : string) (newID : ObjectID)
    (now : Time) (d d' : Database) (resp : UserResponse) :
  RegisterUser s req isAdminCreation tempPassword entropy newID now d = (Ok resp, d') ->
  exists hashed role role' stored,
    List.find (fun u => bool_decide (Email u = Register_Email req)) (users d) = None /\
    HashPassword entropy
      (if isAdminCreation then tempPassword else Register_Password req) = Ok hashed /\
    UserService.GetRoleByName d (if isAdminCreation then "Admin" else "User") = Ok role /\
    UserService.GetRoleByID d (Hex (Role_ID role)) = Ok role' /\
    (newID ∉ User_ID <$> users d) /\
    d' = with_users d (users d ++ [stored]) /\
    User_ID stored = newID /\ Email stored = Register_Email req /\
    Password stored = hashed /\ RoleID stored = Role_ID role /\
    FirstName stored = "New" /\ LastName stored = "User" /\
    IsEmailVerified stored = false /\ NeedsPasswordChange stored = isAdminCreation /\
    Resp_ID resp = Hex newID /\ Resp_Email resp = Register_Email req /\
    Resp_RoleName resp = Role_Name role' /\
    Resp_IsEmailVerified resp = false /\
    Resp_NeedsPasswordChange resp = isAdminCreation.
Proof.
  unfold RegisterUser.
  destruct (UserService.GetUserByEmail d (Register_Email req)) as [|e] eqn:Hmail;
    [by intros [=] |].
  apply GetUserByEmail_Err in Hmail.
  assert (forall hashed role,
    UserService.CreateUser
      (mkUser NilObjectID "New" "User" (Register_Email req) hashed (Role_ID role)
         "https://placehold.co/150x150/cccccc/ffffff?text=Avatar" false
         isAdminCreation (DateTime now) (DateTime now)) newID now d = (Ok resp, d') ->
    exists role' stored,
      UserService.GetRoleByID d (Hex (Role_ID role)) = Ok role' /\
      (newID ∉ User_ID <$> users d) /\
      d' = with_users d (users d ++ [stored]) /\
      User_ID stored = newID /\ Email stored = Register_Email req /\
      Password stored = hashed /\ RoleID stored = Role_ID role /\
      FirstName stored = "New" /\ LastName stored = "User" /\
      IsEmailVerified stored = false /\ NeedsPasswordChange stored = isAdminCreation /\
      Resp_ID resp = Hex newID /\ Resp_Email resp = Register_Email req /\
      Resp_RoleName resp = Role_Name role' /\
      Resp_IsEmailVerified resp = false /\
      Resp_NeedsPasswordChange resp = isAdminCreation) as Hcreate.
  { intros hashed role. unfold UserService.CreateUser, InsertOne.
    cbn [FirstName LastName ProfilePictureURL Email Password RoleID User_ID
         IsEmailVerified NeedsPasswordChange].
    rewrite !decide_False by done.
    destruct (List.find (fun u => bool_decide (User_ID u = newID)) (users d))
      as [u|] eqn:Hid; [by intros [=] |].
    apply find_id_None in Hid.
    rewrite (GetRoleByID_roles d) by done.
    destruct (UserService.GetRoleByID d (Hex (Role_ID role))) as [role'|] eqn:Hrole;
      [| by intros [=]].
    intros [= <- <-]. eexists role', _. by repeat split. }
  destruct isAdminCreation.
  - destruct (HashPassword entropy tempPassword) as [hashed|] eqn:Hhash; [| by intros [=]].
    destruct (UserService.GetRoleByName d "Admin") as [role|] eqn:Hrole;
      [| by intros [=]].
    intros Hout. destruct (Hcreate hashed role Hout) as (role' & stored & Hrest).
    by exists hashed, role, role', stored.
  - destruct (HashPassword entropy (Register_Password req)) as [hashed|] eqn:Hhash;
      [| by intros [=]].
    destruct (UserService.GetRoleByName d "User") as [role|] eqn:Hrole;
      [| by intros [=]].
    intros Hout. destruct (Hcreate hashed role Hout) as (role' & stored & Hrest).
    by exists hashed, role, role', stored.
Qed.

(** X16. A successful registration, in a database whose role ids are
    unique, appends one user with the fresh id: a self-registered user gets
    the role named User and no duty to change the password, an
    administrator created by an administrator gets the role named Admin and
    must change the temporary password; neither has a verified e-mail, and
    the password stored is the hash of the password that applies.  Roles
    and tasks are not written. *)
Theorem registration_assigns_role `{P : Platform} (s : AuthService)
    (req : UserRegisterRequest) (isAdminCreation : bool)
    (tempPassword entropy : string) (newID : ObjectID) (now : Time)
    (d d' : Database) (resp : UserResponse) :
  NoDup (Role_ID <$> roles d) ->
  RegisterUser s req isAdminCreation tempPassword entropy newID now d = (Ok resp, d') ->
  Resp_ID resp = Hex newID /\
  Resp_Email resp = Register_Email req /\
  Resp_RoleName resp = (if isAdminCreation then "Admin" else "User") /\
  Resp_NeedsPasswordChange resp = isAdminCreation /\
  Resp_IsEmailVerified resp = false /\
  roles d' = roles d /\
  tasks d' = tasks d /\
  exists stored role,
    users d' = users d ++ [stored] /\
    User_ID stored = newID /\
    Email stored = Register_Email req /\
    HashPassword entropy
      (if isAdminCreation then tempPassword else Register_Password req)
      = Ok (Password stored) /\
    UserService.GetRoleByName d (if isAdminCreation then "Admin" else "User")
      = Ok role /\
    RoleID stored = Role_ID role /\
    IsEmailVerified stored = false /\
    NeedsPasswordChange stored = isAdminCreation.
Proof.
  intros Hdup Hreg.
  apply RegisterUser_Ok in Hreg
    as (hashed & role & role' & stored & _ & Hhash & Hrole & Hrole' & _ & -> &
        Hid & Hmail & Hpw & Hrid & _ & _ & Hver & Hflag &
        Hrespid & Hrespmail & Hrespname & Hrespver & Hrespflag).
  apply GetRoleByName_Ok in Hrole as Hmember. destruct Hmember as [Hin Hname].
  rewrite (GetRoleByID_unique d role Hdup Hin) in Hrole'. injection Hrole' as <-.
  split; [done |]. split; [done |]. split; [by rewrite Hrespname |].
  split; [done |]. split; [done |]. split; [done |]. split; [done |].
  exists stored, role. rewrite Hpw. by repeat split.
Qed.

(** The user collection after a registration, whatever its outcome. *)
Lemma RegisterUser_users `{P : Platform} (s : AuthService) (req : UserRegisterRequest)
    (isAdminCreation : bool) (tempPassword entropy : string) (newID : ObjectID)
    (now : Time) (d : Database) :
  let out := RegisterUser s req isAdminCreation tempPassword entropy newID now d in
  snd out = d \/
  (List.find (fun u => bool_decide (Email u = Register_Email req)) (users d) = None /\
   exists stored,
     users (snd out) = users d ++ [stored] /\ Email stored = Register_Email req).
Proof.
  cbv zeta. unfold RegisterUser.
  destruct (UserService.GetUserByEmail d (Register_Email req)) as [|e] eqn:Hmail;
    [by left |].
  apply GetUserByEmail_Err in Hmail.
  assert (forall user, Email user = Register_Email req ->
    snd (UserService.CreateUser user newID now d) = d \/
    exists stored,
      users (snd (UserService.CreateUser user newID now d)) = users d ++ [stored] /\
      Email stored = Register_Email req) as Hcreate.
  { intros user Huser. unfold UserService.CreateUser, InsertOne. cbn [User_ID].
    destruct (List.find (fun u => bool_decide (User_ID u = newID)) (users d));
      [left; by destruct d |].
    right. destruct (UserService.GetRoleByID _ _); by eexists. }
  destruct isAdminCreation.
  - destruct (HashPassword entropy tempPassword) as [hashed|]; [| by left].
    destruct (UserService.GetRoleByName d "Admin") as [role|]; [| by left].
    destruct (Hcreate (mkUser NilObjectID "New" "User" (Register_Email req) hashed
                         (Role_ID role)
                         "https://placehold.co/150x150/cccccc/ffffff?text=Avatar"
                         false true (DateTime now) (DateTime now)) eq_refl)
      as [?|?]; [by left | by right].
  - destruct (HashPassword entropy (Register_Password req)) as [hashed|]; [| by left].
    destruct (UserService.GetRoleByName d "User") as [role|]; [| by left].
    destruct (Hcreate (mkUser NilObjectID "New" "User" (Register_Email req) hashed
                         (Role_ID role)
                         "https://placehold.co/150x150/cccccc/ffffff?text=Avatar"
                         false false (DateTime now) (DateTime now)) eq_refl)
      as [?|?]; [by left | by right].
Qed.

(** X17. E-mail addresses stay unique.  A registration with an address that
    some user already has fails with "email already registered" and leaves
    the database as it was, and every registration leads from a user
    collection without duplicate addresses to one without. *)
Theorem registration_keeps_emails_unique `{P : Platform} (s : AuthService)
    (req : UserRegisterRequest) (isAdminCreation : bool)
    (tempPassword entropy : string) (newID : ObjectID) (now : Time) (d : Database) :
  let out := RegisterUser s req isAdminCreation tempPassword entropy newID now d in
  (Register_Email req ∈ Email <$> users d ->
   out = (Err "email already registered", d)) /\
  (NoDup (Email <$> users d) -> NoDup (Email <$> users (snd out))).
Proof.
  cbv zeta. split.
  - intros Hin. unfold RegisterUser, UserService.GetUserByEmail, FindOne.
    destruct (List.find _ (users d)) as [u|] eqn:Hfind; [done |].
    apply list_elem_of_fmap in Hin as (u & Hu & Hin).
    apply list_elem_of_In in Hin.
    eapply List.find_none in Hfind; [| exact Hin].
    by rewrite bool_decide_eq_true_2 in Hfind.
  - intros Hdup.
    destruct (RegisterUser_users s req isAdminCreation tempPassword entropy newID now d)
      as [->|(Hfree & stored & -> & Hmail)]; [done |].
    rewrite fmap_app. apply NoDup_app. split; [done |].
    split; [| apply NoDup_singleton].
    intros a Ha [->|[]%elem_of_nil]%elem_of_cons.
    apply list_elem_of_fmap in Ha as (u & Hu & Hin).
    apply list_elem_of_In in Hin.
    eapply List.find_none in Hfree; [| exact Hin].
    rewrite bool_decide_eq_false in Hfree. congruence.
Qed.

(** X18. Who has registered can log in.  Where bcrypt accepts a password
    against the hash it generated for it, a successful registration is
    followed, in the database it leaves, by a successful login with the
    registered address and the password that applies (the temporary one
    for an administrator created by an administrator); the login response
    names the new user and the role of the registration, and asks for a
    password change exactly for such an administrator. *)
Theorem registered_user_can_log_in `{P : Platform} (s : AuthService)
    (req : UserRegisterRequest) (isAdminCreation : bool)
    (tempPassword entropy : string) (newID : ObjectID) (now now' : Time)
    (d d' : Database) (resp : UserResponse) :
  (forall e password hashed,
      bcrypt_GenerateFromPassword e password = Ok hashed ->
      bcrypt_CompareHashAndPassword hashed password = true) ->
  RegisterUser s req isAdminCreation tempPassword entropy newID now d = (Ok resp, d') ->
  exists login,
    LoginUser s
      (mkUserLoginRequest (Register_Email req)
         (if isAdminCreation then tempPassword else Register_Password req))
      now' d' = Ok login /\
    Login_UserID login = Resp_ID resp /\
    Login_RoleName login = Resp_RoleName resp /\
    Login_NeedsPasswordChange login = isAdminCreation.
Proof.
  intros Hbcrypt Hreg.
  apply RegisterUser_Ok in Hreg
    as (hashed & role & role' & stored & Hfree & Hhash & _ & Hrole' & _ & -> &
        Hid & Hmail & Hpw & Hrid & _ & _ & _ & Hflag &
        Hrespid & _ & Hrespname & _ & _).
  unfold LoginUser, UserService.GetUserByEmail, FindOne. cbn [Login_Email Login_Password].
  cbn [users with_users].
  rewrite (find_snoc _ _ stored Hfree) by (by rewrite bool_decide_eq_true_2).
  unfold CheckPasswordHash. rewrite Hpw, (Hbcrypt _ _ _ Hhash). cbn [negb].
  rewrite (GetRoleByID_roles d) by done. rewrite Hrid, Hrole'.
  eexists. split; [reflexivity |]. cbn. by rewrite Hid, Hrespid, Hrespname, Hflag.
Qed.

(** X19. [CreateUser] inserts before it looks up the role and does not
    take the insert back: called with a fresh id and a role id that no
    role document has, it reports "failed to retrieve role for new user"
    and the user is stored all the same. *)
Theorem user_without_role_is_stored (user : User) (newID : ObjectID) (now : Time)
    (db : Database) (e : string) :
  (newID ∉ User_ID <$> users db) ->
  UserService.GetRoleByID db (Hex (RoleID user)) = Err e ->
  exists stored,
    UserService.CreateUser user newID now db
      = (Err "failed to retrieve role for new user",
         with_users db (users db ++ [stored])) /\
    User_ID stored = newID /\
    Email stored = Email user /\
    RoleID stored = RoleID user /\
    UserService.GetUserByID (with_users db (users db ++ [stored])) (Hex newID)
      = Ok stored.
Proof.
  intros Hfresh Hrole. apply find_id_None in Hfresh.
  unfold UserService.CreateUser, InsertOne. cbn [User_ID RoleID].
  rewrite Hfresh. rewrite (GetRoleByID_roles db) by done. rewrite Hrole.
  eexists. split; [reflexivity |]. split; [done |]. split; [done |].
  split; [done |]. apply GetUserByID_Hex. cbn [users with_users].
  by apply (find_id_snoc User_ID).
Qed.

(** X20. [UpdateUserProfile] writes first name, last name and picture
    only: position by position the user collection keeps every user's id,
    e-mail address, password hash, role, verification and password-change
    flags and creation time, and roles and tasks are not written. *)
Theorem profile_update_keeps_credentials (userID : string)
    (req : UpdateUserProfileRequest) (now : Time) (db : Database) :
  let db' := snd (UserService.UpdateUserProfile userID req now db) in
  Forall2 (fun u u' => User_ID u' = User_ID u /\
                       Email u' = Email u /\
                       Password u' = Password u /\
                       RoleID u' = RoleID u /\
                       IsEmailVerified u' = IsEmailVerified u /\
                       NeedsPasswordChange u' = NeedsPasswordChange u /\
                       User_CreatedAt u' = User_CreatedAt u)
    (users db) (users db') /\
  roles db' = roles db /\
  tasks db' = tasks db.
Proof.
  cbv zeta. unfold UserService.UpdateUserProfile.
  destruct (ObjectIDFromHex userID) as [objID|]; cbn [snd].
  2: { split; [| done]. apply Forall2_same_length_lookup_2; [done |].
       intros i x y Hx Hy. rewrite Hx in Hy. by injection Hy as <-. }
  pose proof (UpdateByID_pointwise User_ID objID
    (UserService.apply_profile req (DateTime now)) (users db)) as Hpoint.
  destruct (UpdateByID _ _ _ _) as [res us]. cbn [snd] in Hpoint.
  assert (Forall2 (fun u u' => User_ID u' = User_ID u /\
                               Email u' = Email u /\
                               Password u' = Password u /\
                               RoleID u' = RoleID u /\
                               IsEmailVerified u' = IsEmailVerified u /\
                               NeedsPasswordChange u' = NeedsPasswordChange u /\
                               User_CreatedAt u' = User_CreatedAt u)
            (users db) us) as Hkeep.
  { eapply Forall2_impl; [exact Hpoint |]. by intros u u' [->| ->]. }
  by destruct (decide _).
Qed.

(** ** Users: the handlers *)

(** X21. [GetUserByID] answers with a profile exactly when the request is
    authenticated, the requester's id in hexadecimal is the requested id
    or the requester holds [user:read_all], and the profile exists. *)
Theorem read_profile_self_or_all (r : query.Request) (d : Database)
    (u : UserResponse) :
  UserHandler.GetUserByID r d = RespondWithJSON StatusOK (UserPayload u) <->
  exists actor,
    query.ContextValue r = Some actor /\
    (Hex (UserID actor) = query.Vars_id r \/
     HasPermission actor "user:read_all" = true) /\
    UserService.GetUserResponseByID d (query.Vars_id r) = Ok u.
Proof.
  unfold UserHandler.GetUserByID, query.GetAuthContext.
  destruct (query.ContextValue r) as [actor|]; [| split; [done | by intros (? & ? & _)]].
  case_bool_decide as Hself.
  - destruct (UserService.GetUserResponseByID d (query.Vars_id r)) as [resp|e]; split.
    + intros [= <-]. exists actor. split; [done |]. split; [by left | done].
    + by intros (? & _ & _ & [= <-]).
    + done.
    + by intros (? & _ & _ & ?).
  - destruct (HasPermission actor "user:read_all") eqn:Hperm; cbn [negb].
    + destruct (UserService.GetUserResponseByID d (query.Vars_id r)) as [resp|e]; split.
      * intros [= <-]. exists actor. split; [done |]. split; [by right | done].
      * by intros (? & _ & _ & [= <-]).
      * done.
      * by intros (? & _ & _ & ?).
    + split; [done |]. intros (? & [= <-] & [?|?] & _); congruence.
Qed.

(** X22. A well-formed profile update by an authenticated requester is
    refused exactly when the requester is not the target and lacks
    [user:update_profile]; otherwise the update service runs on the target
    and its outcome is the handler's.  Every default role holds
    [user:update_profile], so a requester with the permissions of any of
    the three roles is never refused, whoever the target is. *)
Theorem profile_update_self_or_permitted `{V : ProfileValidator}
    (r : Request UpdateUserProfileRequest) (now : Time) (d : Database)
    (req : UpdateUserProfileRequest) (actor : AuthContext) :
  Decoded r = Some req ->
  Struct_UpdateUserProfileRequest req = None ->
  ContextValue r = Some actor ->
  let granted :=
    Hex (UserID actor) = Vars_id r \/
    HasPermission actor "user:update_profile" = true in
  (~ granted ->
   UserHandler.UpdateUserProfile r now d =
     (RespondWithError StatusForbidden
        "You do not have permission to update this user's profile", d)) /\
  (granted ->
   snd (UserHandler.UpdateUserProfile r now d)
     = snd (UserService.UpdateUserProfile (Vars_id r) req now d) /\
   forall updated,
     fst (UserService.UpdateUserProfile (Vars_id r) req now d) = Ok updated ->
     fst (UserHandler.UpdateUserProfile r now d)
       = RespondWithJSON StatusOK (UserPayload updated)) /\
  (forall roleName,
     roleName ∈ ["Admin"; "Manager"; "User"] ->
     Permissions actor = default_permissions roleName ->
     granted).
Proof.
  intros Hbody Hvalid Hctx granted.
  unfold UserHandler.UpdateUserProfile, middleware.GetAuthContext.
  rewrite Hbody, Hvalid, Hctx.
  split; [| split].
  - intros Hno.
    rewrite bool_decide_eq_true_2 by (intros Heq; apply Hno; by left).
    destruct (HasPermission actor "user:update_profile") eqn:Hperm;
      [destruct Hno; by right | done].
  - intros Hyes.
    assert (bool_decide (Hex (UserID actor) <> Vars_id r)
            && negb (HasPermission actor "user:update_profile") = false) as ->.
    { destruct Hyes as [Hself|Hperm].
      - by rewrite bool_decide_eq_false_2 by (intros Hc; by apply Hc).
      - rewrite Hperm. apply andb_false_r. }
    destruct (UserService.UpdateUserProfile (Vars_id r) req now d) as [[resp|e] d'].
    + cbn. split; [done |]. by intros ? [= <-].
    + cbn. split; [by destruct (_ || _) | done].
  - intros roleName Hin Hperms. right. unfold HasPermission. rewrite Hperms.
    repeat (apply elem_of_cons in Hin as [->|Hin]; [reflexivity |]).
    by apply elem_of_nil in Hin.
Qed.

(** X23. [VerifyEmail] does not read the token beyond testing that it is
    present: two requests with the same authentication context and any two
    non-empty tokens are answered alike and leave the same database.  A
    requester whose context and user document are unverified is verified
    by any such request. *)
Theorem verify_email_ignores_token (r r' : query.Request) (now : Time)
    (d : Database) :
  query.Query r "token" <> EmptyString ->
  query.Query r' "token" <> EmptyString ->
  query.ContextValue r' = query.ContextValue r ->
  AuthHandler.VerifyEmail r' now d = AuthHandler.VerifyEmail r now d /\
  forall actor user,
    query.ContextValue r = Some actor ->
    Ctx_IsEmailVerified actor = false ->
    UserService.GetUserByID d (Hex (UserID actor)) = Ok user ->
    IsEmailVerified user = false ->
    fst (AuthHandler.VerifyEmail r now d)
      = RespondWithJSON StatusOK (MessagePayload "Email verified successfully.") /\
    exists verified,
      UserService.GetUserByID (snd (AuthHandler.VerifyEmail r now d))
        (Hex (UserID actor)) = Ok verified /\
      IsEmailVerified verified = true /\
      User_ID verified = User_ID user /\
      Email verified = Email user.
Proof.
  intros Htok Htok' Hctx. unfold AuthHandler.VerifyEmail, query.GetAuthContext.
  rewrite !decide_False by done. rewrite Hctx. split; [reflexivity |].
  intros actor user Hactor Hflag Huser Hunverified.
  rewrite Hactor, Hflag. unfold UserService.VerifyUserEmail.
  apply GetUserByID_Hex in Huser as Hfind.
  pose proof (UpdateByID_found User_ID (UserID actor)
    (UserService.set_email_verified (DateTime now)) (users d) user Hfind)
    as [Hres Hfound].
  apply find_id_Some in Hfind as [_ Hid]. specialize (Hfound Hid).
  destruct (UpdateByID _ _ _ _) as [res us]. cbn [fst snd] in Hres, Hfound.
  subst res. cbn [ModifiedCount].
  rewrite (decide_False (P := UserService.set_email_verified _ user = user)).
  2: { intros Heq. apply (f_equal IsEmailVerified) in Heq. cbn in Heq. congruence. }
  rewrite decide_False by done. cbn [fst snd]. split; [reflexivity |].
  eexists. split; [by apply GetUserByID_Hex |]. by repeat split.
Qed.

(** ** Listing tasks *)

Section sorting_facts.
Context {D : Type} (key : D -> Z).

Lemma insert_desc_perm (d : D) (l : list D) : insert_desc key d l ≡ₚ d :: l.
Proof.
  induction l as [|x rest IH]; cbn; [done |].
  destruct (decide (key d < key x)); [| done].
  rewrite IH. apply Permutation_swap.
Qed.

Lemma sort_desc_perm (l : list D) : sort_desc key l ≡ₚ l.
Proof.
  induction l as [|x rest IH]; cbn; [done |].
  fold (sort_desc key rest). by rewrite insert_desc_perm, IH.
Qed.

Lemma insert_desc_sorted (d : D) (l : list D) :
  StronglySorted (fun a b => key b <= key a) l ->
  StronglySorted (fun a b => key b <= key a) (insert_desc key d l).
Proof.
  induction l as [|x rest IH]; cbn.
  - intros _. by repeat constructor.
  - intros [Hrest Hx]%StronglySorted_inv.
    destruct (decide (key d < key x)) as [Hlt|Hge].
    + constructor; [by apply IH |].
      rewrite insert_desc_perm. constructor; [lia | done].
    + constructor; [by constructor |].
      constructor; [lia |].
      eapply Forall_impl; [exact Hx |]. cbn. intros b Hb. lia.
Qed.

Lemma sort_desc_sorted (l : list D) :
  StronglySorted (fun a b => key b <= key a) (sort_desc key l).
Proof.
  induction l as [|x rest IH]; cbn; [constructor |].
  by apply insert_desc_sorted.
Qed.

Lemma Find_Forall (P : D -> Prop) (q : D -> bool) (skip limit : Z) (coll : list D) :
  (forall x, x ∈ coll -> q x = true -> P x) ->
  Forall P (Find q key skip limit coll).
Proof.
  intros HP. unfold Find.
  assert (Forall P (sort_desc key (List.filter q coll))) as Hall.
  { rewrite sort_desc_perm. apply Forall_forall. intros x Hx.
    apply list_elem_of_In, List.filter_In in Hx as [Hin Hq].
    apply HP; [by apply list_elem_of_In | done]. }
  destruct (decide (limit = 0)); [by apply Forall_drop |].
  by apply Forall_take, Forall_drop.
Qed.

Lemma Find_length (q : D -> bool) (skip limit : Z) (coll : list D) :
  limit <> 0 ->
  (length (Find q key skip limit coll) <= Z.to_nat (Z.abs limit))%nat.
Proof.
  intros Hlimit. unfold Find. rewrite decide_False by done.
  rewrite length_take. lia.
Qed.
End sorting_facts.

(** X24. What [GetTasks] lists.  The page it answers with is at least 1 and
    the limit lies between 1 and 100, whatever the query says; at most
    [limit] tasks are listed, each of them a task of the collection; a
    status filter is lowered before it is applied; and a requester without
    [task:read_all] is shown own tasks only, whatever [user_id] the query
    asks for. *)
Theorem listed_tasks_are_own `{S : Server} (r : query.Request) (d : Database)
    (actor : AuthContext) (l : TaskService.TaskListResponse) :
  query.ContextValue r = Some actor ->
  TaskHandler.GetTasks r d = WroteTaskList l ->
  1 <= TaskService.Page l /\
  1 <= TaskService.Limit l <= 100 /\
  (length (TaskService.Tasks l) <= Z.to_nat (TaskService.Limit l))%nat /\
  Forall (fun t => t ∈ tasks d) (TaskService.Tasks l) /\
  (query.Query r "status" <> EmptyString ->
   Forall (fun t => Status t = strings_ToLower (query.Query r "status"))
     (TaskService.Tasks l)) /\
  (HasPermission actor "task:read_all" = false ->
   Forall (fun t => Task_UserID t = UserID actor) (TaskService.Tasks l)).
Proof.
  intros Hctx. unfold TaskHandler.GetTasks, query.GetAuthContext. rewrite Hctx.
  set (page := match strconv.ParseInt (query.Query r "page") with
               | Ok page => if decide (page < 1) then 1 else page
               | Err _ => 1
               end).
  set (limit := match strconv.ParseInt (query.Query r "limit") with
                | Ok limit => if decide (limit < 1 \/ 100 < limit) then 10 else limit
                | Err _ => 10
                end).
  assert (1 <= page) as Hpage.
  { unfold page. destruct (strconv.ParseInt (query.Query r "page")); [| lia].
    case_decide; lia. }
  assert (1 <= limit <= 100) as Hlimit.
  { unfold limit. destruct (strconv.ParseInt (query.Query r "limit")); [| lia].
    case_decide; lia. }
  clearbody page limit.
  set (byUser := if negb (HasPermission actor "task:read_all")
                 then Ok (Some (UserID actor))
                 else if decide (query.Query r "user_id" = EmptyString) then Ok None
                 else match ObjectIDFromHex (query.Query r "user_id") with
                      | Err _ => Err "Invalid user_id filter format"
                      | Ok objUserID => Ok (Some objUserID)
                      end).
  assert (HasPermission actor "task:read_all" = false ->
          byUser = Ok (Some (UserID actor))) as Hown
    by (intros Hnone; unfold byUser; by rewrite Hnone).
  clearbody byUser. destruct byUser as [user_id|]; [| done].
  set (byStatus := if decide (query.Query r "status" = EmptyString) then Ok None
                   else if bool_decide (strings_ToLower (query.Query r "status") = "todo")
                           || bool_decide (strings_ToLower (query.Query r "status")
                                           = "in_progress")
                           || bool_decide (strings_ToLower (query.Query r "status") = "done")
                   then Ok (Some (strings_ToLower (query.Query r "status")))
                   else Err "Invalid status filter. Must be 'todo', 'in_progress', or 'done'.").
  assert (query.Query r "status" <> EmptyString ->
          forall status, byStatus = Ok status ->
                         status = Some (strings_ToLower (query.Query r "status")))
    as Hstatus.
  { intros Hne status. unfold byStatus. rewrite decide_False by done.
    destruct (_ || _); [by intros [= <-] | done]. }
  clearbody byStatus. destruct byStatus as [status|]; [| done].
  unfold TaskService.ListTasks.
  destruct (if decide (query.Query r "search" = EmptyString) then _ else _)
    as [found|]; [| done].
  intros [= <-]. cbn [TaskService.Page TaskService.Limit TaskService.Tasks].
  split; [done |]. split; [done |].
  split; [etransitivity; [apply Find_length; lia | by rewrite Z.abs_eq by lia] |].
  split; [by apply Find_Forall |]. split.
  - intros Hne. rewrite (Hstatus Hne status eq_refl).
    apply Find_Forall. intros t _ [[_ Hst]%andb_true_iff _]%andb_true_iff.
    by apply bool_decide_eq_true in Hst.
  - intros Hnone. specialize (Hown Hnone). injection Hown as ->.
    apply Find_Forall. intros t _ [[Hu _]%andb_true_iff _]%andb_true_iff.
    by apply bool_decide_eq_true in Hu.
Qed.

(** X25. The pages of [ListTasks].  A successful call works on one list:
    the tasks that match the filter and the search, newest first.  The
    total it reports is the length of that list for every page; where the
    product of page and limit stays in the 64-bit range, the page holds the
    [limit] tasks after the first [(page - 1) * limit]; and where that
    product wraps around to a negative number, the page is the first page
    again. *)
Theorem list_tasks_pages `{S : Server} (filter : TaskService.TaskFilter)
    (searchQuery : string) (page limit : Z) (db : Database)
    (l : TaskService.TaskListResponse) :
  1 <= limit ->
  TaskService.ListTasks filter searchQuery page limit db = Ok l ->
  exists (found : Task -> bool) (all : list Task),
    (searchQuery = EmptyString -> forall t, found t = true) /\
    all ≡ₚ List.filter (fun t => TaskService.matches filter t && found t) (tasks db) /\
    StronglySorted (fun a b => Task_CreatedAt b <= Task_CreatedAt a) all /\
    TaskService.TotalCount l = Z.of_nat (length all) /\
    (1 <= page -> (page - 1) * limit < 2 ^ 63 ->
     TaskService.Tasks l
       = take (Z.to_nat limit) (drop (Z.to_nat ((page - 1) * limit)) all)) /\
    (int64 ((page - 1) * limit) < 0 ->
     TaskService.Tasks l = take (Z.to_nat limit) all).
Proof.
  intros Hlimit. unfold TaskService.ListTasks.
  set (search := if decide (searchQuery = EmptyString) then Ok (fun _ => true)
                 else match regex_compile searchQuery with
                      | Some re => Ok (fun t => re (Title t) || re (Description t))
                      | None => Err "Regular expression is invalid"
                      end).
  assert (forall found, search = Ok found ->
                        searchQuery = EmptyString -> forall t : Task, found t = true)
    as Hsearch.
  { intros found Hfound Hempty. unfold search in Hfound.
    rewrite decide_True in Hfound by done. by injection Hfound as <-. }
  clearbody search. destruct search as [found|]; [| done].
  intros [= <-]. cbn [TaskService.TotalCount TaskService.Tasks].
  exists found,
    (sort_desc Task_CreatedAt
       (List.filter (fun t => TaskService.matches filter t && found t) (tasks db))).
  split; [by apply Hsearch |].
  split; [apply sort_desc_perm |].
  split; [apply sort_desc_sorted |].
  split; [unfold CountDocuments; by rewrite sort_desc_perm |].
  unfold Find. rewrite decide_False by lia. rewrite Z.abs_eq by lia. split.
  - intros Hpage Hrange.
    assert (int64 ((page - 1) * limit) = (page - 1) * limit) as ->.
    { unfold int64. rewrite Z.mod_small by nia. lia. }
    by rewrite decide_False by nia.
  - intros Hneg. by rewrite decide_True by done.
Qed.

(** ** Seeding the roles *)

Lemma find_snoc_other {D : Type} (f : D -> bool) (coll : list D) (d : D) :
  f d = false -> List.find f (coll ++ [d]) = List.find f coll.
Proof.
  intros Hd. induction coll as [|x rest IH]; cbn; [by rewrite Hd |].
  by destruct (f x).
Qed.

Section update_one.
Context {D : Type} `{EqDecision D} (f : D -> bool) (set : D -> D).

Lemma UpdateOne_same (coll : list D) (x : D) :
  List.find f coll = Some x -> f (set x) = true ->
  List.find f (snd (UpdateOne f set coll)) = Some (set x).
Proof.
  intros Hfind Hset. induction coll as [|d rest IH]; cbn in *; [done |].
  destruct (f d) eqn:Hd.
  - injection Hfind as ->. cbn. by rewrite Hset.
  - destruct (UpdateOne f set rest) as [res rest']. cbn in *. rewrite Hd. by apply IH.
Qed.

Lemma UpdateOne_other (g : D -> bool) (coll : list D) :
  (forall y, f y = true -> g y = false /\ g (set y) = false) ->
  List.find g (snd (UpdateOne f set coll)) = List.find g coll.
Proof.
  intros Hother. induction coll as [|d rest IH]; cbn; [done |].
  destruct (f d) eqn:Hd.
  - destruct (Hother d Hd) as [-> Hg]. cbn. by rewrite Hg.
  - destruct (UpdateOne f set rest) as [res rest']. cbn in *. by rewrite IH.
Qed.

Lemma UpdateOne_fixed (coll : list D) (x : D) :
  List.find f coll = Some x -> set x = x -> snd (UpdateOne f set coll) = coll.
Proof.
  intros Hfind Hset. induction coll as [|d rest IH]; cbn in *; [done |].
  destruct (f d) eqn:Hd.
  - injection Hfind as ->. cbn. by rewrite Hset.
  - destruct (UpdateOne f set rest) as [res rest']. cbn in *. by rewrite IH.
Qed.

Lemma UpdateOne_pointwise (coll : list D) :
  Forall2 (fun d d' => d' = d \/ d' = set d) coll (snd (UpdateOne f set coll)).
Proof.
  induction coll as [|d rest IH]; cbn; [constructor |].
  destruct (f d); cbn.
  - constructor; [by right |]. apply Forall2_same_length_lookup_2; [done |].
    intros i x y Hx Hy. left. congruence.
  - destruct (UpdateOne f set rest) as [res rest']. cbn in *.
    constructor; [by left | done].
Qed.
End update_one.

(** The loop of [SeedDefaultRoles], by role name: after a run without
    error each default role is found with its default permissions, and the
    roles of other names are found as before. *)
Lemma seed_by_name (newID : string -> ObjectID) (defaults : list Role)
    (rs rs' : list Role) :
  NoDup (Role_Name <$> defaults) ->
  database.seed newID defaults rs = (None, rs') ->
  (forall def, def ∈ defaults ->
     exists role,
       List.find (fun r => bool_decide (Role_Name r = Role_Name def)) rs' = Some role /\
       Role_Permissions role = Role_Permissions def) /\
  (forall name, name ∉ Role_Name <$> defaults ->
     List.find (fun r => bool_decide (Role_Name r = name)) rs'
       = List.find (fun r => bool_decide (Role_Name r = name)) rs).
Proof.
  revert rs. induction defaults as [|d0 rest IH]; intros rs Hdup; cbn [database.seed].
  - intros [= <-]. split; [by intros def ?%elem_of_nil | done].
  - rewrite fmap_cons in Hdup. apply NoDup_cons in Hdup as [Hd0 Hrest].
    unfold FindOne.
    destruct (List.find (fun r => bool_decide (Role_Name r = Role_Name d0)) rs)
      as [x|] eqn:Hfind.
    + pose proof (UpdateOne_same
        (fun r => bool_decide (Role_Name r = Role_Name d0))
        (fun r => mkRole (Role_ID r) (Role_Name r) (Role_Permissions d0)) rs x Hfind)
        as Hsame.
      pose proof (fun g => UpdateOne_other
        (fun r => bool_decide (Role_Name r = Role_Name d0))
        (fun r => mkRole (Role_ID r) (Role_Name r) (Role_Permissions d0)) g rs)
        as Hother.
      destruct (UpdateOne _ _ rs) as [res rs1]. cbn [snd] in Hsame, Hother.
      intros Hseed. destruct (IH rs1 Hrest Hseed) as [Hfound Hkept].
      apply List.find_some in Hfind as [_ Hname].
      specialize (Hsame Hname).
      split.
      * intros def [->|Hin]%elem_of_cons; [| by apply Hfound].
        rewrite (Hkept _ Hd0), Hsame. by eexists.
      * intros name [Hne Hnot]%not_elem_of_cons.
        rewrite (Hkept _ Hnot). apply Hother. intros y Hy.
        apply bool_decide_eq_true in Hy. cbn.
        by rewrite bool_decide_eq_false_2 by congruence.
    + rewrite decide_True by done. unfold InsertOne. cbn [Role_ID].
      destruct (List.find (fun r => bool_decide (Role_ID r = newID (Role_Name d0))) rs)
        as [taken|]; [done |].
      intros Hseed. destruct (IH _ Hrest Hseed) as [Hfound Hkept].
      split.
      * intros def [->|Hin]%elem_of_cons; [| by apply Hfound].
        rewrite (Hkept _ Hd0).
        rewrite (find_snoc _ _ _ Hfind) by (by apply bool_decide_eq_true_2).
        by eexists.
      * intros name [Hne Hnot]%not_elem_of_cons.
        rewrite (Hkept _ Hnot). apply find_snoc_other.
        by apply bool_decide_eq_false_2.
Qed.

(** The loop keeps the documents it finds in place, with their ids and
    names, and adds new ones behind them. *)
Lemma seed_keeps (newID : string -> ObjectID) (defaults : list Role)
    (rs rs' : list Role) (e : error) :
  database.seed newID defaults rs = (e, rs') ->
  exists kept added,
    rs' = kept ++ added /\
    Forall2 (fun r r' => Role_ID r' = Role_ID r /\ Role_Name r' = Role_Name r) rs kept.
Proof.
  assert (forall l : list Role,
    Forall2 (fun r r' => Role_ID r' = Role_ID r /\ Role_Name r' = Role_Name r) l l)
    as Hrefl.
  { intros l. apply Forall2_same_length_lookup_2; [done |].
    intros i x y Hx Hy. rewrite Hx in Hy. by injection Hy as <-. }
  revert rs. induction defaults as [|d0 rest IH]; intros rs; cbn [database.seed].
  - intros [= _ <-]. exists rs, []. by rewrite app_nil_r.
  - unfold FindOne.
    destruct (List.find (fun r => bool_decide (Role_Name r = Role_Name d0)) rs)
      as [x|] eqn:Hfind.
    + pose proof (UpdateOne_pointwise
        (fun r => bool_decide (Role_Name r = Role_Name d0))
        (fun r => mkRole (Role_ID r) (Role_Name r) (Role_Permissions d0)) rs)
        as Hpoint.
      destruct (UpdateOne _ _ rs) as [res rs1]. cbn [snd] in Hpoint.
      intros Hseed. destruct (IH rs1 Hseed) as (kept & added & -> & Hkept).
      exists kept, added. split; [done |].
      assert (Forall2 (fun r r' => Role_ID r' = Role_ID r /\ Role_Name r' = Role_Name r)
                rs rs1) as Hstep
        by (eapply Forall2_impl; [exact Hpoint |]; by intros r r' [->| ->]).
      eapply Forall2_trans; [| exact Hstep | exact Hkept].
      by intros a b c [-> ->] [-> ->].
    + rewrite decide_True by done. unfold InsertOne. cbn [Role_ID].
      destruct (List.find (fun r => bool_decide (Role_ID r = newID (Role_Name d0))) rs)
        as [taken|].
      * intros [= _ <-]. exists rs, []. by rewrite app_nil_r.
      * intros Hseed. destruct (IH _ Hseed) as (kept & added & -> & Hkept).
        apply Forall2_app_inv_l in Hkept as (k1 & k2 & Hk1 & _ & ->).
        exists k1, (k2 ++ added). by rewrite app_assoc.
Qed.

(** A collection in which every default role is found with its default
    permissions is not changed by the loop. *)
Lemma seed_fixed (newID : string -> ObjectID) (defaults : list Role) (rs : list Role) :
  (forall def, def ∈ defaults ->
     exists role,
       List.find (fun r => bool_decide (Role_Name r = Role_Name def)) rs = Some role /\
       Role_Permissions role = Role_Permissions def) ->
  database.seed newID defaults rs = (None, rs).
Proof.
  induction defaults as [|d0 rest IH]; intros Hfound; cbn [database.seed]; [done |].
  destruct (Hfound d0) as (role & Hfind & Hperms); [by left |].
  unfold FindOne. rewrite Hfind.
  pose proof (UpdateOne_fixed
    (fun r => bool_decide (Role_Name r = Role_Name d0))
    (fun r => mkRole (Role_ID r) (Role_Name r) (Role_Permissions d0)) rs role Hfind)
    as Hfixed.
  destruct (UpdateOne _ _ rs) as [res rs1]. cbn [snd] in Hfixed.
  rewrite Hfixed by (rewrite <- Hperms; by destruct role).
  apply IH. intros def Hin. apply Hfound. by right.
Qed.

Lemma GetRoleByName_find (d : Database) (name : string) :
  UserService.GetRoleByName d name =
    match List.find (fun r => bool_decide (Role_Name r = name)) (roles d) with
    | Some role => Ok role
    | None => Err "role not found"
    end.
Proof.
  unfold UserService.GetRoleByName, FindOne.
  destruct (List.find _ (roles d)); [done | by rewrite decide_True].
Qed.

Lemma DefaultRoles_names : NoDup (Role_Name <$> DefaultRoles).
Proof. apply (bool_decide_unpack _). by vm_compute. Qed.

(** X26. After [SeedDefaultRoles] has run without error, a look-up by name
    finds each of Admin, Manager and User with the permissions of the
    default table, and a look-up by any other name finds what it found
    before.  The role documents that were there keep their place, id and
    name, so that the role references of users stay good; users and tasks
    are not written. *)
Theorem seeding_installs_default_roles (newID : string -> ObjectID)
    (db db' : Database) :
  database.SeedDefaultRoles newID db = (None, db') ->
  (forall name, name ∈ ["Admin"; "Manager"; "User"] ->
     exists role,
       UserService.GetRoleByName db' name = Ok role /\
       Role_Permissions role = default_permissions name) /\
  (forall name, name ∉ ["Admin"; "Manager"; "User"] ->
     UserService.GetRoleByName db' name = UserService.GetRoleByName db name) /\
  (exists kept added,
     roles db' = kept ++ added /\
     Forall2 (fun r r' => Role_ID r' = Role_ID r /\ Role_Name r' = Role_Name r)
       (roles db) kept) /\
  users db' = users db /\
  tasks db' = tasks db.
Proof.
  unfold database.SeedDefaultRoles.
  destruct (database.seed newID DefaultRoles (roles db)) as [e rs'] eqn:Hseed.
  intros [= -> <-]. cbn [roles users tasks with_roles].
  destruct (seed_by_name newID DefaultRoles (roles db) rs' DefaultRoles_names Hseed)
    as [Hfound Hkept].
  split; [| split; [| split; [by apply (seed_keeps newID DefaultRoles _ _ None) | done]]].
  - intros name Hin.
    assert (exists def,
      List.find (fun r => bool_decide (Role_Name r = name)) DefaultRoles = Some def)
      as [def Hdef].
    { repeat (apply elem_of_cons in Hin as [->|Hin]; [by eexists |]).
      by apply elem_of_nil in Hin. }
    unfold default_permissions. rewrite Hdef.
    apply find_some in Hdef as [Hin' Hname%bool_decide_eq_true]. subst name.
    destruct (Hfound def) as (role & Hfind & Hperms); [by apply list_elem_of_In |].
    exists role. rewrite GetRoleByName_find. cbn [roles with_roles]. by rewrite Hfind.
  - intros name Hnot. rewrite !GetRoleByName_find. cbn [roles with_roles].
    by rewrite (Hkept name Hnot).
Qed.

(** X27. Seeding is idempotent: in the database that a run of
    [SeedDefaultRoles] without error leaves, a second run, whatever ids it
    would draw, succeeds and changes nothing. *)
Theorem seeding_twice_changes_nothing (newID newID' : string -> ObjectID)
    (db db' : Database) :
  database.SeedDefaultRoles newID db = (None, db') ->
  database.SeedDefaultRoles newID' db' = (None, db').
Proof.
  unfold database.SeedDefaultRoles.
  destruct (database.seed newID DefaultRoles (roles db)) as [e rs'] eqn:Hseed.
  intros [= -> <-]. cbn [roles with_roles].
  destruct (seed_by_name newID DefaultRoles (roles db) rs' DefaultRoles_names Hseed)
    as [Hfound _].
  by rewrite (seed_fixed newID' DefaultRoles rs' Hfound).
Qed.

(** ** Random strings *)

Lemma get_in_range (s : string) (n : nat) :
  (n < String.length s)%nat -> exists c, String.get n s = Some c.
Proof.
  revert n. induction s as [|c s IH]; cbn; [lia |].
  intros [|n] Hn; [by eexists | apply IH; lia].
Qed.

(** X28. [GenerateRandomString] with draws inside the alphabet returns a
    string of the requested length whose byte at each position is the
    alphabet's byte at the index drawn for the position: letters and
    digits only. *)
Theorem random_string_from_charset (intn : nat -> nat) (n : nat) :
  (forall k, (intn k < String.length charset)%nat) ->
  exists s,
    GenerateRandomString intn n = Some s /\
    String.length s = n /\
    forall k, (k < n)%nat -> String.get k s = String.get (intn k) charset.
Proof.
  intros Hdraw. unfold GenerateRandomString.
  assert (forall i, exists s,
    randomBytes intn i n = Some s /\
    String.length s = n /\
    forall k, (k < n)%nat -> String.get k s = String.get (intn (i + k)%nat) charset)
    as Hfrom; [| exact (Hfrom O)].
  induction n as [|n IH]; intros i; cbn [randomBytes].
  - exists EmptyString. split; [done |]. split; [done |]. lia.
  - destruct (IH (S i)) as (t & -> & Hlen & Hget).
    destruct (get_in_range charset (intn i) (Hdraw i)) as [c Hc]. rewrite Hc.
    exists (String c t). split; [done |]. split; [cbn; by rewrite Hlen |].
    intros [|k] Hk; cbn [String.get].
    + by rewrite Nat.add_0_r.
    + rewrite Hget by lia. by rewrite Nat.add_succ_r.
Qed.

(** ** Password reset and role change, end to end *)

Lemma UpdateByID_find {D : Type} `{EqDecision D} (id_of : D -> ObjectID)
    (set : D -> D) (f : D -> bool) (coll : list D) (x : D) :
  NoDup (id_of <$> coll) ->
  (forall y, f (set y) = f y) ->
  List.find f coll = Some x ->
  List.find f (snd (UpdateByID id_of (id_of x) set coll)) = Some (set x).
Proof.
  intros Hdup Hf. induction coll as [|d rest IH]; cbn; [done |].
  rewrite fmap_cons in Hdup. apply NoDup_cons in Hdup as [Hd Hrest].
  destruct (f d) eqn:Hfd.
  - intros [= ->]. rewrite decide_True by done. cbn. by rewrite Hf, Hfd.
  - intros Hfind. destruct (decide (id_of d = id_of x)) as [Heq|Hne].
    + destruct Hd. rewrite Heq. apply list_elem_of_fmap_2.
      by apply List.find_some in Hfind as [?%list_elem_of_In _].
    + specialize (IH Hrest Hfind).
      destruct (UpdateByID id_of (id_of x) set rest) as [res rest']. cbn in *.
      by rewrite Hfd.
Qed.

(** X29. The password reset, end to end.  Where bcrypt accepts a password
    against the hash it generated for it and user ids are unique: a user
    asks for a reset, redeems the token that was placed with a new password
    whose hash differs from the stored one, and then logs in with the
    address and the new password. *)
Theorem reset_password_then_log_in `{P : Platform} (s : AuthService)
    (email newPassword entropy hashed : string) (now now1 now2 : Time)
    (st : State) (user : User) (role : Role) :
  (forall e password h,
      bcrypt_GenerateFromPassword e password = Ok h ->
      bcrypt_CompareHashAndPassword h password = true) ->
  NoDup (User_ID <$> users (db st)) ->
  UserService.GetUserByEmail (db st) email = Ok user ->
  UserService.GetRoleByID (db st) (Hex (RoleID user)) = Ok role ->
  HashPassword entropy newPassword = Ok hashed ->
  Password user <> hashed ->
  exists tok st1 st2 login,
    ForgotPassword s email now st = (None, st1) /\
    passwordResetTokens st1 !! tok = Some (User_ID user) /\
    ResetPassword s tok newPassword entropy now1 st1 = (None, st2) /\
    passwordResetTokens st2 !! tok = None /\
    LoginUser s (mkUserLoginRequest email newPassword) now2 (db st2) = Ok login /\
    Login_UserID login = Hex (User_ID user) /\
    Login_RoleName login = Role_Name role.
Proof.
  intros Hbcrypt Hdup Huser Hrole Hhash Hnew.
  destruct (ForgotPassword_places s email now st user Huser) as (tok & Htok & Hforgot).
  assert (List.find (fun u => bool_decide (Email u = email)) (users (db st)) = Some user)
    as Hmail.
  { revert Huser. unfold UserService.GetUserByEmail, FindOne.
    destruct (List.find _ (users (db st))); [congruence | by destruct (decide _)]. }
  assert (user ∈ users (db st)) as Hin
    by (by apply List.find_some in Hmail as [?%list_elem_of_In _]).
  pose proof (find_id_unique User_ID _ _ Hdup Hin) as Hbyid.
  pose proof (UpdateByID_found User_ID (User_ID user)
    (UserService.set_password hashed (DateTime now1)) (users (db st)) user Hbyid)
    as [Hres _].
  pose proof (UpdateByID_find User_ID
    (UserService.set_password hashed (DateTime now1))
    (fun u => bool_decide (Email u = email)) (users (db st)) user Hdup
    (fun _ => eq_refl) Hmail) as Hmail'.
  destruct (UpdateByID User_ID (User_ID user)
              (UserService.set_password hashed (DateTime now1)) (users (db st)))
    as [res us] eqn:Hupd.
  cbn [fst snd] in Hres, Hmail'. subst res.
  eexists tok, _, _, _. split; [exact Hforgot |].
  split; [cbn; by rewrite lookup_insert_eq |].
  unfold ResetPassword. cbn [passwordResetTokens db].
  rewrite lookup_insert_eq, Hhash. unfold UserService.UpdateUserPassword.
  rewrite Hupd. cbn [ModifiedCount].
  rewrite (decide_False (P := UserService.set_password _ _ user = user)).
  2: { intros Heq. apply (f_equal Password) in Heq. cbn in Heq. congruence. }
  rewrite decide_False by done. cbn [with_db db passwordResetTokens sweeps].
  split; [reflexivity |]. cbn [with_db db passwordResetTokens sweeps].
  split; [by rewrite lookup_delete_eq |].
  unfold LoginUser, UserService.GetUserByEmail, FindOne.
  cbn [Login_Email Login_Password users with_users]. rewrite Hmail'.
  unfold CheckPasswordHash. cbn [Password UserService.set_password].
  rewrite (Hbcrypt _ _ _ Hhash). cbn [negb].
  rewrite (GetRoleByID_roles (db st)) by done.
  change (RoleID (UserService.set_password hashed (DateTime now1) user))
    with (RoleID user).
  rewrite Hrole. split; [reflexivity |]. by split.
Qed.

(** X30. A successful [UpdateUserRole] of the service, in a database whose
    role ids are unique: the user document found under the id now carries
    the id of the role with the requested name, the response names that
    role, every other field of every user and all roles and tasks are as
    before. *)
Theorem role_update_sets_role (userID newRoleName : string) (now : Time)
    (db db' : Database) (resp : UserResponse) :
  NoDup (Role_ID <$> roles db) ->
  UserService.UpdateUserRole userID newRoleName now db = (Ok resp, db') ->
  Resp_RoleName resp = newRoleName /\
  (exists role user',
     UserService.GetRoleByName db newRoleName = Ok role /\
     UserService.GetUserByID db' userID = Ok user' /\
     RoleID user' = Role_ID role /\
     Resp_ID resp = Hex (User_ID user') /\
     Resp_Email resp = Email user') /\
  Forall2 (fun u u' => User_ID u' = User_ID u /\
                       Email u' = Email u /\
                       Password u' = Password u /\
                       IsEmailVerified u' = IsEmailVerified u /\
                       NeedsPasswordChange u' = NeedsPasswordChange u)
    (users db) (users db') /\
  roles db' = roles db /\
  tasks db' = tasks db.
Proof.
  intros Hdup. unfold UserService.UpdateUserRole.
  destruct (ObjectIDFromHex userID) as [objID|] eqn:Hid; [| by intros [=]].
  destruct (UserService.GetRoleByName db newRoleName) as [role|] eqn:Hrole;
    [| by intros [=]].
  apply GetRoleByName_Ok in Hrole as Hmember. destruct Hmember as [Hin Hname].
  pose proof (UpdateByID_pointwise User_ID objID
    (UserService.set_role_id (Role_ID role) (DateTime now)) (users db)) as Hpoint.
  pose proof (UpdateByID_modified User_ID objID
    (UserService.set_role_id (Role_ID role) (DateTime now)) (users db)) as Hmod.
  pose proof (UpdateByID_found User_ID objID
    (UserService.set_role_id (Role_ID role) (DateTime now)) (users db)) as Hfound.
  destruct (UpdateByID _ _ _ _) as [res us]. cbn [fst snd] in *.
  destruct (decide (ModifiedCount res = 0)) as [|Hnz]; [by intros [=] |].
  destruct (Hmod Hnz) as [u0 Hu0]. destruct (Hfound u0 Hu0) as [_ Hfind].
  apply find_id_Some in Hu0 as [_ Hid0]. specialize (Hfind Hid0).
  assert (UserService.GetUserByID (with_users db us) userID
            = Ok (UserService.set_role_id (Role_ID role) (DateTime now) u0)) as Hget.
  { unfold UserService.GetUserByID, FindOne. rewrite Hid. cbn [users with_users].
    by rewrite Hfind. }
  rewrite Hget. cbn [User_ID UserService.set_role_id].
  unfold UserService.GetUserResponseByID.
  rewrite Hid0. rewrite (proj2 (GetUserByID_Hex (with_users db us) objID _) Hfind).
  change (RoleID (UserService.set_role_id (Role_ID role) (DateTime now) u0))
    with (Role_ID role).
  rewrite (GetRoleByID_roles db) by done.
  rewrite (GetRoleByID_unique db role Hdup Hin).
  intros [= <- <-]. cbn.
  split; [done |]. split.
  { exists role, (UserService.set_role_id (Role_ID role) (DateTime now) u0).
    split; [done |]. split; [exact Hget |]. cbn. by rewrite Hid0. }
  split; [| done].
  eapply Forall2_impl; [exact Hpoint |]. by intros u u' [->| ->].
Qed.

(** ** The small platform meets the contract of the encoders *)

Lemma pos_of_bits_of_pos (p : positive) : sim.pos_of_bits (sim.bits_of_pos p) = Some p.
Proof. induction p as [p IH|p IH|]; cbn; by rewrite ?IH. Qed.

Lemma json_agree_refl (v : Value) : json_agree v v.
Proof. by destruct v. Qed.

Lemma sim_codec_laws : CodecLaws sim.platform.
Proof.
  split.
  - apply hex_round_trip.
  - apply hex_no_dot.
  - intros m. exists m. split.
    + cbn. unfold sim.Unmarshal, sim.Marshal.
      by rewrite pos_of_bits_of_pos, decode_encode.
    + intros k _. destruct (m !! k); constructor. apply json_agree_refl.
Qed.

(** ** The properties on the small world *)

Lemma session_token_round_trip_witness :
  CodecLaws sim.platform /\
  exists tok claims,
    @GenerateToken sim.platform sim.adaID "ada@example.com" sim.adminRoleID
      (jwtSecret sim.service) 0 = Ok tok /\
    @ValidateToken sim.platform sim.service tok 1 = Ok claims /\
    claims !! "user_id" = Some (VString (Hex sim.adaID)) /\
    claims !! "role_id" = Some (VString (Hex sim.adminRoleID)).
Proof.
  split; [exact sim_codec_laws |].
  apply (@session_token_round_trip sim.platform sim_codec_laws sim.service
           sim.adaID "ada@example.com" sim.adminRoleID 0 1).
  - by vm_compute.
  - by vm_compute.
Defined.

(** Counterexample to C5 as stated. The session secret followed by a zero
    byte is a different secret, and the verifier configured with it accepts
    a token issued under the session secret (by
    [zero_padded_secret_accepted], on every platform). *)
Lemma token_accepted_under_zero_padded_secret :
  let S1 := "session-secret" in
  let S2 := "session-secret" +:+ String zero EmptyString in
  S2 <> S1 /\
  exists tok claims,
    @GenerateToken sim.platform sim.adaID "ada@example.com" sim.adminRoleID S1 0
      = Ok tok /\
    @ValidateToken sim.platform (mkAuthService S2 "reset-secret") tok 1 = Ok claims.
Proof.
  cbv zeta. split; [by intros [=] |].
  apply (@zero_padded_secret_accepted sim.platform sim_codec_laws);
    [cbn; lia | by vm_compute | by vm_compute].
Qed.

Lemma peer_admin_immutable_witness :
  let r := mkRequest (Hex sim.bobID) (Some (mkUpdateUserRoleRequest "User"))
             (Some sim.adaContext) in
  HasPermission sim.adaContext "user:update_role" = true /\
  snd (@UserHandler.UpdateUserRole sim.validator r 1 sim.database) = sim.database /\
  fst (@UserHandler.UpdateUserRole sim.validator r 1 sim.database)
    = RespondWithError StatusForbidden "You cannot change the role of another Admin.".
Proof.
  cbv zeta. split; [reflexivity |].
  destruct (@peer_admin_immutable sim.validator
              (mkRequest (Hex sim.bobID) (Some (mkUpdateUserRoleRequest "User"))
                 (Some sim.adaContext))
              1 sim.database sim.adaContext sim.bob
              (mkRole sim.adminRoleID "Admin" (default_permissions "Admin")))
    as (Hdb & _ & Hresp); try reflexivity.
  - by vm_compute.
  - split; [exact Hdb |]. by apply (Hresp (mkUpdateUserRoleRequest "User")).
Defined.

Lemma update_task_own_or_all_witness :
  let r := mkRequest (Hex sim.carolTaskID)
             (Some (mkUpdateTaskRequest None None (Some "done")))
             (Some sim.carolContext) in
  HasPermission sim.carolContext "task:update_all" = false /\
  fst (@TaskHandler.UpdateTask sim.validator r 1 sim.database)
    <> RespondWithError StatusForbidden "You do not have permission to update this task".
Proof.
  cbv zeta. split; [reflexivity |].
  destruct (@update_task_own_or_all sim.validator
              (mkRequest (Hex sim.carolTaskID)
                 (Some (mkUpdateTaskRequest None None (Some "done")))
                 (Some sim.carolContext))
              1 sim.database (mkUpdateTaskRequest None None (Some "done"))
              sim.carolContext sim.carolTask)
    as ((_ & Hgranted) & _); try reflexivity.
  apply Hgranted. by right.
Defined.

Lemma token_rejected_under_other_tag_witness :
  CodecLaws sim.platform /\
  forall tok,
    @GenerateToken sim.platform sim.adaID "ada@example.com" sim.adminRoleID
      "session-secret" 0 = Ok tok ->
    exists msg,
      @ValidateToken sim.platform (mkAuthService "another-secret" "reset-secret") tok 1
        = Err msg.
Proof.
  split; [exact sim_codec_laws |]. intros tok Htok.
  destruct (@token_rejected_under_other_tag sim.platform sim_codec_laws
              "session-secret" "another-secret" "reset-secret" 1) as (Hsession & _ & _).
  destruct (Hsession sim.adaID "ada@example.com" sim.adminRoleID 0 tok) as [Hrej _];
    [| exact Htok | exact Hrej].
  apply (proj1 (bool_decide_eq_false _)). by vm_compute.
Defined.

(** Counterexample to C8 as stated. Bob exists, is flagged, and supplies
    his temporary password, yet the call fails: the new password has 73
    bytes and hashing it is refused. *)
Lemma temporary_password_change_can_fail :
  let out := @ChangeTemporaryPassword sim.platform sim.service sim.bobID
               "temporary-1" sim.longPassword "entropy" 1 sim.database in
  (exists user,
     UserService.GetUserByID sim.database (Hex sim.bobID) = Ok user /\
     NeedsPasswordChange user = true /\
     @CheckPasswordHash sim.platform "temporary-1" (Password user) = true) /\
  String.length sim.longPassword = 73%nat /\
  @HashPassword sim.platform "entropy" sim.longPassword
    = Err "bcrypt: password length exceeds 72 bytes" /\
  fst out = Some "failed to hash new password" /\
  snd out = sim.database.
Proof.
  cbv zeta. split; [exists sim.bob; by vm_compute |].
  split; [reflexivity |]. split; [reflexivity |]. by vm_compute.
Qed.

(** Counterexample to C2 as stated. Carol's reset token is placed by
    [ForgotPassword]; the first redemption, with a new password of 73
    bytes, fails on hashing and has taken the token out of the registry,
    her password being as it was. And a token that has been redeemed
    successfully, placed again by a [ForgotPassword] within the same
    second, is redeemed a second time. *)
Lemma reset_token_claim_fails :
  let st1 := snd (@ForgotPassword sim.platform sim.service "carol@example.com" 0 sim.state) in
  exists tok,
    @GeneratePasswordResetToken sim.platform sim.carolID
      (passwordResetSecret sim.service) 0 = Ok tok /\
    passwordResetTokens st1 !! tok = Some sim.carolID /\
    (let out := @ResetPassword sim.platform sim.service tok sim.longPassword
                  "entropy" 1 st1 in
     @HashPassword sim.platform "entropy" sim.longPassword
       = Err "bcrypt: password length exceeds 72 bytes" /\
     fst out = Some "failed to hash new password" /\
     passwordResetTokens (snd out) !! tok = None /\
     db (snd out) = sim.database) /\
    (let st2 := snd (@ResetPassword sim.platform sim.service tok "first-password"
                       "entropy" 1 st1) in
     let st3 := snd (@ForgotPassword sim.platform sim.service "carol@example.com" 2 st2) in
     fst (@ResetPassword sim.platform sim.service tok "first-password" "entropy" 1 st1)
       = None /\
     fst (@ResetPassword sim.platform sim.service tok "second-password" "entropy" 3 st3)
       = None).
Proof.
  cbv zeta. eexists. split; [reflexivity |].
  split; [by vm_compute |]. split; [by vm_compute |]. by vm_compute.
Qed.

(** ** The further properties on the small world *)

Lemma sim_bcrypt_law (e password hashed : string) :
  sim.GenerateFromPassword e password = Ok hashed ->
  sim.CompareHashAndPassword hashed password = true.
Proof.
  unfold sim.GenerateFromPassword, sim.CompareHashAndPassword.
  case_decide; [done |]. intros [= <-]. by apply bool_decide_eq_true_2.
Qed.

Lemma returned_Ok {A : Type} (default : A) (x : result A) :
  match x with Ok _ => true | Err _ => false end = true ->
  x = Ok (sim.returned default x).
Proof. by destruct x. Qed.

Lemma expired_session_token_rejected_witness :
  exists tok,
    @GenerateToken sim.platform sim.adaID "ada@example.com" sim.adminRoleID
      (jwtSecret sim.service) 0 = Ok tok /\
    @ValidateToken sim.platform sim.service tok (time.Hour * 24)
      = Err "token has invalid claims: token is expired" /\
    @middleware.JWTAuth sim.platform sim.authMiddleware "task:create"
      ("Bearer " +:+ tok) (time.Hour * 24) sim.database
      = inl (RespondWithError StatusUnauthorized
               "Invalid or expired token: token has invalid claims: token is expired").
Proof.
  apply (@expired_session_token_rejected sim.platform sim_codec_laws hex_no_space
           sim.service sim.authMiddleware "task:create" sim.adaID "ada@example.com"
           sim.adminRoleID 0 (time.Hour * 24) sim.database).
  - lia.
  - by vm_compute.
  - by vm_compute.
  - reflexivity.
Defined.

Lemma reset_token_round_trip_witness :
  exists tok,
    @GeneratePasswordResetToken sim.platform sim.carolID "reset-secret" 0 = Ok tok /\
    @ValidatePasswordResetToken sim.platform tok "reset-secret" 1 = Ok sim.carolID.
Proof.
  destruct (@reset_token_round_trip sim.platform sim_codec_laws sim.carolID
              "reset-secret" 0 1) as (tok & Hgen & Hval).
  - lia.
  - by vm_compute.
  - exists tok. split; [exact Hgen |]. rewrite Hval. reflexivity.
Defined.

Lemma bearer_session_token_context_witness :
  exists tok,
    @GenerateToken sim.platform sim.adaID "ada@example.com" sim.adminRoleID
      (jwtSecret sim.service) 0 = Ok tok /\
    @middleware.JWTAuth sim.platform sim.authMiddleware "task:create"
      ("Bearer " +:+ tok) 1 sim.database = inr sim.adaContext.
Proof.
  destruct (@bearer_session_token_context sim.platform sim_codec_laws hex_no_space
              sim.authMiddleware "task:create" sim.adaID "ada@example.com"
              sim.adminRoleID 0 1 sim.database) as (tok & Hgen & Hauth).
  - by vm_compute.
  - by vm_compute.
  - exists tok. split; [exact Hgen |]. rewrite Hauth. reflexivity.
Defined.

Lemma login_token_opens_routes_witness :
  @LoginUser sim.platform sim.service
    (mkUserLoginRequest "ada@example.com" "ada-password") 0 sim.database
    = Ok sim.adaLogin /\
  exists authContext,
    @middleware.JWTAuth sim.platform sim.authMiddleware EmptyString
      ("Bearer " +:+ Login_Token sim.adaLogin) 1 sim.database = inr authContext /\
    Hex (UserID authContext) = Login_UserID sim.adaLogin /\
    RoleName authContext = Login_RoleName sim.adaLogin.
Proof.
  assert (@LoginUser sim.platform sim.service
            (mkUserLoginRequest "ada@example.com" "ada-password") 0 sim.database
          = Ok sim.adaLogin) as Hlogin
    by (apply returned_Ok; vm_compute; reflexivity).
  split; [exact Hlogin |].
  apply (@login_token_opens_routes sim.platform sim_codec_laws hex_no_space
           sim.authMiddleware (mkUserLoginRequest "ada@example.com" "ada-password")
           0 1 sim.database sim.adaLogin).
  - exact Hlogin.
  - reflexivity.
  - by vm_compute.
  - by vm_compute.
Defined.

Lemma issued_token_keeps_role_after_role_change_witness :
  let d' := snd (UserService.UpdateUserRole (Hex sim.adaID) "User" 5000000
                   sim.database) in
  exists after user',
    @middleware.JWTAuth sim.platform sim.authMiddleware EmptyString
      ("Bearer " +:+ Login_Token sim.adaLogin) 6000000 d' = inr after /\
    RoleName after = "Admin" /\
    UserService.GetUserByID d' (Hex sim.adaID) = Ok user' /\
    RoleID user' = sim.userRoleID.
Proof.
  cbv zeta.
  edestruct (@issued_token_keeps_role_after_role_change sim.platform sim_codec_laws
               hex_no_space sim.authMiddleware
               (mkUserLoginRequest "ada@example.com" "ada-password") "User"
               0 5000000 6000000 sim.database
               (snd (UserService.UpdateUserRole (Hex sim.adaID) "User" 5000000
                       sim.database))
               sim.adaLogin)
    as (before & after & newRole & user' & _ & Hafter & _ & Hname & _ & Hrole & Huser & Hid).
  - apply returned_Ok. vm_compute; reflexivity.
  - change (Login_UserID sim.adaLogin) with (Hex sim.adaID). vm_compute; reflexivity.
  - reflexivity.
  - by vm_compute.
  - by vm_compute.
  - exists after, user'. split; [exact Hafter |]. split; [exact Hname |].
    split; [exact Huser |]. rewrite Hid.
    vm_compute in Hrole. by injection Hrole as <-.
Defined.

Lemma reset_and_verification_tokens_refused_witness :
  @GeneratePasswordResetToken sim.platform sim.carolID (jwtSecret sim.service) 0
    = Ok sim.carolResetToken /\
  exists response,
    @middleware.JWTAuth sim.platform sim.authMiddleware EmptyString
      ("Bearer " +:+ sim.carolResetToken) 1 sim.database = inl response.
Proof.
  assert (@GeneratePasswordResetToken sim.platform sim.carolID (jwtSecret sim.service) 0
          = Ok sim.carolResetToken) as Htok
    by (apply returned_Ok; vm_compute; reflexivity).
  split; [exact Htok |].
  destruct (@reset_and_verification_tokens_refused sim.platform sim_codec_laws
              sim.authMiddleware EmptyString ("Bearer " +:+ sim.carolResetToken)
              "Bearer" 1 sim.database) as [Hreset _].
  apply (Hreset sim.carolID (jwtSecret sim.service) 0 sim.carolResetToken Htok).
  apply bearer_header.
  exact (@signed_token_no_space sim.platform hex_no_space _ _ _ Htok).
Defined.

Lemma routes_closed_to_default_roles_witness :
  @middleware.JWTAuth sim.platform sim.authMiddleware api.GetUserByID_permission
    ("Bearer " +:+ Login_Token sim.adaLogin) 1 sim.database <> inr sim.adaContext /\
  @middleware.JWTAuth sim.platform sim.authMiddleware api.GetTasks_permission
    ("Bearer " +:+ Login_Token sim.adaLogin) 1 sim.database <> inr sim.adaContext.
Proof.
  destruct (@routes_closed_to_default_roles sim.platform sim.authMiddleware
              ("Bearer " +:+ Login_Token sim.adaLogin) 1 sim.database
              sim.adaContext "Admin")
    as [Hprofile Htasks].
  - reflexivity.
  - split; [exact Hprofile |]. apply Htasks; [by left |].
    apply elem_of_cons. by left.
Defined.

Lemma deleted_task_is_gone_witness :
  let d' := snd (TaskService.DeleteTask (Hex sim.carolTaskID) sim.database) in
  TaskService.GetTaskByID sim.database (Hex sim.carolTaskID) = Ok sim.carolTask /\
  TaskService.GetTaskByID d' (Hex sim.carolTaskID) = Err "task not found".
Proof.
  cbv zeta. split; [vm_compute; reflexivity |].
  apply (deleted_task_is_gone (Hex sim.carolTaskID) sim.database).
  - apply (bool_decide_unpack _). by vm_compute.
  - vm_compute; reflexivity.
Defined.

Lemma task_ids_stay_unique_witness :
  NoDup (Task_ID <$> tasks sim.database) /\
  NoDup (Task_ID <$> tasks (snd (TaskService.CreateTask sim.adaTask sim.freshID 1
                                   sim.database))).
Proof.
  assert (NoDup (Task_ID <$> tasks sim.database)) as Hdup
    by (apply (bool_decide_unpack _); by vm_compute).
  split; [exact Hdup |].
  apply (task_ids_stay_unique sim.database sim.adaTask sim.freshID
           (Hex sim.adaTaskID) (mkUpdateTaskRequest None None (Some "done")) 1 Hdup).
Defined.

Lemma registration_assigns_role_witness :
  let out := @RegisterUser sim.platform sim.service
               (mkUserRegisterRequest "dave@example.com" "dave-password") false
               EmptyString "entropy" sim.daveID 1 sim.database in
  exists resp,
    fst out = Ok resp /\
    Resp_ID resp = Hex sim.daveID /\
    Resp_RoleName resp = "User" /\
    Resp_NeedsPasswordChange resp = false.
Proof.
  cbv zeta. eexists. split; [vm_compute; reflexivity |].
  edestruct (@registration_assigns_role sim.platform sim.service
               (mkUserRegisterRequest "dave@example.com" "dave-password") false
               EmptyString "entropy" sim.daveID 1 sim.database)
    as (Hid & _ & Hname & Hflag & _).
  - apply (bool_decide_unpack _). by vm_compute.
  - vm_compute; reflexivity.
  - split; [exact Hid |]. split; [exact Hname | exact Hflag].
Defined.

Lemma registered_user_can_log_in_witness :
  let out := @RegisterUser sim.platform sim.service
               (mkUserRegisterRequest "dave@example.com" "dave-password") false
               EmptyString "entropy" sim.daveID 1 sim.database in
  exists login,
    @LoginUser sim.platform sim.service
      (mkUserLoginRequest "dave@example.com" "dave-password") 2 (snd out) = Ok login /\
    Login_UserID login = Hex sim.daveID /\
    Login_RoleName login = "User".
Proof.
  cbv zeta.
  edestruct (@registered_user_can_log_in sim.platform sim.service
               (mkUserRegisterRequest "dave@example.com" "dave-password") false
               EmptyString "entropy" sim.daveID 1 2 sim.database)
    as (login & Hlogin & Hid & Hname & _).
  - exact sim_bcrypt_law.
  - vm_compute; reflexivity.
  - exists login. split; [exact Hlogin |]. split; [exact Hid | exact Hname].
Defined.

Lemma user_without_role_is_stored_witness :
  let user := mkUser NilObjectID "Dave" "Doe" "dave@example.com" "$sim$dave-password"
                sim.freshID EmptyString false false 0 0 in
  let out := UserService.CreateUser user sim.daveID 1 sim.database in
  fst out = Err "failed to retrieve role for new user" /\
  exists stored,
    UserService.GetUserByID (snd out) (Hex sim.daveID) = Ok stored /\
    Email stored = "dave@example.com".
Proof.
  cbv zeta.
  destruct (user_without_role_is_stored
              (mkUser NilObjectID "Dave" "Doe" "dave@example.com" "$sim$dave-password"
                 sim.freshID EmptyString false false 0 0)
              sim.daveID 1 sim.database "role not found")
    as (stored & Hout & _ & Hmail & _ & Hget).
  - apply (bool_decide_unpack _). by vm_compute.
  - vm_compute; reflexivity.
  - rewrite Hout. split; [reflexivity |]. exists stored. by split.
Defined.

Lemma profile_update_self_or_permitted_witness :
  let r := mkRequest (Hex sim.adaID)
             (Some (mkUpdateUserProfileRequest (Some "Adele") None None))
             (Some sim.carolContext) in
  Hex (UserID sim.carolContext) <> Vars_id r /\
  RoleName sim.carolContext = "User" /\
  snd (@UserHandler.UpdateUserProfile sim.profileValidator r 5000000 sim.database)
    = snd (UserService.UpdateUserProfile (Hex sim.adaID)
             (mkUpdateUserProfileRequest (Some "Adele") None None) 5000000
             sim.database).
Proof.
  cbv zeta. split; [by vm_compute |]. split; [reflexivity |].
  destruct (@profile_update_self_or_permitted sim.profileValidator
              (mkRequest (Hex sim.adaID)
                 (Some (mkUpdateUserProfileRequest (Some "Adele") None None))
                 (Some sim.carolContext))
              5000000 sim.database
              (mkUpdateUserProfileRequest (Some "Adele") None None) sim.carolContext)
    as (_ & Hgranted & Hdefault); [reflexivity | reflexivity | reflexivity |].
  apply Hgranted. apply (Hdefault "User"); [| reflexivity].
  apply elem_of_cons. right. apply elem_of_cons. right. apply elem_of_cons. by left.
Defined.

Lemma verify_email_ignores_token_witness :
  let r := query.mkRequest EmptyString
             (fun k => if decide (k = "token") then "not-a-token" else EmptyString)
             (Some sim.bobContext) in
  let r' := query.mkRequest EmptyString
              (fun k => if decide (k = "token") then "x" else EmptyString)
              (Some sim.bobContext) in
  AuthHandler.VerifyEmail r' 5000000 sim.database
    = AuthHandler.VerifyEmail r 5000000 sim.database /\
  fst (AuthHandler.VerifyEmail r 5000000 sim.database)
    = RespondWithJSON StatusOK (MessagePayload "Email verified successfully.").
Proof.
  cbv zeta.
  destruct (verify_email_ignores_token
              (query.mkRequest EmptyString
                 (fun k => if decide (k = "token") then "not-a-token" else EmptyString)
                 (Some sim.bobContext))
              (query.mkRequest EmptyString
                 (fun k => if decide (k = "token") then "x" else EmptyString)
                 (Some sim.bobContext))
              5000000 sim.database) as [Hsame Hverified]; [done | done | done |].
  split; [exact Hsame |].
  by destruct (Hverified sim.bobContext sim.bob) as [Hresp _].
Defined.

Lemma listed_tasks_are_own_witness :
  let r := query.mkRequest EmptyString
             (fun k => if decide (k = "user_id") then Hex sim.adaID else EmptyString)
             (Some sim.carolContext) in
  exists l,
    @TaskHandler.GetTasks sim.server r sim.database = WroteTaskList l /\
    Forall (fun t => Task_UserID t = sim.carolID) (TaskService.Tasks l).
Proof.
  cbv zeta. eexists. split; [vm_compute; reflexivity |].
  eapply (@listed_tasks_are_own sim.server
            (query.mkRequest EmptyString
               (fun k => if decide (k = "user_id") then Hex sim.adaID else EmptyString)
               (Some sim.carolContext))
            sim.database sim.carolContext).
  - reflexivity.
  - vm_compute; reflexivity.
  - reflexivity.
Defined.

Lemma list_tasks_pages_witness :
  exists l all,
    @TaskService.ListTasks sim.server (TaskService.mkTaskFilter None None)
      EmptyString 4611686018427387905 2 sim.database = Ok l /\
    int64 ((4611686018427387905 - 1) * 2) < 0 /\
    all ≡ₚ tasks sim.database /\
    TaskService.TotalCount l = 2 /\
    TaskService.Tasks l = take 2 all.
Proof.
  edestruct (@list_tasks_pages sim.server (TaskService.mkTaskFilter None None)
               EmptyString 4611686018427387905 2 sim.database)
    as (found & all & Hfound & Hperm & _ & Hcount & _ & Hwrap).
  - lia.
  - vm_compute; reflexivity.
  - eexists _, all. split; [vm_compute; reflexivity |]. split; [by vm_compute |].
    assert (all ≡ₚ tasks sim.database) as Hall.
    { rewrite Hperm. cbn [List.filter tasks sim.database].
      by rewrite !Hfound by reflexivity. }
    split; [exact Hall |]. split.
    + rewrite Hcount, Hall. reflexivity.
    + apply Hwrap. by vm_compute.
Defined.

Lemma seeding_installs_default_roles_witness :
  database.SeedDefaultRoles sim.seedID sim.emptyDatabase
    = (None, mkDatabase [] sim.seededRoles []) /\
  exists role,
    UserService.GetRoleByName (mkDatabase [] sim.seededRoles []) "Manager" = Ok role /\
    Role_Permissions role = default_permissions "Manager".
Proof.
  split; [vm_compute; reflexivity |].
  destruct (seeding_installs_default_roles sim.seedID sim.emptyDatabase
              (mkDatabase [] sim.seededRoles [])) as (Hfound & _).
  - vm_compute; reflexivity.
  - apply Hfound. apply elem_of_cons. right. apply elem_of_cons. by left.
Defined.

Lemma seeding_twice_changes_nothing_witness :
  database.SeedDefaultRoles (fun _ => sim.freshID) (mkDatabase [] sim.seededRoles [])
    = (None, mkDatabase [] sim.seededRoles []).
Proof.
  apply (seeding_twice_changes_nothing sim.seedID (fun _ => sim.freshID)
           sim.emptyDatabase).
  vm_compute; reflexivity.
Defined.

Lemma random_string_from_charset_witness :
  exists s,
    GenerateRandomString (fun k => Nat.min (7 * k) 61) 12 = Some s /\
    String.length s = 12%nat.
Proof.
  destruct (random_string_from_charset (fun k => Nat.min (7 * k) 61) 12)
    as (s & Hs & Hlen & _).
  - intros k. change (String.length charset) with 62%nat. lia.
  - exists s. by split.
Defined.

Lemma reset_password_then_log_in_witness :
  exists tok st1 st2 login,
    @ForgotPassword sim.platform sim.service "carol@example.com" 0 sim.state
      = (None, st1) /\
    @ResetPassword sim.platform sim.service tok "new-password" "entropy" 5000000 st1
      = (None, st2) /\
    @LoginUser sim.platform sim.service
      (mkUserLoginRequest "carol@example.com" "new-password") 6000000 (db st2)
      = Ok login /\
    Login_UserID login = Hex sim.carolID.
Proof.
  destruct (@reset_password_then_log_in sim.platform sim.service "carol@example.com"
              "new-password" "entropy" "$sim$new-password" 0 5000000 6000000
              sim.state sim.carol
              (mkRole sim.userRoleID "User" (default_permissions "User")))
    as (tok & st1 & st2 & login & Hforgot & _ & Hreset & _ & Hlogin & Hid & _).
  - exact sim_bcrypt_law.
  - apply (bool_decide_unpack _). by vm_compute.
  - vm_compute; reflexivity.
  - vm_compute; reflexivity.
  - reflexivity.
  - by vm_compute.
  - by exists tok, st1, st2, login.
Defined.

Lemma role_update_sets_role_witness :
  let out := UserService.UpdateUserRole (Hex sim.carolID) "Manager" 5000000
               sim.database in
  exists resp,
    fst out = Ok resp /\
    Resp_RoleName resp = "Manager" /\
    roles (snd out) = roles sim.database.
Proof.
  cbv zeta. eexists. split; [vm_compute; reflexivity |].
  edestruct (role_update_sets_role (Hex sim.carolID) "Manager" 5000000 sim.database)
    as (Hname & _ & _ & Hroles & _).
  - apply (bool_decide_unpack _). by vm_compute.
  - vm_compute; reflexivity.
  - split; [exact Hname | exact Hroles].
Defined.
